(** * MediConnect hospital backend: bed/admission coordination, appointment
    queue numbers, dashboard summary and inventory updates.

    A shallow embedding of the Express route handlers of
    [routes/admissions.js], [routes/beds.js], [routes/patients.js],
    [routes/appointments.js], [routes/inventory.js] and
    [routes/dashboard.js] over an explicit store with one finite map per
    table of [prisma/migrations/20250422124939_init/migration.sql].

    Conventions of the embedding.
    - A table is a finite map from the primary key [id] (TEXT) to a row; the
      store-managed columns [createdAt] and [updatedAt] are left out.
    - A nullable column is an [option]; [None] is SQL NULL.
    - Every handler is a function from the store to a new store and a reply.
      The [catch] block of a handler answers 500 and leaves the store as the
      last committed write left it.
    - A request body is typed: a field that a validator restricts to an
      enumeration has the enumeration type, a date field is absent (or
      falsy) or carries the instant [new Date(..)] reads from it, a text
      field is absent or a string, an integer field an integer. The
      modules named after the route files hold the handlers, from the
      point where [validationResult(req)] is empty; the module [routes]
      puts the validator chains that a typed body can fail in front of
      them (an id that is not a UUID, an empty name, a negative quantity,
      a time that is not HH:MM).
    - express-validator is not part of the repository. Its UUID test is a
      parameter [isUUID] of every route that uses it.
    - The primary key Prisma generates for a new row is an input of the
      handler; the store refuses a key already in use.
    - [new Date()] is the input [now].
    - The foreign keys of the migration are enforced on deletion: RESTRICT
      makes the delete fail, SET NULL clears the referencing column.
    - [handle] and [run] serve requests one after the other, each at its
      handler. A request that a validator turns away leaves the store as it
      is, so the stores the routes reach are among those [run] reaches. The
      module [steps] splits the two creation handlers that check and then
      write at their [await]s, and [serve_turns] interleaves overlapping
      requests call by call. *)

From Stdlib Require Import ZArith Ascii.
From Stdlib Require PrimFloat FloatOps SpecFloat Uint63.
From stdpp Require Import gmap strings list fin_maps sorting pretty.

Local Open Scope Z_scope.

(** ** Enumerations of the schema *)

Inductive Role := ADMIN | DOCTOR | RECEPTIONIST | INVENTORY_MANAGER.
Inductive Gender := MALE | FEMALE | OTHER.
Inductive AppointmentStatus :=
  SCHEDULED | IN_QUEUE | IN_PROGRESS | COMPLETED | CANCELLED.
(** [AppointmentType] and [WardType] share the names GENERAL and EMERGENCY;
    the appointment types live in a module of their own. *)
Module AppointmentType.
Inductive t := GENERAL | FOLLOW_UP | SPECIALIST | EMERGENCY.
End AppointmentType.
Inductive BedStatus := AVAILABLE | OCCUPIED | MAINTENANCE.
Inductive WardType := GENERAL | ICU | EMERGENCY | PEDIATRIC | MATERNITY | PSYCHIATRIC.
Inductive AdmissionStatus := ACTIVE | DISCHARGED | TRANSFERRED.
Inductive InventoryCategory := MEDICINE | EQUIPMENT | SUPPLIES.

#[global] Instance Role_eq_dec : EqDecision Role.
Proof. solve_decision. Defined.
#[global] Instance AppointmentStatus_eq_dec : EqDecision AppointmentStatus.
Proof. solve_decision. Defined.
#[global] Instance BedStatus_eq_dec : EqDecision BedStatus.
Proof. solve_decision. Defined.
#[global] Instance AdmissionStatus_eq_dec : EqDecision AdmissionStatus.
Proof. solve_decision. Defined.

(** ** Rows *)

Module User.
Record t := mk {
  email : string;
  firstName : string;
  lastName : string;
  role : Role
}.
End User.

Module Patient.
Record t := mk {
  mrn : string;
  firstName : string;
  lastName : string;
  dateOfBirth : Z;
  gender : Gender;
  contactNumber : string;
  email : option string;
  address : string;
  bloodGroup : option string;
  allergies : option string;
  medicalHistory : option string
}.
End Patient.

Module Appointment.
Record t := mk {
  patientId : string;
  doctorId : string;
  date : Z;
  time : string;
  status : AppointmentStatus;
  type : AppointmentType.t;
  notes : option string;
  queueNumber : option Z
}.
End Appointment.

Module Bed.
Record t := mk {
  bedNumber : string;
  ward : WardType;
  status : BedStatus;
  patientId : option string;
  admissionDate : option Z;
  expectedDischargeDate : option Z;
  notes : option string
}.
End Bed.

Module Admission.
Record t := mk {
  patientId : string;
  bedId : string;
  admissionDate : Z;
  dischargeDate : option Z;
  doctorId : string;
  diagnosis : option string;
  status : AdmissionStatus;
  notes : option string
}.
End Admission.

Module InventoryItem.
Record t := mk {
  name : string;
  category : InventoryCategory;
  description : option string;
  unit : string;
  quantity : Z;
  reorderLevel : Z;
  cost : PrimFloat.float;
  supplier : option string;
  expiryDate : option Z;
  location : option string
}.
End InventoryItem.

(** ** The store: one table per Prisma delegate *)

Record Store := mkStore {
  user : gmap string User.t;
  patient : gmap string Patient.t;
  appointment : gmap string Appointment.t;
  bed : gmap string Bed.t;
  admission : gmap string Admission.t;
  inventoryItem : gmap string InventoryItem.t
}.

Definition empty_store : Store := mkStore ∅ ∅ ∅ ∅ ∅ ∅.

Definition with_patient (t : gmap string Patient.t) (s : Store) : Store :=
  mkStore (user s) t (appointment s) (bed s) (admission s) (inventoryItem s).
Definition with_appointment (t : gmap string Appointment.t) (s : Store) : Store :=
  mkStore (user s) (patient s) t (bed s) (admission s) (inventoryItem s).
Definition with_bed (t : gmap string Bed.t) (s : Store) : Store :=
  mkStore (user s) (patient s) (appointment s) t (admission s) (inventoryItem s).
Definition with_admission (t : gmap string Admission.t) (s : Store) : Store :=
  mkStore (user s) (patient s) (appointment s) (bed s) t (inventoryItem s).
Definition with_inventoryItem (t : gmap string InventoryItem.t) (s : Store) : Store :=
  mkStore (user s) (patient s) (appointment s) (bed s) (admission s) t.

(** ** JavaScript values of a request body *)

(** Truthiness of a string: only the empty string is falsy. *)
Definition truthy_string (x : string) : bool := negb (String.eqb x "").

(** Truthiness of an integer number. *)
Definition truthy_int (x : Z) : bool := negb (x =? 0).

(** Truthiness of a number (a binary64 float): 0, -0 and NaN are falsy. *)
Definition truthy_number (x : PrimFloat.float) : bool :=
  negb (PrimFloat.eqb x PrimFloat.zero || PrimFloat.is_nan x).

(** [a || b] where [a] is a possibly absent body field and [b] a column. *)
Definition or_string (a : option string) (b : option string) : option string :=
  match a with
  | Some x => if truthy_string x then Some x else b
  | None => b
  end.

(** [a || b] where the column [b] is NOT NULL. *)
Definition or_string_req (a : option string) (b : string) : string :=
  match a with
  | Some x => if truthy_string x then x else b
  | None => b
  end.

Definition or_int (a : option Z) (b : Z) : Z :=
  match a with
  | Some x => if truthy_int x then x else b
  | None => b
  end.

Definition or_number (a : option PrimFloat.float) (b : PrimFloat.float) : PrimFloat.float :=
  match a with
  | Some x => if truthy_number x then x else b
  | None => b
  end.

(** [!x] for a possibly absent string field. *)
Definition falsy_field (a : option string) : bool :=
  match a with
  | Some x => negb (truthy_string x)
  | None => true
  end.

(** Prisma leaves a column alone when the [data] object holds [undefined]
    for it. *)
Definition set_if_defined {A} (a : option A) (old : option A) : option A :=
  match a with
  | Some x => Some x
  | None => old
  end.

(** ** Replies *)

(** What a route sends: [res.status(code).json(body)];
    [res.status(code).json({error: true, message})];
    [res.status(400).json({errors: errors.array()})], the messages of the
    validators that failed; the 500 of the [catch] block; or nothing. *)
Inductive Reply (A : Type) : Type :=
| json (code : Z) (body : A)
| error (code : Z) (message : string)
| invalid (errors : list string)
| store_error
| no_reply.
Arguments json {A} code body.
Arguments error {A} code message.
Arguments invalid {A} errors.
Arguments store_error {A}.
Arguments no_reply {A}.

(** ** Prisma queries and writes on one table *)

(** The values an INTEGER column of the migration holds (32 bits, signed).
    The client refuses to write any other: the call throws and the [catch]
    block of the handler answers 500. *)
Definition fits_int4 (z : Z) : bool :=
  (-2147483648 <=? z) && (z <=? 2147483647).

Section Table.
Context {V : Type}.

Definition findUnique (id : string) (t : gmap string V) : option V := t !! id.

Definition findMany (P : V → Prop) `{∀ v, Decision (P v)}
    (t : gmap string V) : list (string * V) :=
  map_to_list (filter (λ kv, P kv.2) t).

Definition findFirst (P : V → Prop) `{∀ v, Decision (P v)}
    (t : gmap string V) : option (string * V) :=
  head (findMany P t).

Definition count (P : V → Prop) `{∀ v, Decision (P v)}
    (t : gmap string V) : Z :=
  Z.of_nat (length (findMany P t)).

(** Writes fail ([None]) as the client throws: a missing row on update or
    delete, a primary key in use on create. *)
Definition update (id : string) (f : V → V) (t : gmap string V)
    : option (gmap string V * V) :=
  match t !! id with
  | Some v => Some (<[id := f v]> t, f v)
  | None => None
  end.

Definition create (id : string) (v : V) (t : gmap string V)
    : option (gmap string V * V) :=
  match t !! id with
  | Some _ => None
  | None => Some (<[id := v]> t, v)
  end.

Definition delete_row (id : string) (t : gmap string V)
    : option (gmap string V) :=
  match t !! id with
  | Some _ => Some (delete id t)
  | None => None
  end.

End Table.

(** ** Transactions

    [prisma.$transaction(async (prisma) => ...)]: the callback threads a
    working copy of the store and may throw; the copy replaces the store
    only when the callback returns. *)

Definition Tx (A : Type) : Type := Store → option (Store * A).

#[global] Instance tx_ret : MRet Tx := λ A a s, Some (s, a).

#[global] Instance tx_bind : MBind Tx := λ A B k m s,
  match m s with
  | Some (s', a) => k a s'
  | None => None
  end.

Definition transaction {A} (m : Tx A) (s : Store) : Store * option A :=
  match m s with
  | Some (s', a) => (s', Some a)
  | None => (s, None)
  end.

Definition bed_update (id : string) (f : Bed.t → Bed.t) : Tx Bed.t :=
  λ s, match update id f (bed s) with
       | Some (t, b) => Some (with_bed t s, b)
       | None => None
       end.

Definition admission_create (id : string) (a : Admission.t) : Tx Admission.t :=
  λ s, match create id a (admission s) with
       | Some (t, a') => Some (with_admission t s, a')
       | None => None
       end.

Definition admission_update (id : string) (f : Admission.t → Admission.t)
    : Tx Admission.t :=
  λ s, match update id f (admission s) with
       | Some (t, a) => Some (with_admission t s, a)
       | None => None
       end.

Definition admission_delete (id : string) : Tx unit :=
  λ s, match delete_row id (admission s) with
       | Some t => Some (with_admission t s, tt)
       | None => None
       end.

(** [!doctor || doctor.role !== 'DOCTOR'] *)
Definition not_a_doctor (u : option User.t) : bool :=
  match u with
  | None => true
  | Some d => bool_decide (User.role d ≠ DOCTOR)
  end.

(** The [data] object that frees a bed, shared by discharge, transfer and
    the deletion of an active admission. *)
Definition free_bed (b : Bed.t) : Bed.t :=
  Bed.mk (Bed.bedNumber b) (Bed.ward b) AVAILABLE None None None (Bed.notes b).

(** ** routes/admissions.js *)

Module admissions.

Module PostBody.
Record t := mk {
  patientId : string;
  bedId : string;
  doctorId : string;
  admissionDate : Z;
  expectedDischargeDate : option Z;
  diagnosis : option string;
  notes : option string
}.
End PostBody.

Module PutBody.
Record t := mk {
  status : option AdmissionStatus;
  dischargeDate : option Z;
  diagnosis : option string;
  notes : option string
}.
End PutBody.

(** The [data] of the two writes of [router.post('/')]. *)
Definition occupy (body : PostBody.t) (b : Bed.t) : Bed.t :=
  Bed.mk (Bed.bedNumber b) (Bed.ward b) OCCUPIED
         (Some (PostBody.patientId body))
         (Some (PostBody.admissionDate body))
         (PostBody.expectedDischargeDate body)
         (Bed.notes b).

Definition new_admission (body : PostBody.t) : Admission.t :=
  Admission.mk (PostBody.patientId body) (PostBody.bedId body)
               (PostBody.admissionDate body) None (PostBody.doctorId body)
               (PostBody.diagnosis body) ACTIVE (PostBody.notes body).

(** The transaction of [router.post('/')]: occupy the bed, then create the
    admission. *)
Definition post_tx (newId : string) (body : PostBody.t) : Tx Admission.t :=
  _ ← bed_update (PostBody.bedId body) (occupy body);
  admission_create newId (new_admission body).

(** The handler of [router.post('/')]: create a new admission. *)
Definition post (newId : string) (body : PostBody.t) (s : Store)
    : Store * Reply (string * Admission.t) :=
  match findUnique (PostBody.patientId body) (patient s) with
  | None => (s, error 400 "Patient not found")
  | Some _ =>
    match findUnique (PostBody.bedId body) (bed s) with
    | None => (s, error 400 "Bed not found")
    | Some b =>
      if decide (Bed.status b ≠ AVAILABLE)
      then (s, error 400 "Bed is not available")
      else if not_a_doctor (findUnique (PostBody.doctorId body) (user s))
      then (s, error 400 "Valid doctor not found")
      else
        match findFirst (λ a, Admission.patientId a = PostBody.patientId body
                              ∧ Admission.status a = ACTIVE) (admission s) with
        | Some _ => (s, error 400 "Patient already has an active admission")
        | None =>
          match transaction (post_tx newId body) s with
          | (s', Some a) => (s', json 201 (newId, a))
          | (s', None) => (s', store_error)
          end
        end
    end
  end.

(** [req.body.status && req.body.status !== 'ACTIVE' &&
     admission.status === 'ACTIVE'] *)
Definition frees_bed (requested : option AdmissionStatus) (a : Admission.t)
    : option AdmissionStatus :=
  match requested with
  | Some st =>
      if decide (st ≠ ACTIVE ∧ Admission.status a = ACTIVE) then Some st else None
  | None => None
  end.

(** The admission [data] of the discharge or transfer branch of
    [router.put('/:id')]; [adm] is the row read before the transaction. *)
Definition close (now : Z) (st : AdmissionStatus) (body : PutBody.t)
    (adm : Admission.t) (a : Admission.t) : Admission.t :=
  Admission.mk (Admission.patientId a) (Admission.bedId a)
               (Admission.admissionDate a)
               (Some (default now (PutBody.dischargeDate body)))
               (Admission.doctorId a) (Admission.diagnosis a) st
               (or_string (PutBody.notes body) (Admission.notes adm)).

(** The transaction of that branch: update the admission, then free the
    bed. *)
Definition put_tx (now : Z) (id : string) (st : AdmissionStatus)
    (body : PutBody.t) (adm : Admission.t) : Tx Admission.t :=
  updated ← admission_update id (close now st body adm);
  _ ← bed_update (Admission.bedId adm) free_bed;
  mret updated.

(** The write of the simple branch of [router.put('/:id')]. *)
Definition put_simple (body : PutBody.t) (adm : Admission.t) (a : Admission.t)
    : Admission.t :=
  Admission.mk (Admission.patientId a) (Admission.bedId a)
               (Admission.admissionDate a) (Admission.dischargeDate a)
               (Admission.doctorId a)
               (or_string (PutBody.diagnosis body) (Admission.diagnosis adm))
               (Admission.status a)
               (or_string (PutBody.notes body) (Admission.notes adm)).

(** The handler of [router.put('/:id')]: update an admission. *)
Definition put (now : Z) (id : string) (body : PutBody.t) (s : Store)
    : Store * Reply (string * Admission.t) :=
  match findUnique id (admission s) with
  | None => (s, error 404 "Admission not found")
  | Some adm =>
    match frees_bed (PutBody.status body) adm with
    | Some st =>
      match transaction (put_tx now id st body adm) s with
      | (s', Some a) => (s', json 200 (id, a))
      | (s', None) => (s', store_error)
      end
    | None =>
      match update id (put_simple body adm) (admission s) with
      | Some (t, a) => (with_admission t s, json 200 (id, a))
      | None => (s, store_error)
      end
    end
  end.

(** The transaction of [router.delete('/:id')] for an active admission. *)
Definition delete_tx (id : string) (adm : Admission.t) : Tx unit :=
  _ ← bed_update (Admission.bedId adm) free_bed;
  admission_delete id.

(** The handler of [router.delete('/:id')]: delete an admission. *)
Definition delete (id : string) (s : Store) : Store * Reply string :=
  match findUnique id (admission s) with
  | None => (s, error 404 "Admission not found")
  | Some adm =>
    if decide (Admission.status adm = ACTIVE) then
      match transaction (delete_tx id adm) s with
      | (s', Some _) => (s', json 200 "Admission deleted successfully")
      | (s', None) => (s', store_error)
      end
    else
      match delete_row id (admission s) with
      | Some t => (with_admission t s, json 200 "Admission deleted successfully")
      | None => (s, store_error)
      end
  end.

End admissions.

(** ** routes/beds.js *)

Module beds.

Module PostBody.
Record t := mk {
  bedNumber : string;
  ward : WardType;
  status : option BedStatus;
  notes : option string
}.
End PostBody.

Module PutBody.
Record t := mk {
  status : option BedStatus;
  patientId : option string;
  admissionDate : option Z;
  expectedDischargeDate : option Z;
  notes : option string
}.
End PutBody.

(** The handler of [router.post('/')]: create a new bed. [auth] is [req.auth.userId]. *)
Definition post (auth : option string) (newId : string) (body : PostBody.t)
    (s : Store) : Store * Reply (string * Bed.t) :=
  if falsy_field auth then (s, error 401 "Unauthenticated request")
  else
    match findFirst (λ b, Bed.bedNumber b = PostBody.bedNumber body) (bed s) with
    | Some _ => (s, error 400 "Bed number already exists")
    | None =>
      match create newId
              (Bed.mk (PostBody.bedNumber body) (PostBody.ward body)
                      (default AVAILABLE (PostBody.status body))
                      None None None (PostBody.notes body))
              (bed s) with
      | Some (t, b) => (with_bed t s, json 201 (newId, b))
      | None => (s, store_error)
      end
    end.

(** The three writes of [router.put('/:id')]. *)
Definition put_release (st : BedStatus) (body : PutBody.t) (b : Bed.t) : Bed.t :=
  Bed.mk (Bed.bedNumber b) (Bed.ward b) st None None None
         (set_if_defined (PutBody.notes body) (Bed.notes b)).

Definition put_occupy (now : Z) (pid : string) (body : PutBody.t) (b : Bed.t)
    : Bed.t :=
  Bed.mk (Bed.bedNumber b) (Bed.ward b) OCCUPIED (Some pid)
         (Some (default now (PutBody.admissionDate body)))
         (PutBody.expectedDischargeDate body)
         (set_if_defined (PutBody.notes body) (Bed.notes b)).

Definition put_notes (body : PutBody.t) (b : Bed.t) : Bed.t :=
  Bed.mk (Bed.bedNumber b) (Bed.ward b) (Bed.status b) (Bed.patientId b)
         (Bed.admissionDate b) (Bed.expectedDischargeDate b)
         (set_if_defined (PutBody.notes body) (Bed.notes b)).

(** The outcome of the block "Handle status changes": write the release
    and return, answer 400, or fall through. *)
Inductive StatusChange := Release (st : BedStatus) | Reject | Continue.

Definition status_change (body : PutBody.t) (b : Bed.t) : StatusChange :=
  match PutBody.status body with
  | Some st =>
      if decide (st ≠ Bed.status b) then
        match st with
        | AVAILABLE | MAINTENANCE => Release st
        | OCCUPIED =>
            if falsy_field (PutBody.patientId body) then Reject else Continue
        end
      else Continue
  | None => Continue
  end.

Definition write_bed (id : string) (f : Bed.t → Bed.t) (s : Store)
    : Store * Reply (string * Bed.t) :=
  match update id f (bed s) with
  | Some (t, b) => (with_bed t s, json 200 (id, b))
  | None => (s, store_error)
  end.

(** The handler of [router.put('/:id')]: update a bed. The release branch returns the
    updated row from the handler without writing a response. *)
Definition put (now : Z) (id : string) (body : PutBody.t) (s : Store)
    : Store * Reply (string * Bed.t) :=
  match findUnique id (bed s) with
  | None => (s, error 404 "Bed not found")
  | Some b =>
    match status_change body b with
    | Release st =>
      match update id (put_release st body) (bed s) with
      | Some (t, _) => (with_bed t s, no_reply)
      | None => (s, store_error)
      end
    | Reject =>
      (s, error 400 "Patient ID is required when setting bed status to occupied")
    | Continue =>
      if falsy_field (PutBody.patientId body)
      then write_bed id (put_notes body) s
      else
        let pid := default "" (PutBody.patientId body) in
        match findUnique pid (patient s) with
        | None => (s, error 400 "Patient not found")
        | Some _ => write_bed id (put_occupy now pid body) s
        end
    end
  end.

(** The handler of [router.delete('/:id')]: delete a bed. The foreign key
    [Admission_bedId_fkey] is ON DELETE RESTRICT. *)
Definition delete (id : string) (s : Store) : Store * Reply string :=
  match findUnique id (bed s) with
  | None => (s, error 404 "Bed not found")
  | Some b =>
    if decide (Bed.status b = OCCUPIED)
    then (s, error 400 "Cannot delete an occupied bed")
    else
      match findMany (λ a, Admission.bedId a = id ∧ Admission.status a = ACTIVE)
                     (admission s) with
      | _ :: _ => (s, error 400 "Cannot delete a bed with active admissions")
      | [] =>
        match findFirst (λ a, Admission.bedId a = id) (admission s) with
        | Some _ => (s, store_error)
        | None =>
          match delete_row id (bed s) with
          | Some t => (with_bed t s, json 200 "Bed deleted successfully")
          | None => (s, store_error)
          end
        end
      end
  end.

End beds.

(** ** routes/patients.js *)

Module patients.

Module PostBody.
Record t := mk {
  mrn : string;
  firstName : string;
  lastName : string;
  dateOfBirth : Z;
  gender : Gender;
  contactNumber : string;
  email : option string;
  address : string;
  bloodGroup : option string;
  allergies : option string;
  medicalHistory : option string
}.
End PostBody.

Module PutBody.
Record t := mk {
  firstName : string;
  lastName : string;
  dateOfBirth : Z;
  gender : Gender;
  contactNumber : string;
  email : option string;
  address : string;
  bloodGroup : option string;
  allergies : option string;
  medicalHistory : option string
}.
End PutBody.

(** The handler of [router.post('/')]: create a new patient. *)
Definition post (newId : string) (body : PostBody.t) (s : Store)
    : Store * Reply (string * Patient.t) :=
  match findFirst (λ p, Patient.mrn p = PostBody.mrn body) (patient s) with
  | Some _ => (s, error 400 "Medical Record Number (MRN) already in use")
  | None =>
    match create newId
            (Patient.mk (PostBody.mrn body) (PostBody.firstName body)
               (PostBody.lastName body) (PostBody.dateOfBirth body)
               (PostBody.gender body) (PostBody.contactNumber body)
               (PostBody.email body) (PostBody.address body)
               (PostBody.bloodGroup body) (PostBody.allergies body)
               (PostBody.medicalHistory body))
            (patient s) with
    | Some (t, p) => (with_patient t s, json 201 (newId, p))
    | None => (s, store_error)
    end
  end.

Definition put_data (body : PutBody.t) (p : Patient.t) : Patient.t :=
  Patient.mk (Patient.mrn p) (PutBody.firstName body) (PutBody.lastName body)
    (PutBody.dateOfBirth body) (PutBody.gender body)
    (PutBody.contactNumber body)
    (set_if_defined (PutBody.email body) (Patient.email p))
    (PutBody.address body)
    (set_if_defined (PutBody.bloodGroup body) (Patient.bloodGroup p))
    (set_if_defined (PutBody.allergies body) (Patient.allergies p))
    (set_if_defined (PutBody.medicalHistory body) (Patient.medicalHistory p)).

(** The handler of [router.put('/:id')]: update a patient. *)
Definition put (id : string) (body : PutBody.t) (s : Store)
    : Store * Reply (string * Patient.t) :=
  match findUnique id (patient s) with
  | None => (s, error 404 "Patient not found")
  | Some _ =>
    match update id (put_data body) (patient s) with
    | Some (t, p) => (with_patient t s, json 200 (id, p))
    | None => (s, store_error)
    end
  end.

(** [Bed_patientId_fkey] is ON DELETE SET NULL. *)
Definition unlink_patient (id : string) (b : Bed.t) : Bed.t :=
  if decide (Bed.patientId b = Some id)
  then Bed.mk (Bed.bedNumber b) (Bed.ward b) (Bed.status b) None
              (Bed.admissionDate b) (Bed.expectedDischargeDate b) (Bed.notes b)
  else b.

Definition active_appointment (st : AppointmentStatus) : Prop :=
  st = SCHEDULED ∨ st = IN_QUEUE ∨ st = IN_PROGRESS.

(** The handler of [router.delete('/:id')]: delete a patient. [Appointment_patientId_fkey]
    and [Admission_patientId_fkey] are ON DELETE RESTRICT. *)
Definition delete (id : string) (s : Store) : Store * Reply string :=
  match findUnique id (patient s) with
  | None => (s, error 404 "Patient not found")
  | Some _ =>
    match findMany (λ a, Appointment.patientId a = id
                         ∧ active_appointment (Appointment.status a))
                   (appointment s),
          findMany (λ a, Admission.patientId a = id ∧ Admission.status a = ACTIVE)
                   (admission s) with
    | [], [] =>
      match findFirst (λ a, Appointment.patientId a = id) (appointment s),
            findFirst (λ a, Admission.patientId a = id) (admission s) with
      | None, None =>
        match delete_row id (patient s) with
        | Some t =>
            (with_bed (unlink_patient id <$> bed s) (with_patient t s),
             json 200 "Patient deleted successfully")
        | None => (s, store_error)
        end
      | _, _ => (s, store_error)
      end
    | _, _ =>
      (s, error 400 "Cannot delete patient with active appointments or admissions")
    end
  end.

End patients.

(** ** Ordered queries *)

(** [orderBy] followed by taking the first row: the row that sorts before
    every other one ([before x y]: [x] sorts no later than [y]). *)
Definition first_by {A} (before : A → A → bool) (l : list A) : option A :=
  foldr (λ x acc, match acc with
                  | None => Some x
                  | Some y => if before x y then Some x else Some y
                  end) None l.

Fixpoint insert_by {A} (before : A → A → bool) (x : A) (l : list A) : list A :=
  match l with
  | [] => [x]
  | y :: l' => if before x y then x :: l else y :: insert_by before x l'
  end.

(** [orderBy] on a list of rows. *)
Definition sort_by {A} (before : A → A → bool) (l : list A) : list A :=
  foldr (insert_by before) [] l.

(** [ORDER BY "queueNumber" DESC] on a nullable column. Where NULL goes is
    the database's choice; [nulls_first] is that choice. *)
Definition desc_before (nulls_first : bool) (a b : option Z) : bool :=
  match a, b with
  | Some x, Some y => y <=? x
  | None, Some _ => nulls_first
  | Some _, None => negb nulls_first
  | None, None => true
  end.

(** The migration is written for PostgreSQL (CREATE TYPE .. AS ENUM,
    TIMESTAMP(3), DOUBLE PRECISION), where NULLS FIRST is the default of a
    DESC ordering. *)
Definition postgresql_nulls_first : bool := true.

(** ** routes/appointments.js *)

Module appointments.

Module PostBody.
Record t := mk {
  patientId : string;
  doctorId : string;
  date : Z;
  time : string;
  status : AppointmentStatus;
  type : AppointmentType.t;
  notes : option string
}.
End PostBody.

Module PutBody.
Record t := mk {
  status : option AppointmentStatus;
  notes : option string
}.
End PutBody.

(** [prisma.appointment.findFirst({where: {date, status: {not: 'CANCELLED'}},
     orderBy: {queueNumber: 'desc'}})] *)
Definition queue_desc (nulls_first : bool) (a b : string * Appointment.t)
    : bool :=
  desc_before nulls_first (Appointment.queueNumber a.2)
                          (Appointment.queueNumber b.2).

Definition highestQueue (nulls_first : bool) (date : Z)
    (t : gmap string Appointment.t) : option (string * Appointment.t) :=
  first_by (queue_desc nulls_first)
    (findMany (λ a, Appointment.date a = date ∧ Appointment.status a ≠ CANCELLED) t).

(** "Generate queue number". *)
Definition queueNumber (nulls_first : bool) (body : PostBody.t)
    (t : gmap string Appointment.t) : option Z :=
  if decide (PostBody.status body ≠ CANCELLED) then
    match highestQueue nulls_first (PostBody.date body) t with
    | Some (_, h) =>
        match Appointment.queueNumber h with
        | Some q => if truthy_int q then Some (q + 1) else Some 1
        | None => Some 1
        end
    | None => Some 1
    end
  else None.

(** The handler of [router.post('/')]: create a new appointment. *)
Definition post (nulls_first : bool) (newId : string) (body : PostBody.t)
    (s : Store) : Store * Reply (string * Appointment.t) :=
  match findUnique (PostBody.patientId body) (patient s) with
  | None => (s, error 400 "Patient not found")
  | Some _ =>
    if not_a_doctor (findUnique (PostBody.doctorId body) (user s))
    then (s, error 400 "Valid doctor not found")
    else
      match create newId
              (Appointment.mk (PostBody.patientId body) (PostBody.doctorId body)
                 (PostBody.date body) (PostBody.time body)
                 (PostBody.status body) (PostBody.type body)
                 (PostBody.notes body)
                 (queueNumber nulls_first body (appointment s)))
              (appointment s) with
      | Some (t, a) => (with_appointment t s, json 201 (newId, a))
      | None => (s, store_error)
      end
  end.

Definition put_data (body : PutBody.t) (a : Appointment.t) : Appointment.t :=
  Appointment.mk (Appointment.patientId a) (Appointment.doctorId a)
    (Appointment.date a) (Appointment.time a)
    (default (Appointment.status a) (PutBody.status body))
    (Appointment.type a)
    (set_if_defined (PutBody.notes body) (Appointment.notes a))
    (Appointment.queueNumber a).

(** The handler of [router.put('/:id')]: update an appointment. *)
Definition put (id : string) (body : PutBody.t) (s : Store)
    : Store * Reply (string * Appointment.t) :=
  match findUnique id (appointment s) with
  | None => (s, error 404 "Appointment not found")
  | Some _ =>
    match update id (put_data body) (appointment s) with
    | Some (t, a) => (with_appointment t s, json 200 (id, a))
    | None => (s, store_error)
    end
  end.

(** The handler of [router.delete('/:id')]: delete an appointment. *)
Definition delete (id : string) (s : Store) : Store * Reply string :=
  match findUnique id (appointment s) with
  | None => (s, error 404 "Appointment not found")
  | Some _ =>
    match delete_row id (appointment s) with
    | Some t => (with_appointment t s, json 200 "Appointment deleted successfully")
    | None => (s, store_error)
    end
  end.

End appointments.

(** ** routes/inventory.js *)

Module inventory.

Module PostBody.
Record t := mk {
  name : string;
  category : InventoryCategory;
  description : option string;
  unit : string;
  quantity : Z;
  reorderLevel : Z;
  cost : PrimFloat.float;
  supplier : option string;
  expiryDate : option Z;
  location : option string
}.
End PostBody.

Module PutBody.
Record t := mk {
  name : option string;
  description : option string;
  quantity : option Z;
  reorderLevel : option Z;
  cost : option PrimFloat.float;
  supplier : option string;
  expiryDate : option Z;
  location : option string
}.
End PutBody.

(** The columns "quantity" and "reorderLevel" are INTEGER. *)
Definition fits_columns (i : InventoryItem.t) : bool :=
  fits_int4 (InventoryItem.quantity i)
  && fits_int4 (InventoryItem.reorderLevel i).

(** The handler of [router.post('/')]: create a new inventory item. *)
Definition post (newId : string) (body : PostBody.t) (s : Store)
    : Store * Reply (string * InventoryItem.t) :=
  let data :=
    InventoryItem.mk (PostBody.name body) (PostBody.category body)
      (PostBody.description body) (PostBody.unit body)
      (PostBody.quantity body) (PostBody.reorderLevel body)
      (PostBody.cost body) (PostBody.supplier body)
      (PostBody.expiryDate body) (PostBody.location body) in
  if fits_columns data then
    match create newId data (inventoryItem s) with
    | Some (t, i) => (with_inventoryItem t s, json 201 (newId, i))
    | None => (s, store_error)
    end
  else (s, store_error).

(** The [data] object of [router.put('/:id')], built from the body and the
    row [item] read before the write. *)
Definition put_data (body : PutBody.t) (item : InventoryItem.t)
    (i : InventoryItem.t) : InventoryItem.t :=
  InventoryItem.mk
    (or_string_req (PutBody.name body) (InventoryItem.name item))
    (InventoryItem.category i)
    (or_string (PutBody.description body) (InventoryItem.description item))
    (InventoryItem.unit i)
    (default (InventoryItem.quantity item) (PutBody.quantity body))
    (or_int (PutBody.reorderLevel body) (InventoryItem.reorderLevel item))
    (or_number (PutBody.cost body) (InventoryItem.cost item))
    (or_string (PutBody.supplier body) (InventoryItem.supplier item))
    (set_if_defined (PutBody.expiryDate body) (InventoryItem.expiryDate item))
    (or_string (PutBody.location body) (InventoryItem.location item)).

(** The handler of [router.put('/:id')]: update an inventory item. *)
Definition put (id : string) (body : PutBody.t) (s : Store)
    : Store * Reply (string * InventoryItem.t) :=
  match findUnique id (inventoryItem s) with
  | None => (s, error 404 "Inventory item not found")
  | Some item =>
    if fits_columns (put_data body item item) then
      match update id (put_data body item) (inventoryItem s) with
      | Some (t, i) => (with_inventoryItem t s, json 200 (id, i))
      | None => (s, store_error)
      end
    else (s, store_error)
  end.

(** The handler of [router.delete('/:id')]: delete an inventory item. *)
Definition delete (id : string) (s : Store) : Store * Reply string :=
  match findUnique id (inventoryItem s) with
  | None => (s, error 404 "Inventory item not found")
  | Some _ =>
    match delete_row id (inventoryItem s) with
    | Some t => (with_inventoryItem t s, json 200 "Inventory item deleted successfully")
    | None => (s, store_error)
    end
  end.

End inventory.

(** ** routes/dashboard.js *)

(** A count as a JavaScript number (exact below 2^53). *)
Definition to_number (z : Z) : PrimFloat.float :=
  PrimFloat.of_uint63 (Uint63.of_Z z).

(** [Math.round]: the nearest integer, a tie going up; NaN and the
    infinities, which have no JSON number, are [None]. A finite float is
    [(-1)^s * m * 2^e]. *)
Definition Math_round (x : PrimFloat.float) : option Z :=
  match FloatOps.Prim2SF x with
  | SpecFloat.S754_zero _ => Some 0
  | SpecFloat.S754_finite s m e =>
      let n := if s then Z.neg m else Z.pos m in
      Some (if 0 <=? e then n * 2 ^ e
            else (2 * n + 2 ^ (- e)) / 2 ^ (- e + 1))
  | SpecFloat.S754_infinity _ => None
  | SpecFloat.S754_nan => None
  end.

Module dashboard.

Record Summary := mkSummary {
  totalPatients : Z;
  totalAppointments : Z;
  appointmentsToday : Z;
  availableBeds : Z;
  occupiedBeds : Z;
  totalBeds : Z;
  occupancyRate : option Z;
  lowStockItems : Z;
  recentAdmissions : list (string * Admission.t);
  upcomingAppointments : list (string * Appointment.t)
}.

(** [allBeds > 0 ? Math.round((occupiedBeds / allBeds) * 100) : 0] *)
Definition rate (occupiedBeds allBeds : Z) : option Z :=
  if 0 <? allBeds
  then Math_round (PrimFloat.mul (PrimFloat.div (to_number occupiedBeds)
                                                (to_number allBeds))
                                 (to_number 100))
  else Some 0.

(** [orderBy: {admissionDate: 'desc'}] *)
Definition admission_before (a b : string * Admission.t) : bool :=
  Admission.admissionDate b.2 <=? Admission.admissionDate a.2.

(** [orderBy: [{date: 'asc'}, {time: 'asc'}]] *)
Definition appointment_before (a b : string * Appointment.t) : bool :=
  (Appointment.date a.2 <? Appointment.date b.2)
  || ((Appointment.date a.2 =? Appointment.date b.2)
      && String.leb (Appointment.time a.2) (Appointment.time b.2)).

(** [router.get('/summary')]. [today] and [tomorrow] are the instants of
    local midnight the handler computes from the clock. *)
Definition summary (today tomorrow : Z) (s : Store) : Summary :=
  let allBeds := count (λ _, True) (bed s) in
  let occupied := count (λ b, Bed.status b = OCCUPIED) (bed s) in
  let available := count (λ b, Bed.status b = AVAILABLE) (bed s) in
  mkSummary
    (count (λ _, True) (patient s))
    (count (λ _, True) (appointment s))
    (count (λ a, today ≤ Appointment.date a ∧ Appointment.date a < tomorrow)
           (appointment s))
    available
    occupied
    allBeds
    (rate occupied allBeds)
    (count (λ i, InventoryItem.quantity i ≤ InventoryItem.reorderLevel i)
           (inventoryItem s))
    (take 5 (sort_by admission_before (findMany (λ _, True) (admission s))))
    (take 5 (sort_by appointment_before
               (findMany (λ a, today ≤ Appointment.date a
                               ∧ (Appointment.status a = SCHEDULED
                                  ∨ Appointment.status a = IN_QUEUE))
                         (appointment s)))).

End dashboard.

(** ** The service as a transition system *)

Inductive Request :=
| POST_patients (newId : string) (body : patients.PostBody.t)
| PUT_patients (id : string) (body : patients.PutBody.t)
| DELETE_patients (id : string)
| POST_appointments (newId : string) (body : appointments.PostBody.t)
| PUT_appointments (id : string) (body : appointments.PutBody.t)
| DELETE_appointments (id : string)
| POST_beds (auth : option string) (newId : string) (body : beds.PostBody.t)
| PUT_beds (now : Z) (id : string) (body : beds.PutBody.t)
| DELETE_beds (id : string)
| POST_admissions (newId : string) (body : admissions.PostBody.t)
| PUT_admissions (now : Z) (id : string) (body : admissions.PutBody.t)
| DELETE_admissions (id : string)
| POST_inventory (newId : string) (body : inventory.PostBody.t)
| PUT_inventory (id : string) (body : inventory.PutBody.t)
| DELETE_inventory (id : string).

(** The store after one mutating request. *)
Definition handle (r : Request) (s : Store) : Store :=
  match r with
  | POST_patients newId body => (patients.post newId body s).1
  | PUT_patients id body => (patients.put id body s).1
  | DELETE_patients id => (patients.delete id s).1
  | POST_appointments newId body =>
      (appointments.post postgresql_nulls_first newId body s).1
  | PUT_appointments id body => (appointments.put id body s).1
  | DELETE_appointments id => (appointments.delete id s).1
  | POST_beds auth newId body => (beds.post auth newId body s).1
  | PUT_beds now id body => (beds.put now id body s).1
  | DELETE_beds id => (beds.delete id s).1
  | POST_admissions newId body => (admissions.post newId body s).1
  | PUT_admissions now id body => (admissions.put now id body s).1
  | DELETE_admissions id => (admissions.delete id s).1
  | POST_inventory newId body => (inventory.post newId body s).1
  | PUT_inventory id body => (inventory.put id body s).1
  | DELETE_inventory id => (inventory.delete id s).1
  end.

(** The store after a sequence of requests, served one after the other. *)
Definition run (rs : list Request) (s : Store) : Store :=
  foldl (λ s r, handle r s) s rs.

(** The requests that write a bed's status directly. *)
Definition writes_bed_directly (r : Request) : bool :=
  match r with
  | POST_beds _ _ _ | PUT_beds _ _ _ => true
  | _ => false
  end.

(** The requests served by routes/admissions.js. *)
Definition is_admission_request (r : Request) : bool :=
  match r with
  | POST_admissions _ _ | PUT_admissions _ _ _ | DELETE_admissions _ => true
  | _ => false
  end.

(** ** Properties of a store *)

(** Admission [aid] is ACTIVE and references bed [bid]. *)
Definition active_on (s : Store) (bid aid : string) : Prop :=
  ∃ a, admission s !! aid = Some a
       ∧ Admission.status a = ACTIVE ∧ Admission.bedId a = bid.

Definition exactly_one_active (s : Store) (bid : string) : Prop :=
  ∃ aid, active_on s bid aid ∧ ∀ aid', active_on s bid aid' → aid' = aid.

(** A bed is OCCUPIED if and only if exactly one ACTIVE admission references
    it. *)
Definition bed_admission_paired (s : Store) : Prop :=
  ∀ bid b, bed s !! bid = Some b →
    (Bed.status b = OCCUPIED ↔ exactly_one_active s bid).

(** The form of the pairing the admission handlers maintain: one ACTIVE
    admission on an OCCUPIED bed, none on any other bed. *)
Definition coordinated (s : Store) : Prop :=
  ∀ bid b, bed s !! bid = Some b →
    (Bed.status b = OCCUPIED → exactly_one_active s bid)
    ∧ (Bed.status b ≠ OCCUPIED → ∀ aid, ¬ active_on s bid aid).

(** No two ACTIVE admissions share a patient. *)
Definition one_active_per_patient (s : Store) : Prop :=
  ∀ i j a b, admission s !! i = Some a → admission s !! j = Some b →
    Admission.status a = ACTIVE → Admission.status b = ACTIVE →
    Admission.patientId a = Admission.patientId b → i = j.

(** The store after a successful admission. *)
Definition admitted (newId : string) (body : admissions.PostBody.t)
    (b : Bed.t) (s : Store) : Store :=
  with_admission (<[newId := admissions.new_admission body]> (admission s))
    (with_bed (<[admissions.PostBody.bedId body := admissions.occupy body b]>
                 (bed s)) s).

(** The store after a discharge or transfer. *)
Definition closed (now : Z) (id : string) (st : AdmissionStatus)
    (body : admissions.PutBody.t) (adm : Admission.t) (b : Bed.t)
    (s : Store) : Store :=
  with_bed (<[Admission.bedId adm := free_bed b]> (bed s))
    (with_admission (<[id := admissions.close now st body adm adm]>
                       (admission s)) s).

(** ** Queue numbers, in the words of the specification *)

(** The largest number of a list, if it has one. *)
Definition max_of (l : list Z) : option Z :=
  foldr (λ x acc, Some (match acc with
                        | Some y => Z.max x y
                        | None => x
                        end)) None l.

(** The queue numbers of the appointments on [date] whose status is not
    CANCELLED. *)
Definition queue_numbers (date : Z) (t : gmap string Appointment.t) : list Z :=
  omap (λ kv : string * Appointment.t, Appointment.queueNumber kv.2)
    (findMany (λ a, Appointment.date a = date ∧ Appointment.status a ≠ CANCELLED) t).

(** "Scan existing appointments on the same date with status ≠ CANCELLED,
    take the maximum existing queueNumber (default 0), assign max+1; if the
    new appointment's status is CANCELLED, its queueNumber is null." *)
Definition spec_queueNumber (date : Z) (status : AppointmentStatus)
    (t : gmap string Appointment.t) : option Z :=
  if decide (status = CANCELLED) then None
  else Some (default 0 (max_of (queue_numbers date t)) + 1).

(** "Cancelled appointments carry no queue number." *)
Definition cancelled_unnumbered (s : Store) : Prop :=
  ∀ k a, appointment s !! k = Some a →
    Appointment.status a = CANCELLED → Appointment.queueNumber a = None.

(** Two appointments of one date that are not CANCELLED carry different
    queue numbers. *)
Definition queue_numbers_distinct (s : Store) : Prop :=
  ∀ i j a b, appointment s !! i = Some a → appointment s !! j = Some b →
    i ≠ j → Appointment.date a = Appointment.date b →
    Appointment.status a ≠ CANCELLED → Appointment.status b ≠ CANCELLED →
    Appointment.queueNumber a ≠ Appointment.queueNumber b.

(** ** The occupancy rate against exact arithmetic *)




(** ** Sample data, after prisma/seed.js and the scenarios of the
    specification *)

Module Sample.

Definition doctor_id : string := "5f0c2b1e-6a3d-4c1b-9e2a-0d4b7c8e9f10".
Definition patient_id : string := "a1b2c3d4-0001-4000-8000-000000000001".
Definition bed_id : string := "b1b2c3d4-0002-4000-8000-000000000002".
Definition admission_id : string := "c1b2c3d4-0003-4000-8000-000000000003".

Definition dr_smith : User.t :=
  User.mk "dr.smith@mediconnect.com" "Emily" "Smith" DOCTOR.

(** A store that holds one doctor and nothing else. *)
Definition staffed : Store := mkStore {[doctor_id := dr_smith]} ∅ ∅ ∅ ∅ ∅.

Definition john_doe : patients.PostBody.t :=
  patients.PostBody.mk "MRN0001" "John" "Doe" 485049600000 MALE "+1234567890"
    None "123 Main St" None None None.

Definition bed_A101 : beds.PostBody.t :=
  beds.PostBody.mk "A-101" GENERAL None None.

(** One patient and one AVAILABLE bed. *)
Definition ward : Store :=
  run [POST_patients patient_id john_doe;
       POST_beds (Some doctor_id) bed_id bed_A101] staffed.

Definition admit_john : admissions.PostBody.t :=
  admissions.PostBody.mk patient_id bed_id doctor_id 1745280000000 None
    (Some "Pneumonia") None.

(** John Doe admitted to bed A-101. *)
Definition admitted_ward : Store := handle (POST_admissions admission_id admit_john) ward.

(** A bed update that names a patient. *)
Definition occupy_A101 : Request :=
  PUT_beds 1745280000000 bed_id
    (beds.PutBody.mk None (Some patient_id) None None None).

Definition item_id : string := "d1b2c3d4-0004-4000-8000-000000000004".

(** The first inventory item of the seed script; its cost is 0.5. *)
Definition paracetamol : inventory.PostBody.t :=
  inventory.PostBody.mk "Paracetamol" MEDICINE
    (Some "Pain reliever and fever reducer") "tablet" 500 100
    (PrimFloat.div (to_number 1) (to_number 2)) (Some "MediSupply Inc.")
    (Some 1735603200000) (Some "Pharmacy").

Definition paracetamol_row : InventoryItem.t :=
  InventoryItem.mk "Paracetamol" MEDICINE
    (Some "Pain reliever and fever reducer") "tablet" 500 100
    (PrimFloat.div (to_number 1) (to_number 2)) (Some "MediSupply Inc.")
    (Some 1735603200000) (Some "Pharmacy").

Definition pharmacy : Store := handle (POST_inventory item_id paracetamol) empty_store.

(** An update that sets quantity and cost to 0 and the name to the empty
    string. *)
Definition zero_update : inventory.PutBody.t :=
  inventory.PutBody.mk (Some "") None (Some 0) None (Some PrimFloat.zero)
    None None None.

(** A discharge on 2025-04-25. *)
Definition discharge : admissions.PutBody.t :=
  admissions.PutBody.mk (Some DISCHARGED) (Some 1745539200000) None None.

(** The first doctor of the seed script, under the id the script gives:
    an identity of the authentication provider, not a UUID. *)
Definition seed_doctor_id : string := "user_2NNKm4a9XlUlcF1234567".

(** The seeded doctor, John Doe and the AVAILABLE bed A-101. *)
Definition seeded_ward : Store :=
  run [POST_patients patient_id john_doe;
       POST_beds (Some seed_doctor_id) bed_id bed_A101]
      (mkStore {[seed_doctor_id := dr_smith]} ∅ ∅ ∅ ∅ ∅).

Definition admit_john_seed_doctor : admissions.PostBody.t :=
  admissions.PostBody.mk patient_id bed_id seed_doctor_id 1745280000000 None
    (Some "Pneumonia") None.

(** A second bed and a second admission of John Doe, to that bed. *)
Definition bed_id_2 : string := "b1b2c3d4-0002-4000-8000-000000000012".

Definition bed_A102 : beds.PostBody.t :=
  beds.PostBody.mk "A-102" GENERAL None None.



(** A bed update that writes notes only. *)
Definition note_A101 : Request :=
  PUT_beds 1745280000000 bed_id
    (beds.PutBody.mk None None None None (Some "Window side")).



Definition appointment_1 : string := "e1b2c3d4-0005-4000-8000-000000000001".
Definition appointment_2 : string := "e1b2c3d4-0005-4000-8000-000000000002".
Definition appointment_3 : string := "e1b2c3d4-0005-4000-8000-000000000003".
Definition appointment_4 : string := "e1b2c3d4-0005-4000-8000-000000000004".

(** An appointment of John Doe with Dr Smith on 2025-04-22. *)
Definition visit (status : AppointmentStatus) : appointments.PostBody.t :=
  appointments.PostBody.mk patient_id doctor_id 1745280000000 "09:30" status
    AppointmentType.GENERAL None.

Definition set_status (status : AppointmentStatus) : appointments.PutBody.t :=
  appointments.PutBody.mk (Some status) None.

(** One appointment is created, then cancelled. *)
Definition cancel_after_create : list Request :=
  [POST_appointments appointment_1 (visit SCHEDULED);
   PUT_appointments appointment_1 (set_status CANCELLED)].

(** A cancelled appointment is created, two scheduled ones follow, then the
    first is scheduled again. *)
Definition reschedule_cancelled : list Request :=
  [POST_appointments appointment_1 (visit CANCELLED);
   POST_appointments appointment_2 (visit SCHEDULED);
   POST_appointments appointment_3 (visit SCHEDULED);
   PUT_appointments appointment_1 (set_status SCHEDULED)].

End Sample.

(** ** The read routes

    A list route sends the rows it selects, in the order of its [orderBy];
    rows that an [include] joins to them are the rows their foreign keys
    name and are left out of the embedding. Routes ordered by a text
    column, whose order is the collation's, are not modelled. *)

(** A detail route: [param('id').isUUID().withMessage(invalid_id)], then
    [findUnique] and the 404 of a missing row. *)
Definition found {V} (isUUID : string → bool) (invalid_id what : string)
    (id : string) (t : gmap string V) : Reply (string * V) :=
  if isUUID id then
    match findUnique id t with
    | Some v => json 200 (id, v)
    | None => error 404 (what +:+ " not found")
    end
  else invalid [invalid_id].

Module admissions_get.

(** [router.get('/')]: all admissions, latest admission date first. *)
Definition all (s : Store) : list (string * Admission.t) :=
  sort_by dashboard.admission_before (findMany (λ _, True) (admission s)).

(** [router.get('/active')] *)
Definition active (s : Store) : list (string * Admission.t) :=
  sort_by dashboard.admission_before
    (findMany (λ a, Admission.status a = ACTIVE) (admission s)).

(** [router.get('/:id')] *)
Definition by_id (isUUID : string → bool) (id : string) (s : Store)
    : Reply (string * Admission.t) :=
  found isUUID "Invalid admission ID" "Admission" id (admission s).

End admissions_get.

Module beds_get.

(** [router.get('/:id')] *)
Definition by_id (isUUID : string → bool) (id : string) (s : Store)
    : Reply (string * Bed.t) :=
  found isUUID "Invalid bed ID" "Bed" id (bed s).

End beds_get.

Module patients_get.

(** [router.get('/:id')] *)
Definition by_id (isUUID : string → bool) (id : string) (s : Store)
    : Reply (string * Patient.t) :=
  found isUUID "Invalid patient ID" "Patient" id (patient s).

(** The handler of [router.get('/:id/admissions')]: the admissions of one
    patient, latest first; an unknown patient gives the empty list. *)
Definition admissions (id : string) (s : Store) : list (string * Admission.t) :=
  sort_by dashboard.admission_before
    (findMany (λ a, Admission.patientId a = id) (admission s)).

End patients_get.

Module appointments_get.

(** [orderBy: {date: 'asc'}] *)
Definition date_asc (a b : string * Appointment.t) : bool :=
  Appointment.date a.2 <=? Appointment.date b.2.

(** [router.get('/')] *)
Definition all (s : Store) : list (string * Appointment.t) :=
  sort_by date_asc (findMany (λ _, True) (appointment s)).

(** [router.get('/:id')] *)
Definition by_id (isUUID : string → bool) (id : string) (s : Store)
    : Reply (string * Appointment.t) :=
  found isUUID "Invalid appointment ID" "Appointment" id (appointment s).

End appointments_get.

Module inventory_get.

(** [orderBy: {quantity: 'asc'}] *)
Definition quantity_asc (a b : string * InventoryItem.t) : bool :=
  InventoryItem.quantity a.2 <=? InventoryItem.quantity b.2.

(** [router.get('/low-stock')] *)
Definition low_stock (s : Store) : list (string * InventoryItem.t) :=
  sort_by quantity_asc
    (findMany (λ i, InventoryItem.quantity i ≤ InventoryItem.reorderLevel i)
              (inventoryItem s)).

(** [router.get('/:id')] *)
Definition by_id (isUUID : string → bool) (id : string) (s : Store)
    : Reply (string * InventoryItem.t) :=
  found isUUID "Invalid item ID" "Inventory item" id (inventoryItem s).

End inventory_get.

(** ** routes/users.js *)

Module users.

Record Doctor := mkDoctor {
  id : string;
  firstName : string;
  lastName : string;
  email : string
}.

(** [router.get('/doctors')]: [where: {role: 'DOCTOR'}] with the [select]
    of four columns. *)
Definition doctors (s : Store) : list Doctor :=
  (λ kv : string * User.t,
     mkDoctor kv.1 (User.firstName kv.2) (User.lastName kv.2) (User.email kv.2))
  <$> findMany (λ u, User.role u = DOCTOR) (user s).

End users.

(** ** routes/dashboard.js, bed occupancy statistics *)

#[global] Instance WardType_eq_dec : EqDecision WardType.
Proof. solve_decision. Defined.

Module bed_stats.

Record WardStat := mkWardStat {
  total : Z;
  available : Z;
  occupied : Z;
  maintenance : Z
}.

Definition wards : list WardType :=
  [GENERAL; ICU; EMERGENCY; PEDIATRIC; MATERNITY; PSYCHIATRIC].

Definition statuses : list BedStatus := [AVAILABLE; OCCUPIED; MAINTENANCE].

(** [prisma.bed.groupBy({by: ['ward', 'status'], _count: {id: true}})]: one
    row for every pair of ward and status that has a bed. The order of the
    rows is the database's; the transformation below does not depend on
    it, each pair occurring once. *)
Definition bedStats (t : gmap string Bed.t) : list (WardType * BedStatus * Z) :=
  filter (λ g, 0 < g.2)
    (w ← wards; st ← statuses;
     [(w, st, count (λ b, Bed.ward b = w ∧ Bed.status b = st) t)]).

(** The key of a ward in the [wardStats] object. *)
Definition ward_key (w : WardType) : string :=
  match w with
  | GENERAL => "GENERAL"
  | ICU => "ICU"
  | EMERGENCY => "EMERGENCY"
  | PEDIATRIC => "PEDIATRIC"
  | MATERNITY => "MATERNITY"
  | PSYCHIATRIC => "PSYCHIATRIC"
  end.

(** [wardStats[ward][status] = count; wardStats[ward].total += count] *)
Definition record_count (st : BedStatus) (c : Z) (w : WardStat) : WardStat :=
  match st with
  | AVAILABLE => mkWardStat (total w + c) c (occupied w) (maintenance w)
  | OCCUPIED => mkWardStat (total w + c) (available w) c (maintenance w)
  | MAINTENANCE => mkWardStat (total w + c) (available w) (occupied w) c
  end.

(** The body of [bedStats.forEach]. *)
Definition add_stat (wardStats : gmap string WardStat)
    (stat : WardType * BedStatus * Z) : gmap string WardStat :=
  let entry := default (mkWardStat 0 0 0 0) (wardStats !! ward_key stat.1.1) in
  <[ward_key stat.1.1 := record_count stat.1.2 stat.2 entry]> wardStats.

(** [router.get('/beds/stats')] *)
Definition stats (s : Store) : gmap string WardStat :=
  foldl add_stat ∅ (bedStats (bed s)).

End bed_stats.

(** ** The validator chains

    The chains of a route run before its handler. [validationResult]
    holds one error for each chain that failed, in the order of the
    chains, and the route answers 400 with them before any store access.
    On a typed body the chains [isIn] and [isDate] hold. *)

(** [chain.withMessage(msg)], where [ok] tells whether the chain holds. *)
Definition withMessage (ok : bool) (msg : string) : list string :=
  if ok then [] else [msg].

(** [.optional()]: an absent field passes. *)
Definition optional {A} (test : A → bool) (field : option A) : bool :=
  match field with
  | Some x => test x
  | None => true
  end.

(** [const errors = validationResult(req); if (!errors.isEmpty()) return
    res.status(400).json({ errors: errors.array() })], then the handler. *)
Definition validated {A} (errors : list string)
    (handler : Store → Store * Reply A) (s : Store) : Store * Reply A :=
  match errors with
  | [] => handler s
  | _ :: _ => (s, invalid errors)
  end.

(** [.notEmpty()] *)
Definition notEmpty (x : string) : bool := negb (String.eqb x "").

(** [.isFloat({ min: 0 })] on a number: finite and not below 0. *)
Definition isFloat_min0 (x : PrimFloat.float) : bool :=
  PrimFloat.is_finite x && PrimFloat.leb PrimFloat.zero x.

Definition digit_between (lo hi : N) (c : Ascii.ascii) : bool :=
  (lo <=? Ascii.N_of_ascii c)%N && (Ascii.N_of_ascii c <=? hi)%N.

(** [0-9] *)
Definition is_digit (c : Ascii.ascii) : bool := digit_between 48 57 c.

(** [/^([0-1]?[0-9]|2[0-3]):[0-5][0-9]$/] *)
Definition matches_time (x : string) : bool :=
  match String.list_ascii_of_string x with
  | [h; colon; m1; m2] =>
      is_digit h && Ascii.eqb colon ":"%char
      && digit_between 48 53 m1 && is_digit m2
  | [h1; h2; colon; m1; m2] =>
      (digit_between 48 49 h1 && is_digit h2
       || Ascii.eqb h1 "2"%char && digit_between 48 51 h2)
      && Ascii.eqb colon ":"%char
      && digit_between 48 53 m1 && is_digit m2
  | _ => false
  end.

(** [0-9A-Fa-f] *)
Definition is_hex (c : Ascii.ascii) : bool :=
  is_digit c || digit_between 65 70 c || digit_between 97 102 c.

(** A UUID test to run the routes with: 36 characters, hyphens at the
    positions 8, 13, 18 and 23 and hexadecimal digits elsewhere
    (validator.js's pattern for a UUID of any version; later releases
    also look at the version and variant digits). *)
Definition uuid_pattern (x : string) : bool :=
  let l := String.list_ascii_of_string x in
  (length l =? 36)%nat
  && forallb (λ ic : nat * Ascii.ascii,
                if bool_decide (ic.1 ∈ [8; 13; 18; 23]%nat)
                then Ascii.eqb ic.2 "-"%char else is_hex ic.2)
             (imap pair l).

(** ** The routes, validators first *)

Module routes.

(** [router.post('/')] of routes/admissions.js *)
Definition admissions_post_errors (isUUID : string → bool)
    (body : admissions.PostBody.t) : list string :=
  withMessage (isUUID (admissions.PostBody.patientId body))
    "Valid patient ID is required"
  ++ withMessage (isUUID (admissions.PostBody.bedId body))
       "Valid bed ID is required"
  ++ withMessage (isUUID (admissions.PostBody.doctorId body))
       "Valid doctor ID is required".

Definition admissions_post (isUUID : string → bool) (newId : string)
    (body : admissions.PostBody.t)
    : Store → Store * Reply (string * Admission.t) :=
  validated (admissions_post_errors isUUID body) (admissions.post newId body).

(** [router.post('/')] of routes/appointments.js *)
Definition appointments_post_errors (isUUID : string → bool)
    (body : appointments.PostBody.t) : list string :=
  withMessage (isUUID (appointments.PostBody.patientId body))
    "Valid patient ID is required"
  ++ withMessage (isUUID (appointments.PostBody.doctorId body))
       "Valid doctor ID is required"
  ++ withMessage (matches_time (appointments.PostBody.time body))
       "Valid time is required (HH:MM)".

Definition appointments_post (isUUID : string → bool) (nulls_first : bool)
    (newId : string) (body : appointments.PostBody.t)
    : Store → Store * Reply (string * Appointment.t) :=
  validated (appointments_post_errors isUUID body)
    (appointments.post nulls_first newId body).

(** [router.post('/')] of routes/inventory.js *)
Definition inventory_post_errors (body : inventory.PostBody.t) : list string :=
  withMessage (notEmpty (inventory.PostBody.name body)) "Name is required"
  ++ withMessage (notEmpty (inventory.PostBody.unit body)) "Unit is required"
  ++ withMessage (0 <=? inventory.PostBody.quantity body)
       "Valid quantity is required"
  ++ withMessage (1 <=? inventory.PostBody.reorderLevel body)
       "Valid reorder level is required"
  ++ withMessage (isFloat_min0 (inventory.PostBody.cost body))
       "Valid cost is required".

Definition inventory_post (newId : string) (body : inventory.PostBody.t)
    : Store → Store * Reply (string * InventoryItem.t) :=
  validated (inventory_post_errors body) (inventory.post newId body).

(** [router.put('/:id')] of routes/inventory.js *)
Definition inventory_put_errors (isUUID : string → bool) (id : string)
    (body : inventory.PutBody.t) : list string :=
  withMessage (isUUID id) "Invalid item ID"
  ++ withMessage (optional (Z.leb 0) (inventory.PutBody.quantity body))
       "Valid quantity is required".

Definition inventory_put (isUUID : string → bool) (id : string)
    (body : inventory.PutBody.t)
    : Store → Store * Reply (string * InventoryItem.t) :=
  validated (inventory_put_errors isUUID id body) (inventory.put id body).

(** [router.delete('/:id')] of routes/inventory.js *)
Definition inventory_delete (isUUID : string → bool) (id : string)
    : Store → Store * Reply string :=
  validated (withMessage (isUUID id) "Invalid item ID") (inventory.delete id).

End routes.

(** ** Requests that overlap

    A handler runs up to its next [await]; the database call it awaits is
    served as one step, and calls of other requests may be served between
    two calls of one handler. [Pending] is a handler between two calls: it
    has answered, or a call is pending, with what the call writes and how
    the handler goes on from the store the call saw. A [$transaction] is
    served as one call. *)

Inductive Pending (A : Type) : Type :=
| replied (r : Reply A)
| awaits (write : Store → Store) (next : Store → Pending A).
Arguments replied {A} r.
Arguments awaits {A} write next.

(** [const x = await f(..); k(x)] *)
Definition call {A B} (f : Store → Store * B) (k : B → Pending A) : Pending A :=
  awaits (λ s, (f s).1) (λ s, k (f s).2).

(** A call that reads. *)
Definition query {B} (q : Store → B) (s : Store) : Store * B := (s, q s).

(** The handler served alone, from its first call to its reply. *)
Fixpoint finish {A} (p : Pending A) (s : Store) : Store * Reply A :=
  match p with
  | replied r => (s, r)
  | awaits write next => finish (next s) (write s)
  end.

(** Overlapping requests: each turn names a request, whose pending call is
    served; a turn that names a request that has answered does nothing. *)
Fixpoint serve_turns {A} (turns : list nat) (ps : list (Pending A))
    (s : Store) : Store * list (Pending A) :=
  match turns with
  | [] => (s, ps)
  | i :: turns' =>
      match ps !! i with
      | Some (awaits write next) =>
          serve_turns turns' (<[i := next s]> ps) (write s)
      | _ => serve_turns turns' ps s
      end
  end.

Module steps.

(** The transaction of admission creation as the database serves it:
    ["Admission_patientId_fkey"] and ["Admission_doctorId_fkey"] make the
    creation fail when the patient or the doctor is not there. *)
Definition admissions_post_tx (newId : string) (body : admissions.PostBody.t)
    (s : Store) : Store * option Admission.t :=
  match patient s !! admissions.PostBody.patientId body,
        user s !! admissions.PostBody.doctorId body with
  | Some _, Some _ => transaction (admissions.post_tx newId body) s
  | _, _ => (s, None)
  end.

(** The handler of [router.post('/')] of routes/admissions.js, call by
    call: four reads, then the transaction. *)
Definition admissions_post (newId : string) (body : admissions.PostBody.t)
    : Pending (string * Admission.t) :=
  call (query (λ s, findUnique (admissions.PostBody.patientId body)
                      (patient s))) (λ patient,
  match patient with
  | None => replied (error 400 "Patient not found")
  | Some _ =>
  call (query (λ s, findUnique (admissions.PostBody.bedId body) (bed s)))
    (λ bed,
  match bed with
  | None => replied (error 400 "Bed not found")
  | Some b =>
    if decide (Bed.status b ≠ AVAILABLE)
    then replied (error 400 "Bed is not available")
    else
  call (query (λ s, findUnique (admissions.PostBody.doctorId body) (user s)))
    (λ doctor,
  if not_a_doctor doctor
  then replied (error 400 "Valid doctor not found")
  else
  call (query (λ s, findFirst (λ a, Admission.patientId a
                                    = admissions.PostBody.patientId body
                                    ∧ Admission.status a = ACTIVE)
                      (admission s))) (λ activeAdmission,
  match activeAdmission with
  | Some _ => replied (error 400 "Patient already has an active admission")
  | None =>
  call (admissions_post_tx newId body) (λ newAdmission,
  match newAdmission with
  | Some a => replied (json 201 (newId, a))
  | None => replied store_error
  end)
  end))
  end)
  end).

(** [prisma.appointment.create] as the database serves it, with
    ["Appointment_patientId_fkey"] and ["Appointment_doctorId_fkey"]. *)
Definition appointments_create (newId : string) (a : Appointment.t)
    (s : Store) : Store * option Appointment.t :=
  match patient s !! Appointment.patientId a,
        user s !! Appointment.doctorId a with
  | Some _, Some _ =>
      match create newId a (appointment s) with
      | Some (t, a') => (with_appointment t s, Some a')
      | None => (s, None)
      end
  | _, _ => (s, None)
  end.

(** The handler of [router.post('/')] of routes/appointments.js, call by
    call: two reads, the read of the highest queue number of the day
    unless the status is CANCELLED, then the creation. *)
Definition appointments_post (nulls_first : bool) (newId : string)
    (body : appointments.PostBody.t) : Pending (string * Appointment.t) :=
  let created (queueNumber : option Z) : Pending (string * Appointment.t) :=
    call (appointments_create newId
            (Appointment.mk (appointments.PostBody.patientId body)
               (appointments.PostBody.doctorId body)
               (appointments.PostBody.date body)
               (appointments.PostBody.time body)
               (appointments.PostBody.status body)
               (appointments.PostBody.type body)
               (appointments.PostBody.notes body) queueNumber))
      (λ newAppointment,
         match newAppointment with
         | Some a => replied (json 201 (newId, a))
         | None => replied store_error
         end) in
  call (query (λ s, findUnique (appointments.PostBody.patientId body)
                      (patient s))) (λ patient,
  match patient with
  | None => replied (error 400 "Patient not found")
  | Some _ =>
  call (query (λ s, findUnique (appointments.PostBody.doctorId body)
                      (user s))) (λ doctor,
  if not_a_doctor doctor
  then replied (error 400 "Valid doctor not found")
  else
    if decide (appointments.PostBody.status body ≠ CANCELLED) then
      call (query (λ s, appointments.queueNumber nulls_first body
                          (appointment s))) created
    else created None)
  end).

End steps.

(** ** Requests with their status code *)

(** The status code of a reply; the [catch] block answers 500. *)
Definition status_code {A} (r : Reply A) : option Z :=
  match r with
  | json code _ => Some code
  | error code _ => Some code
  | invalid _ => Some 400
  | store_error => Some 500
  | no_reply => None
  end.

Definition answered {A} (x : Store * Reply A) : Store * option Z :=
  (x.1, status_code x.2).

(** One mutating request: the new store and the status code sent, if any. *)
Definition serve (r : Request) (s : Store) : Store * option Z :=
  match r with
  | POST_patients newId body => answered (patients.post newId body s)
  | PUT_patients id body => answered (patients.put id body s)
  | DELETE_patients id => answered (patients.delete id s)
  | POST_appointments newId body =>
      answered (appointments.post postgresql_nulls_first newId body s)
  | PUT_appointments id body => answered (appointments.put id body s)
  | DELETE_appointments id => answered (appointments.delete id s)
  | POST_beds auth newId body => answered (beds.post auth newId body s)
  | PUT_beds now id body => answered (beds.put now id body s)
  | DELETE_beds id => answered (beds.delete id s)
  | POST_admissions newId body => answered (admissions.post newId body s)
  | PUT_admissions now id body => answered (admissions.put now id body s)
  | DELETE_admissions id => answered (admissions.delete id s)
  | POST_inventory newId body => answered (inventory.post newId body s)
  | PUT_inventory id body => answered (inventory.put id body s)
  | DELETE_inventory id => answered (inventory.delete id s)
  end.

Definition is_post (r : Request) : bool :=
  match r with
  | POST_patients _ _ | POST_appointments _ _ | POST_beds _ _ _
  | POST_admissions _ _ | POST_inventory _ _ => true
  | _ => false
  end.

(** ** Further properties of a store *)

(** Every foreign key of the migration names an existing row. *)
Definition references_ok (s : Store) : Prop :=
  (∀ k a, admission s !! k = Some a →
     is_Some (patient s !! Admission.patientId a)
     ∧ is_Some (bed s !! Admission.bedId a)
     ∧ is_Some (user s !! Admission.doctorId a))
  ∧ (∀ k a, appointment s !! k = Some a →
       is_Some (patient s !! Appointment.patientId a)
       ∧ is_Some (user s !! Appointment.doctorId a))
  ∧ (∀ k b p, bed s !! k = Some b → Bed.patientId b = Some p →
       is_Some (patient s !! p)).

(** A bed that is not OCCUPIED names no patient and carries no dates. *)
Definition free_beds_unlinked (s : Store) : Prop :=
  ∀ k b, bed s !! k = Some b → Bed.status b ≠ OCCUPIED →
    Bed.patientId b = None ∧ Bed.admissionDate b = None
    ∧ Bed.expectedDischargeDate b = None.

(** No two beds share a bed number ([Bed_bedNumber_key]). *)
Definition bed_numbers_unique (s : Store) : Prop :=
  ∀ i j a b, bed s !! i = Some a → bed s !! j = Some b →
    Bed.bedNumber a = Bed.bedNumber b → i = j.

(** No two patients share a medical record number ([Patient_mrn_key]). *)
Definition mrns_unique (s : Store) : Prop :=
  ∀ i j a b, patient s !! i = Some a → patient s !! j = Some b →
    Patient.mrn a = Patient.mrn b → i = j.


(** Request [r], served in store [s], does not make a bed OCCUPIED or free
    through the bed endpoints: a bed is not created OCCUPIED, and a bed
    update either moves the bed between AVAILABLE and MAINTENANCE or leaves
    its status alone and names a patient only for a bed that is OCCUPIED
    already. *)
Definition keeps_occupancy (r : Request) (s : Store) : Prop :=
  match r with
  | POST_beds _ _ body => beds.PostBody.status body ≠ Some OCCUPIED
  | PUT_beds _ id body =>
      ∀ b, bed s !! id = Some b →
        (∀ st, beds.PutBody.status body = Some st → st ≠ Bed.status b →
               st ≠ OCCUPIED ∧ Bed.status b ≠ OCCUPIED)
        ∧ ((∀ st, beds.PutBody.status body = Some st → st = Bed.status b) →
           falsy_field (beds.PutBody.patientId body) = false →
           Bed.status b = OCCUPIED)
  | _ => True
  end.

(** A sequence of requests each of which, served in its turn, keeps the
    occupancy of the beds in this sense. *)
Fixpoint keep_occupancy (rs : list Request) (s : Store) : Prop :=
  match rs with
  | [] => True
  | r :: rs' => keeps_occupancy r s ∧ keep_occupancy rs' (handle r s)
  end.





(** ** The orders of the list routes *)

Definition latest_first (a b : string * Admission.t) : Prop :=
  Admission.admissionDate b.2 ≤ Admission.admissionDate a.2.

Definition fewest_first (a b : string * InventoryItem.t) : Prop :=
  InventoryItem.quantity a.2 ≤ InventoryItem.quantity b.2.

Definition earliest_first (a b : string * Appointment.t) : Prop :=
  Appointment.date a.2 ≤ Appointment.date b.2.

(** ** The tables a request writes *)

Inductive Table :=
| User_table
| Patient_table
| Appointment_table
| Bed_table
| Admission_table
| InventoryItem_table.

(** The tables named in the writes of each handler; the deletion of a
    patient reaches the beds through ON DELETE SET NULL. *)
Definition writes (r : Request) : list Table :=
  match r with
  | POST_patients _ _ | PUT_patients _ _ => [Patient_table]
  | DELETE_patients _ => [Patient_table; Bed_table]
  | POST_appointments _ _ | PUT_appointments _ _ | DELETE_appointments _ =>
      [Appointment_table]
  | POST_beds _ _ _ | PUT_beds _ _ _ | DELETE_beds _ => [Bed_table]
  | POST_admissions _ _ | PUT_admissions _ _ _ | DELETE_admissions _ =>
      [Admission_table; Bed_table]
  | POST_inventory _ _ | PUT_inventory _ _ | DELETE_inventory _ =>
      [InventoryItem_table]
  end.

Definition same_table (t : Table) (s s' : Store) : Prop :=
  match t with
  | User_table => user s' = user s
  | Patient_table => patient s' = patient s
  | Appointment_table => appointment s' = appointment s
  | Bed_table => bed s' = bed s
  | Admission_table => admission s' = admission s
  | InventoryItem_table => inventoryItem s' = inventoryItem s
  end.

(** ** Queries *)

Section TableFacts.
Context {V : Type} (P : V → Prop) `{!∀ v, Decision (P v)}.

Lemma findMany_elem (t : gmap string V) k v :
  (k, v) ∈ findMany P t ↔ t !! k = Some v ∧ P v.
Proof.
  unfold findMany. rewrite elem_of_map_to_list, map_lookup_filter_Some.
  reflexivity.
Qed.

Lemma findMany_nil (t : gmap string V) :
  findMany P t = [] ↔ ∀ k v, t !! k = Some v → ¬ P v.
Proof.
  split.
  - intros Hnil k v Hk HP.
    assert (Hin : (k, v) ∈ findMany P t) by (apply findMany_elem; done).
    rewrite Hnil in Hin. by apply not_elem_of_nil in Hin.
  - intros Hno. destruct (findMany P t) as [|[k v] l] eqn:E; [done|].
    assert (Hin : (k, v) ∈ findMany P t) by (rewrite E; left).
    apply findMany_elem in Hin as [Hk HP]. by destruct (Hno k v).
Qed.

Lemma findFirst_None (t : gmap string V) :
  findFirst P t = None ↔ ∀ k v, t !! k = Some v → ¬ P v.
Proof.
  unfold findFirst. rewrite <- findMany_nil.
  destruct (findMany P t); simpl; split; congruence.
Qed.

Lemma findFirst_Some (t : gmap string V) k v :
  findFirst P t = Some (k, v) → t !! k = Some v ∧ P v.
Proof.
  unfold findFirst. intros Hh. apply findMany_elem.
  destruct (findMany P t) as [|x l]; simplify_eq/=. left.
Qed.

End TableFacts.

(** ** The admission handlers, case by case *)

Ltac unfold_tx :=
  unfold transaction, admissions.post_tx, admissions.put_tx,
    admissions.delete_tx, mbind, mret, tx_bind, tx_ret, bed_update,
    admission_create, admission_update, admission_delete, update, create,
    delete_row, findUnique in *.

Lemma post_cases newId body s :
  (admissions.post newId body s).1 = s
  ∨ ∃ b, bed s !! admissions.PostBody.bedId body = Some b
         ∧ Bed.status b = AVAILABLE
         ∧ is_Some (patient s !! admissions.PostBody.patientId body)
         ∧ (∃ d, user s !! admissions.PostBody.doctorId body = Some d
                 ∧ User.role d = DOCTOR)
         ∧ (∀ k a, admission s !! k = Some a →
              ¬ (Admission.patientId a = admissions.PostBody.patientId body
                 ∧ Admission.status a = ACTIVE))
         ∧ admission s !! newId = None
         ∧ admissions.post newId body s
           = (admitted newId body b s,
              json 201 (newId, admissions.new_admission body)).
Proof.
  unfold admissions.post, findUnique.
  destruct (patient s !! _) as [p|] eqn:Hp; [|by left].
  destruct (bed s !! _) as [b|] eqn:Hb; [|by left].
  destruct (decide (Bed.status b ≠ AVAILABLE)) as [|Hst]; [by left|].
  apply dec_stable in Hst.
  destruct (not_a_doctor _) eqn:Hd; [by left|].
  destruct (findFirst _ _) as [|] eqn:Hf; [by left|].
  rewrite findFirst_None in Hf.
  unfold_tx. rewrite Hb. simpl.
  destruct (admission s !! newId) eqn:Hn; [by left|].
  right. exists b. repeat split; eauto.
  unfold not_a_doctor in Hd. destruct (user s !! _) as [d|]; [|done].
  exists d. split; [done|]. apply bool_decide_eq_false in Hd.
  by apply dec_stable in Hd.
Qed.

Lemma put_cases now id body s :
  (admissions.put now id body s).1 = s
  ∨ (∃ adm b st,
       admission s !! id = Some adm ∧ Admission.status adm = ACTIVE
       ∧ admissions.PutBody.status body = Some st ∧ st ≠ ACTIVE
       ∧ bed s !! Admission.bedId adm = Some b
       ∧ admissions.put now id body s
         = (closed now id st body adm b s,
            json 200 (id, admissions.close now st body adm adm)))
  ∨ (∃ adm,
       admission s !! id = Some adm
       ∧ admissions.frees_bed (admissions.PutBody.status body) adm = None
       ∧ admissions.put now id body s
         = (with_admission
              (<[id := admissions.put_simple body adm adm]> (admission s)) s,
            json 200 (id, admissions.put_simple body adm adm))).
Proof.
  unfold admissions.put, findUnique.
  destruct (admission s !! id) as [adm|] eqn:Ha; [|by left].
  destruct (admissions.frees_bed _ adm) as [st|] eqn:Hf.
  - unfold admissions.frees_bed in Hf.
    destruct (admissions.PutBody.status body) as [st'|] eqn:Hst; [|done].
    destruct (decide _) as [[Hne Hact]|]; [|done]. simplify_eq.
    unfold_tx. rewrite Ha. simpl.
    destruct (bed s !! Admission.bedId adm) as [b|] eqn:Hb; [|by left].
    right; left. exists adm, b, st. done.
  - unfold_tx. rewrite Ha. right; right. exists adm. done.
Qed.

Lemma delete_cases id s :
  (admissions.delete id s).1 = s
  ∨ (∃ adm b,
       admission s !! id = Some adm ∧ Admission.status adm = ACTIVE
       ∧ bed s !! Admission.bedId adm = Some b
       ∧ (admissions.delete id s).1
         = with_admission (delete id (admission s))
             (with_bed (<[Admission.bedId adm := free_bed b]> (bed s)) s))
  ∨ (∃ adm,
       admission s !! id = Some adm ∧ Admission.status adm ≠ ACTIVE
       ∧ (admissions.delete id s).1
         = with_admission (delete id (admission s)) s).
Proof.
  unfold admissions.delete, findUnique.
  destruct (admission s !! id) as [adm|] eqn:Ha; [|by left].
  destruct (decide (Admission.status adm = ACTIVE)) as [Hact|Hact].
  - unfold_tx.
    destruct (bed s !! Admission.bedId adm) as [b|] eqn:Hb; [|by left].
    simpl. rewrite Ha. right; left. exists adm, b. done.
  - unfold_tx. rewrite Ha. right; right. exists adm. done.
Qed.

(** ** ACTIVE admissions after each write *)

Lemma active_on_admitted newId body b s bid aid :
  admission s !! newId = None →
  active_on (admitted newId body b s) bid aid
  ↔ (aid = newId ∧ bid = admissions.PostBody.bedId body)
    ∨ active_on s bid aid.
Proof.
  intros Hn. unfold active_on, admitted. simpl. split.
  - intros (a & Ha & Hact & Hbed).
    destruct (decide (newId = aid)) as [->|Hne].
    + rewrite lookup_insert_eq in Ha. simplify_eq. by left.
    + rewrite lookup_insert_ne in Ha by done. right. eauto.
  - intros [[-> ->]|(a & Ha & Hact & Hbed)].
    + eexists. rewrite lookup_insert_eq. done.
    + exists a. rewrite lookup_insert_ne; [done|]. congruence.
Qed.

Lemma active_on_closed now id st body adm b s bid aid :
  admission s !! id = Some adm → st ≠ ACTIVE →
  active_on (closed now id st body adm b s) bid aid
  ↔ aid ≠ id ∧ active_on s bid aid.
Proof.
  intros Hid Hst. unfold active_on, closed. simpl. split.
  - intros (a & Ha & Hact & Hbed).
    destruct (decide (id = aid)) as [->|Hne].
    + rewrite lookup_insert_eq in Ha. by simplify_eq.
    + rewrite lookup_insert_ne in Ha by done. eauto.
  - intros (Hne & a & Ha & Hact & Hbed).
    exists a. by rewrite lookup_insert_ne.
Qed.

Lemma active_on_deleted id t s bid aid :
  active_on (with_admission (delete id (admission s)) (with_bed t s)) bid aid
  ↔ aid ≠ id ∧ active_on s bid aid.
Proof.
  unfold active_on. simpl. split.
  - intros (a & Ha & Hact & Hbed).
    apply lookup_delete_Some in Ha as [Hne Ha]. eauto.
  - intros (Hne & a & Ha & Hact & Hbed).
    exists a. by rewrite lookup_delete_ne.
Qed.

Lemma active_on_put_simple id body adm s bid aid :
  admission s !! id = Some adm →
  active_on (with_admission
               (<[id := admissions.put_simple body adm adm]> (admission s)) s)
            bid aid
  ↔ active_on s bid aid.
Proof.
  intros Hid. unfold active_on. simpl. split.
  - intros (a & Ha & Hact & Hbed).
    destruct (decide (id = aid)) as [->|Hne].
    + rewrite lookup_insert_eq in Ha. simplify_eq. eauto.
    + rewrite lookup_insert_ne in Ha by done. eauto.
  - intros (a & Ha & Hact & Hbed).
    destruct (decide (id = aid)) as [->|Hne].
    + rewrite lookup_insert_eq. simplify_eq. eauto.
    + rewrite lookup_insert_ne by done. eauto.
Qed.

(** ** The admission handlers keep beds and admissions coordinated *)

Lemma coordinated_paired s : coordinated s → bed_admission_paired s.
Proof.
  intros Hc bid b Hb. destruct (Hc bid b Hb) as [Hocc Hfree]. split; [done|].
  intros (aid & Hact & _).
  destruct (decide (Bed.status b = OCCUPIED)) as [|Hne]; [done|].
  by destruct (Hfree Hne aid).
Qed.

Lemma coordinated_same_tables s s' :
  admission s' = admission s →
  (∀ bid b', bed s' !! bid = Some b' →
     ∃ b, bed s !! bid = Some b ∧ Bed.status b = Bed.status b') →
  coordinated s → coordinated s'.
Proof.
  intros Hadm Hbed Hc bid b' Hb'.
  destruct (Hbed bid b' Hb') as (b & Hb & Hst).
  destruct (Hc bid b Hb) as [Hocc Hfree].
  unfold exactly_one_active, active_on in *. rewrite Hadm, <- Hst. done.
Qed.

Lemma coordinated_post newId body s :
  coordinated s → coordinated (admissions.post newId body s).1.
Proof.
  intros Hc.
  destruct (post_cases newId body s)
    as [->|(b & Hb & Hst & _ & _ & _ & Hn & ->)]; [done|].
  simpl. intros bid b' Hb'. unfold exactly_one_active.
  setoid_rewrite (active_on_admitted newId body b s _ _ Hn).
  unfold admitted in Hb'. simpl in Hb'.
  destruct (decide (admissions.PostBody.bedId body = bid)) as [<-|Hne].
  - rewrite lookup_insert_eq in Hb'. simplify_eq.
    destruct (Hc _ _ Hb) as [_ Hfree].
    assert (Hnone : ∀ aid, ¬ active_on s (admissions.PostBody.bedId body) aid)
      by (apply Hfree; congruence).
    split; [|done]. intros _. exists newId. split; [by left|].
    intros aid' [[-> _]|Hact]; [done|]. by destruct (Hnone aid').
  - rewrite lookup_insert_ne in Hb' by done.
    destruct (Hc _ _ Hb') as [Hocc Hfree]. split.
    + intros Ho. destruct (Hocc Ho) as (aid & Hact & Huniq).
      exists aid. split; [by right|].
      intros aid' [[_ ->]|Hact']; [done|]. by apply Huniq.
    + intros Ho aid [[_ ->]|Hact]; [done|]. by apply (Hfree Ho aid).
Qed.

(** An ACTIVE admission pins its bed: the bed is OCCUPIED and no other
    ACTIVE admission references it. *)
Lemma coordinated_active s id adm b :
  coordinated s → admission s !! id = Some adm →
  Admission.status adm = ACTIVE → bed s !! Admission.bedId adm = Some b →
  Bed.status b = OCCUPIED
  ∧ ∀ aid, active_on s (Admission.bedId adm) aid → aid = id.
Proof.
  intros Hc Hid Hact Hb. destruct (Hc _ _ Hb) as [Hocc Hfree].
  assert (Hon : active_on s (Admission.bedId adm) id) by (exists adm; done).
  destruct (decide (Bed.status b = OCCUPIED)) as [Ho|Ho].
  - split; [done|]. destruct (Hocc Ho) as (aid0 & _ & Huniq).
    intros aid Haid. rewrite (Huniq _ Haid). symmetry. by apply Huniq.
  - by destruct (Hfree Ho id).
Qed.

Lemma coordinated_put now id body s :
  coordinated s → coordinated (admissions.put now id body s).1.
Proof.
  intros Hc.
  destruct (put_cases now id body s)
    as [->|[(adm & b & st & Hid & Hact & _ & Hst & Hb & ->)
           |(adm & Hid & _ & ->)]]; [done| |].
  - simpl. intros bid b' Hb'. unfold exactly_one_active.
    setoid_rewrite (active_on_closed now id st body adm b s _ _ Hid Hst).
    destruct (coordinated_active s id adm b Hc Hid Hact Hb) as [_ Honly].
    unfold closed in Hb'. simpl in Hb'.
    destruct (decide (Admission.bedId adm = bid)) as [<-|Hne].
    + rewrite lookup_insert_eq in Hb'. simplify_eq. split; [done|].
      intros _ aid [Hne Hon]. by apply Hne, Honly.
    + rewrite lookup_insert_ne in Hb' by done.
      destruct (Hc _ _ Hb') as [Hocc Hfree]. split.
      * intros Ho. destruct (Hocc Ho) as (aid & Hon & Huniq).
        exists aid. split; [|by intros aid' [_ Hon']; apply Huniq].
        split; [|done]. intros ->. destruct Hon as (a & Ha & _ & Hbed).
        congruence.
      * intros Ho aid [_ Hon]. by apply (Hfree Ho aid).
  - simpl. intros bid b' Hb'. unfold exactly_one_active.
    setoid_rewrite (active_on_put_simple id body adm s _ _ Hid).
    exact (Hc bid b' Hb').
Qed.

Lemma coordinated_delete id s :
  coordinated s → coordinated (admissions.delete id s).1.
Proof.
  intros Hc.
  destruct (delete_cases id s)
    as [->|[(adm & b & Hid & Hact & Hb & ->)|(adm & Hid & Hact & ->)]];
    [done| |].
  - intros bid b' Hb'. unfold exactly_one_active.
    setoid_rewrite active_on_deleted.
    destruct (coordinated_active s id adm b Hc Hid Hact Hb) as [_ Honly].
    simpl in Hb'.
    destruct (decide (Admission.bedId adm = bid)) as [<-|Hne].
    + rewrite lookup_insert_eq in Hb'. simplify_eq. split; [done|].
      intros _ aid [Hne Hon]. by apply Hne, Honly.
    + rewrite lookup_insert_ne in Hb' by done.
      destruct (Hc _ _ Hb') as [Hocc Hfree]. split.
      * intros Ho. destruct (Hocc Ho) as (aid & Hon & Huniq).
        exists aid. split; [|by intros aid' [_ Hon']; apply Huniq].
        split; [|done]. intros ->. destruct Hon as (a & Ha & _ & Hbed).
        congruence.
      * intros Ho aid [_ Hon]. by apply (Hfree Ho aid).
  - intros bid b' Hb'. unfold exactly_one_active.
    change (with_admission (delete id (admission s)) s)
      with (with_admission (delete id (admission s)) (with_bed (bed s) s)).
    setoid_rewrite active_on_deleted. simpl in Hb'.
    destruct (Hc _ _ Hb') as [Hocc Hfree]. split.
    + intros Ho. destruct (Hocc Ho) as (aid & Hon & Huniq).
      exists aid. split; [|by intros aid' [_ Hon']; apply Huniq].
      split; [|done]. intros ->. destruct Hon as (a & Ha & Hst & _).
      congruence.
    + intros Ho aid [_ Hon]. by apply (Hfree Ho aid).
Qed.

(** ** The other handlers *)

Lemma admission_untouched r s :
  is_admission_request r = false → admission (handle r s) = admission s.
Proof.
  destruct r; simpl; try done; intros _.
  - unfold patients.post. repeat case_match; done.
  - unfold patients.put. repeat case_match; done.
  - unfold patients.delete. repeat case_match; done.
  - unfold appointments.post. repeat case_match; done.
  - unfold appointments.put. repeat case_match; done.
  - unfold appointments.delete. repeat case_match; done.
  - unfold beds.post. repeat case_match; done.
  - unfold beds.put, beds.write_bed. repeat case_match; done.
  - unfold beds.delete. repeat case_match; done.
  - unfold inventory.post. repeat case_match; done.
  - unfold inventory.put. repeat case_match; done.
  - unfold inventory.delete. repeat case_match; done.
Qed.

Lemma unlink_patient_status id b :
  Bed.status (patients.unlink_patient id b) = Bed.status b.
Proof. unfold patients.unlink_patient. by case_decide. Qed.

Lemma bed_status_kept r s bid b' :
  is_admission_request r = false → writes_bed_directly r = false →
  bed (handle r s) !! bid = Some b' →
  ∃ b, bed s !! bid = Some b ∧ Bed.status b = Bed.status b'.
Proof.
  destruct r; simpl; try done; intros _ _.
  - unfold patients.post. repeat case_match; simpl; eauto.
  - unfold patients.put. repeat case_match; simpl; eauto.
  - unfold patients.delete. repeat case_match; simpl; eauto.
    rewrite lookup_fmap. destruct (bed s !! bid) as [b|]; [|done].
    simpl. intros [= <-]. exists b. by rewrite unlink_patient_status.
  - unfold appointments.post. repeat case_match; simpl; eauto.
  - unfold appointments.put. repeat case_match; simpl; eauto.
  - unfold appointments.delete. repeat case_match; simpl; eauto.
  - unfold beds.delete, delete_row. repeat case_match; simpl; eauto.
    all: simplify_eq; intros [_ Hb]%lookup_delete_Some; eauto.
  - unfold inventory.post. repeat case_match; simpl; eauto.
  - unfold inventory.put. repeat case_match; simpl; eauto.
  - unfold inventory.delete. repeat case_match; simpl; eauto.
Qed.

Lemma coordinated_handle r s :
  writes_bed_directly r = false → coordinated s → coordinated (handle r s).
Proof.
  intros Hw Hc. destruct (is_admission_request r) eqn:Hr.
  - destruct r; try done; simpl.
    + by apply coordinated_post.
    + by apply coordinated_put.
    + by apply coordinated_delete.
  - apply (coordinated_same_tables s); [by apply admission_untouched| |done].
    intros bid b'. by apply bed_status_kept.
Qed.

Lemma coordinated_run rs s :
  Forall (λ r, writes_bed_directly r = false) rs →
  coordinated s → coordinated (run rs s).
Proof.
  intros Hrs. revert s.
  induction Hrs as [|r rs Hr _ IH]; intros s Hc; [done|].
  simpl. apply IH. by apply coordinated_handle.
Qed.

(** ** Bed and admission pairing *)

(** C1, as stated, fails: after a patient and a bed are created, the bed
    update endpoint marks the bed OCCUPIED while no admission exists. *)
Lemma bed_update_breaks_pairing :
  ¬ bed_admission_paired (handle Sample.occupy_A101 Sample.ward).
Proof.
  intros Hp.
  destruct (Hp Sample.bed_id
              (Bed.mk "A-101" GENERAL OCCUPIED (Some Sample.patient_id)
                 (Some 1745280000000) None None)) as [Hocc _].
  { vm_compute. reflexivity. }
  destruct (Hocc eq_refl) as (aid & (a & Ha & _) & _).
  assert (Hempty : admission (handle Sample.occupy_A101 Sample.ward) = ∅)
    by (vm_compute; reflexivity).
  rewrite Hempty, lookup_empty in Ha. done.
Qed.

Lemma coordinated_ward : coordinated Sample.ward.
Proof.
  intros bid b Hb.
  assert (Hadm : admission Sample.ward = ∅) by (vm_compute; reflexivity).
  assert (Hbed : bed Sample.ward
                 = {[Sample.bed_id
                     := Bed.mk "A-101" GENERAL AVAILABLE None None None None]})
    by (vm_compute; reflexivity).
  rewrite Hbed in Hb. apply lookup_singleton_Some in Hb as [<- <-].
  split; [done|]. intros _ aid (a & Ha & _).
  rewrite Hadm, lookup_empty in Ha. done.
Qed.

(** ** At most one ACTIVE admission per patient *)






Lemma one_active_per_patient_ward : one_active_per_patient Sample.ward.
Proof.
  intros i j a b Hi.
  assert (Hadm : admission Sample.ward = ∅) by (vm_compute; reflexivity).
  rewrite Hadm, lookup_empty in Hi. done.
Qed.

(** The routes answer as their handlers when the validators pass, and 400
    with the store unchanged when one fails. *)
Lemma validated_cases {A} (errors : list string)
    (handler : Store → Store * Reply A) (s : Store) :
  (errors = [] ∧ validated errors handler s = handler s)
  ∨ (errors ≠ [] ∧ validated errors handler s = (s, invalid errors)).
Proof. destruct errors; [by left|by right]. Qed.

Lemma admissions_post_errors_nil isUUID body :
  routes.admissions_post_errors isUUID body = []
  ↔ isUUID (admissions.PostBody.patientId body) = true
    ∧ isUUID (admissions.PostBody.bedId body) = true
    ∧ isUUID (admissions.PostBody.doctorId body) = true.
Proof.
  unfold routes.admissions_post_errors, withMessage.
  destruct (isUUID (admissions.PostBody.patientId body)),
    (isUUID (admissions.PostBody.bedId body)),
    (isUUID (admissions.PostBody.doctorId body)); simpl; split;
    try done; by intros (? & ? & ?).
Qed.

(** Served alone, the handler that is split at its calls is the handler. *)
Lemma admissions_post_alone newId body s :
  finish (steps.admissions_post newId body) s = admissions.post newId body s.
Proof.
  unfold steps.admissions_post, admissions.post, call, query,
    steps.admissions_post_tx, findUnique. simpl.
  destruct (patient s !! _) as [p|] eqn:Hp; [|done]. simpl.
  destruct (bed s !! _) as [b|] eqn:Hb; [|done]. simpl.
  destruct (decide (Bed.status b ≠ AVAILABLE)); [done|]. simpl.
  destruct (not_a_doctor _) eqn:Hd; [done|]. simpl.
  destruct (findFirst _ _) as [x|] eqn:Hf; [done|]. simpl.
  rewrite Hp. unfold not_a_doctor in Hd.
  destruct (user s !! _) as [d|] eqn:Hu; [|done].
  by destruct (transaction _ _) as [s' [a|]].
Qed.




(** ** Admission *)

(** The handler, once the validators have passed: an Admit call for an
    AVAILABLE bed, an existing patient without ACTIVE admission and an
    existing doctor, the store accepting the new key, answers 201 with both
    writes made; whatever the call, both writes are in the new store or the
    store is unchanged. *)
Lemma post_occupies_bed (newId : string) (body : admissions.PostBody.t)
    (s : Store) :
  let pid := admissions.PostBody.patientId body in
  let bid := admissions.PostBody.bedId body in
  let s' := (admissions.post newId body s).1 in
  (s' = s
   ∨ (admission s !! newId = None
      ∧ ∃ b, bed s !! bid = Some b
             ∧ bed s' = <[bid := admissions.occupy body b]> (bed s)
             ∧ admission s'
               = <[newId := admissions.new_admission body]> (admission s)))
  ∧ ∀ p b d,
      patient s !! pid = Some p →
      bed s !! bid = Some b → Bed.status b = AVAILABLE →
      user s !! admissions.PostBody.doctorId body = Some d →
      User.role d = DOCTOR →
      (∀ k a, admission s !! k = Some a → Admission.patientId a = pid →
              Admission.status a ≠ ACTIVE) →
      admission s !! newId = None →
      ∃ adm b',
        admissions.post newId body s = (s', json 201 (newId, adm))
        ∧ bed s' !! bid = Some b'
        ∧ Bed.status b' = OCCUPIED
        ∧ Bed.patientId b' = Some pid
        ∧ Bed.admissionDate b' = Some (admissions.PostBody.admissionDate body)
        ∧ Bed.expectedDischargeDate b'
          = admissions.PostBody.expectedDischargeDate body
        ∧ admission s' !! newId = Some adm
        ∧ Admission.status adm = ACTIVE
        ∧ Admission.bedId adm = bid
        ∧ Admission.patientId adm = pid.
Proof.
  intros pid bid s'. subst pid bid s'. split.
  - destruct (post_cases newId body s)
      as [->|(b & Hb & _ & _ & _ & _ & Hn & ->)]; [by left|].
    right. split; [done|]. exists b. done.
  - intros p b d Hp Hb Hst Hd Hrole Hnone Hn.
    destruct (post_cases newId body s)
      as [Heq|(b0 & Hb0 & _ & _ & _ & _ & _ & Heq)].
    + exfalso. revert Heq. unfold admissions.post, findUnique.
      rewrite Hp, Hb, Hd. simpl.
      destruct (decide (Bed.status b ≠ AVAILABLE)) as [|_]; [done|].
      rewrite bool_decide_eq_false_2 by (intros Hne; by apply Hne).
      destruct (findFirst _ _) as [[k a]|] eqn:Hf.
      { apply findFirst_Some in Hf as [Hk [Hpa Hact]].
        by destruct (Hnone k a Hk Hpa). }
      unfold_tx. rewrite Hb. simpl. rewrite Hn. simpl. intros Hs.
      apply (f_equal admission) in Hs. simpl in Hs.
      apply (f_equal (λ t, t !! newId)) in Hs.
      rewrite lookup_insert_eq, Hn in Hs. done.
    + rewrite Heq. simpl. unfold admitted. simpl.
      exists (admissions.new_admission body), (admissions.occupy body b0).
      rewrite !lookup_insert_eq. simplify_eq. done.
Qed.







(** ** Discharge and transfer *)

(** C3: an update that asks for DISCHARGED or TRANSFERRED on an ACTIVE
    admission whose bed is in the store answers 200; afterwards the
    admission has the requested status and the supplied discharge date, or
    the current time when none is supplied, and its bed is AVAILABLE with no
    patient, admission date or expected discharge date. With or without the
    bed row, both writes are in the new store or the store is unchanged. *)
Theorem discharge_frees_bed (now : Z) (id : string)
    (body : admissions.PutBody.t) (s : Store) (adm : Admission.t)
    (st : AdmissionStatus) :
  admission s !! id = Some adm → Admission.status adm = ACTIVE →
  admissions.PutBody.status body = Some st →
  st = DISCHARGED ∨ st = TRANSFERRED →
  let s' := (admissions.put now id body s).1 in
  (s' = s
   ∨ ∃ b, bed s !! Admission.bedId adm = Some b
          ∧ bed s' = <[Admission.bedId adm := free_bed b]> (bed s)
          ∧ admission s'
            = <[id := admissions.close now st body adm adm]> (admission s))
  ∧ ∀ b, bed s !! Admission.bedId adm = Some b →
      ∃ adm' b',
        admissions.put now id body s = (s', json 200 (id, adm'))
        ∧ admission s' !! id = Some adm'
        ∧ Admission.status adm' = st
        ∧ Admission.dischargeDate adm'
          = Some (match admissions.PutBody.dischargeDate body with
                  | Some d => d
                  | None => now
                  end)
        ∧ Admission.bedId adm' = Admission.bedId adm
        ∧ bed s' !! Admission.bedId adm = Some b'
        ∧ Bed.status b' = AVAILABLE
        ∧ Bed.patientId b' = None
        ∧ Bed.admissionDate b' = None
        ∧ Bed.expectedDischargeDate b' = None.
Proof.
  intros Hid Hact Hbody Hst s'. subst s'.
  assert (Hne : st ≠ ACTIVE) by (destruct Hst as [-> | ->]; done).
  assert (Hfree : admissions.frees_bed (admissions.PutBody.status body) adm
                  = Some st).
  { unfold admissions.frees_bed. rewrite Hbody. by rewrite decide_True. }
  destruct (put_cases now id body s)
    as [Heq|[(adm0 & b0 & st0 & Hid0 & _ & Hst0 & _ & Hb0 & Heq)
            |(adm0 & Hid0 & Hno & _)]].
  - split; [by left|]. intros b Hb. exfalso. revert Heq.
    unfold admissions.put, findUnique. rewrite Hid, Hfree.
    unfold_tx. rewrite Hid. simpl. rewrite Hb. simpl. intros Hs.
    apply (f_equal admission) in Hs. simpl in Hs.
    apply (f_equal (λ t, t !! id)) in Hs.
    rewrite lookup_insert_eq, Hid in Hs. injection Hs as Hs.
    apply (f_equal Admission.status) in Hs. simpl in Hs. congruence.
  - simplify_eq. rewrite Heq. simpl. unfold closed. simpl. split.
    + right. exists b0. done.
    + intros b Hb. rewrite Hb0 in Hb. injection Hb as <-.
      exists (admissions.close now st body adm adm), (free_bed b0).
      rewrite !lookup_insert_eq. unfold admissions.close. simpl.
      by destruct (admissions.PutBody.dischargeDate body).
  - simplify_eq.
Qed.

Lemma discharge_frees_bed_witness :
  ∃ adm' b',
    admission
      (admissions.put 1745539200000 Sample.admission_id
         (admissions.PutBody.mk (Some DISCHARGED) None None None)
         Sample.admitted_ward).1 !! Sample.admission_id = Some adm'
    ∧ Admission.status adm' = DISCHARGED
    ∧ Admission.dischargeDate adm' = Some 1745539200000
    ∧ bed
        (admissions.put 1745539200000 Sample.admission_id
           (admissions.PutBody.mk (Some DISCHARGED) None None None)
           Sample.admitted_ward).1 !! Sample.bed_id = Some b'
    ∧ Bed.status b' = AVAILABLE
    ∧ Bed.patientId b' = None.
Proof.
  destruct (proj2 (discharge_frees_bed 1745539200000 Sample.admission_id
                     (admissions.PutBody.mk (Some DISCHARGED) None None None)
                     Sample.admitted_ward
                     (admissions.new_admission Sample.admit_john) DISCHARGED
                     ltac:(vm_compute; reflexivity) eq_refl eq_refl
                     (or_introl eq_refl))
              (Bed.mk "A-101" GENERAL OCCUPIED (Some Sample.patient_id)
                 (Some 1745280000000) None None)
              ltac:(vm_compute; reflexivity))
    as (adm' & b' & _ & Ha & Hst & Hd & _ & Hb & Hbs & Hbp & _).
  exists adm', b'. repeat split; assumption.
Defined.

(** C9: an update of an admission that is not ACTIVE, or that asks for
    ACTIVE, rewrites that one admission row and nothing else: the status,
    the discharge date and every column but diagnosis and notes are as
    before, the bed table (so the referenced bed) is untouched, and a
    diagnosis or notes supplied as the empty string keeps the old value. *)
Theorem simple_update_keeps_status_and_bed (now : Z) (id : string)
    (body : admissions.PutBody.t) (s : Store) (adm : Admission.t) :
  admission s !! id = Some adm →
  Admission.status adm ≠ ACTIVE ∨ admissions.PutBody.status body = Some ACTIVE →
  ∃ adm',
    admissions.put now id body s
    = (with_admission (<[id := adm']> (admission s)) s, json 200 (id, adm'))
    ∧ bed (admissions.put now id body s).1 = bed s
    ∧ Admission.status adm' = Admission.status adm
    ∧ Admission.dischargeDate adm' = Admission.dischargeDate adm
    ∧ Admission.patientId adm' = Admission.patientId adm
    ∧ Admission.bedId adm' = Admission.bedId adm
    ∧ Admission.doctorId adm' = Admission.doctorId adm
    ∧ Admission.admissionDate adm' = Admission.admissionDate adm
    ∧ Admission.diagnosis adm'
      = or_string (admissions.PutBody.diagnosis body) (Admission.diagnosis adm)
    ∧ Admission.notes adm'
      = or_string (admissions.PutBody.notes body) (Admission.notes adm)
    ∧ (admissions.PutBody.diagnosis body = Some "" →
       Admission.diagnosis adm' = Admission.diagnosis adm)
    ∧ (admissions.PutBody.notes body = Some "" →
       Admission.notes adm' = Admission.notes adm).
Proof.
  intros Hid Hcase.
  assert (Hfree : admissions.frees_bed (admissions.PutBody.status body) adm
                  = None).
  { unfold admissions.frees_bed.
    destruct (admissions.PutBody.status body) as [st|]; [|done].
    apply decide_False. intros [Hne Hact].
    destruct Hcase as [Hn|Hs]; [done|]. by simplify_eq. }
  exists (admissions.put_simple body adm adm).
  assert (Hput : admissions.put now id body s
                 = (with_admission
                      (<[id := admissions.put_simple body adm adm]>
                         (admission s)) s,
                    json 200 (id, admissions.put_simple body adm adm))).
  { unfold admissions.put, findUnique. rewrite Hid, Hfree.
    unfold_tx. by rewrite Hid. }
  rewrite Hput. simpl. repeat split; try done.
  - by intros ->.
  - by intros ->.
Qed.

Lemma simple_update_keeps_status_and_bed_witness :
  ∃ adm',
    admissions.put 1745539200000 Sample.admission_id
      (admissions.PutBody.mk (Some ACTIVE) (Some 1745539200000)
         (Some "") (Some "stable")) Sample.admitted_ward
    = (with_admission (<[Sample.admission_id := adm']>
                         (admission Sample.admitted_ward))
         Sample.admitted_ward,
       json 200 (Sample.admission_id, adm'))
    ∧ Admission.status adm' = ACTIVE
    ∧ Admission.dischargeDate adm' = None
    ∧ Admission.diagnosis adm' = Some "Pneumonia"
    ∧ Admission.notes adm' = Some "stable".
Proof.
  destruct (simple_update_keeps_status_and_bed 1745539200000
              Sample.admission_id
              (admissions.PutBody.mk (Some ACTIVE) (Some 1745539200000)
                 (Some "") (Some "stable"))
              Sample.admitted_ward
              (admissions.new_admission Sample.admit_john)
              ltac:(vm_compute; reflexivity) (or_intror eq_refl))
    as (adm' & Hput & _ & Hst & Hd & _ & _ & _ & _ & Hdiag & Hnotes & _).
  exists adm'. repeat split; assumption.
Defined.

(** ** Inventory updates *)

(** C10, as stated, fails: an update of Paracetamol (quantity 500) that
    supplies quantity 0 together with a reorder level of 2147483648, which
    no validator looks at and the INTEGER column does not hold, is answered
    500, and the quantity stays 500. *)
Lemma inventory_update_out_of_range :
  routes.inventory_put uuid_pattern Sample.item_id
    (inventory.PutBody.mk None None (Some 0) (Some 2147483648) None None None
       None)
    Sample.pharmacy
  = (Sample.pharmacy, store_error)
  ∧ InventoryItem.quantity <$> inventoryItem Sample.pharmacy !! Sample.item_id
    = Some 500.
Proof. split; vm_compute; reflexivity. Qed.

(** C10, amended: for every update of an existing inventory item, a
    supplied cost of 0 and an empty string for name, description, supplier
    or location are ignored, the old value being kept, every omitted field
    keeps its old value, and category and unit are never written. The
    update is performed, and answered 200, when the id is a UUID, a
    supplied quantity is not negative and the quantity and reorder level to
    write fit the INTEGER columns (32 bits); a supplied quantity, 0
    included, is then stored. Otherwise the validators answer 400, or the
    store refuses the write and the reply is 500, and the item is left as
    it was. *)
Theorem inventory_update_fields (isUUID : string → bool) (id : string)
    (body : inventory.PutBody.t) (s : Store) (item : InventoryItem.t) :
  inventoryItem s !! id = Some item →
  let valid :=
    isUUID id && optional (Z.leb 0) (inventory.PutBody.quantity body) in
  let fits := inventory.fits_columns (inventory.put_data body item item) in
  ∃ item',
    inventoryItem (routes.inventory_put isUUID id body s).1 !! id = Some item'
    ∧ (valid = true → fits = true →
       routes.inventory_put isUUID id body s
       = (with_inventoryItem (<[id := item']> (inventoryItem s)) s,
          json 200 (id, item'))
       ∧ (∀ q, inventory.PutBody.quantity body = Some q →
               InventoryItem.quantity item' = q)
       ∧ (inventory.PutBody.quantity body = Some 0 →
          InventoryItem.quantity item' = 0))
    ∧ (valid = false →
       routes.inventory_put isUUID id body s
       = (s, invalid (routes.inventory_put_errors isUUID id body))
       ∧ routes.inventory_put_errors isUUID id body ≠ []
       ∧ item' = item)
    ∧ (valid = true → fits = false →
       routes.inventory_put isUUID id body s = (s, store_error)
       ∧ item' = item)
    ∧ (inventory.PutBody.cost body = Some PrimFloat.zero
       ∨ inventory.PutBody.cost body = Some PrimFloat.neg_zero →
       InventoryItem.cost item' = InventoryItem.cost item)
    ∧ (inventory.PutBody.name body = Some "" →
       InventoryItem.name item' = InventoryItem.name item)
    ∧ (inventory.PutBody.description body = Some "" →
       InventoryItem.description item' = InventoryItem.description item)
    ∧ (inventory.PutBody.supplier body = Some "" →
       InventoryItem.supplier item' = InventoryItem.supplier item)
    ∧ (inventory.PutBody.location body = Some "" →
       InventoryItem.location item' = InventoryItem.location item)
    ∧ (inventory.PutBody.name body = None →
       InventoryItem.name item' = InventoryItem.name item)
    ∧ (inventory.PutBody.description body = None →
       InventoryItem.description item' = InventoryItem.description item)
    ∧ (inventory.PutBody.quantity body = None →
       InventoryItem.quantity item' = InventoryItem.quantity item)
    ∧ (inventory.PutBody.reorderLevel body = None →
       InventoryItem.reorderLevel item' = InventoryItem.reorderLevel item)
    ∧ (inventory.PutBody.cost body = None →
       InventoryItem.cost item' = InventoryItem.cost item)
    ∧ (inventory.PutBody.supplier body = None →
       InventoryItem.supplier item' = InventoryItem.supplier item)
    ∧ (inventory.PutBody.expiryDate body = None →
       InventoryItem.expiryDate item' = InventoryItem.expiryDate item)
    ∧ (inventory.PutBody.location body = None →
       InventoryItem.location item' = InventoryItem.location item)
    ∧ InventoryItem.category item' = InventoryItem.category item
    ∧ InventoryItem.unit item' = InventoryItem.unit item.
Proof.
  intros Hid valid fits.
  assert (Herrors : routes.inventory_put_errors isUUID id body = []
                    ↔ valid = true).
  { subst valid. unfold routes.inventory_put_errors, withMessage.
    destruct (isUUID id),
      (optional (Z.leb 0) (inventory.PutBody.quantity body)); simpl;
      split; done. }
  assert (Hkept : ∀ P : InventoryItem.t → Prop, P item → P item) by done.
  destruct valid eqn:Hvalid.
  - apply proj2 in Herrors. specialize (Herrors eq_refl).
    unfold routes.inventory_put. rewrite Herrors. simpl.
    unfold inventory.put, findUnique, update. rewrite Hid. fold fits.
    destruct fits eqn:Hfits.
    + exists (inventory.put_data body item item). simpl.
      rewrite lookup_insert_eq. split; [done|].
      split; [intros _ _; split; [done|split; [by intros q ->|by intros ->]]|].
      split; [done|]. split; [done|].
      unfold inventory.put_data. simpl.
      repeat split; try (by intros ->); try done.
      by intros [-> | ->].
    + exists item. simpl. split; [done|].
      split; [done|]. split; [done|]. split; [done|].
      repeat split; done.
  - exists item.
    assert (Herr : routes.inventory_put_errors isUUID id body ≠ []).
    { intros Hnil. apply Herrors in Hnil. done. }
    unfold routes.inventory_put, validated.
    destruct (routes.inventory_put_errors isUUID id body) as [|e errors];
      [done|]. simpl.
    split; [done|]. split; [done|]. split; [done|]. split; [done|].
    repeat split; done.
Qed.

Lemma inventory_update_fields_witness :
  ∃ item',
    routes.inventory_put uuid_pattern Sample.item_id Sample.zero_update
      Sample.pharmacy
    = (with_inventoryItem
         (<[Sample.item_id := item']> (inventoryItem Sample.pharmacy))
         Sample.pharmacy,
       json 200 (Sample.item_id, item'))
    ∧ InventoryItem.quantity item' = 0
    ∧ InventoryItem.cost item' = InventoryItem.cost Sample.paracetamol_row
    ∧ InventoryItem.name item' = "Paracetamol"
    ∧ InventoryItem.supplier item' = Some "MediSupply Inc."
    ∧ InventoryItem.location item' = Some "Pharmacy".
Proof.
  destruct (inventory_update_fields uuid_pattern Sample.item_id
              Sample.zero_update Sample.pharmacy Sample.paracetamol_row
              ltac:(vm_compute; reflexivity))
    as (item' & _ & Hput & _ & _ & Hc & Hn & _ & _ & _ & _ & _ & _ & _ & _
        & Hs & _ & Hl & _).
  destruct Hput as (Hput & _ & Hq).
  { vm_compute. reflexivity. }
  { vm_compute. reflexivity. }
  exists item'. split; [exact Hput|].
  split; [exact (Hq eq_refl)|]. split; [exact (Hc (or_introl eq_refl))|].
  split; [exact (Hn eq_refl)|]. split; [exact (Hs eq_refl)|exact (Hl eq_refl)].
Defined.

(** ** Dashboard summary *)



(** [Math.round] on a few floats: a tie goes up, also below zero. *)
Example Math_round_values :
  Math_round (PrimFloat.div (to_number 5) (to_number 2)) = Some 3
  ∧ Math_round (PrimFloat.opp (PrimFloat.div (to_number 5) (to_number 2)))
    = Some (-2)
  ∧ Math_round (PrimFloat.div (to_number 7) (to_number 4)) = Some 2
  ∧ Math_round (PrimFloat.div (to_number 1) (to_number 4)) = Some 0
  ∧ Math_round (to_number 100) = Some 100
  ∧ Math_round (PrimFloat.div (to_number 1) (to_number 0)) = None.
Proof. vm_compute. repeat split. Qed.

(** The rate on a few wards. The quotient and the product are binary64
    operations: 29 of 200 beds give 14.499999999999998, hence 14. *)
Example rate_values :
  dashboard.rate 0 0 = Some 0
  ∧ dashboard.rate 0 30 = Some 0
  ∧ dashboard.rate 1 30 = Some 3
  ∧ dashboard.rate 1 3 = Some 33
  ∧ dashboard.rate 2 3 = Some 67
  ∧ dashboard.rate 1 8 = Some 13
  ∧ dashboard.rate 29 200 = Some 14
  ∧ dashboard.rate 30 30 = Some 100.
Proof. vm_compute. repeat split. Qed.


Example rate_at_ties :
  dashboard.rate 1 8 = Some 13 ∧ dashboard.rate 23 40 = Some 57.
Proof. vm_compute. done. Qed.






(** ** Appointment queue numbers *)


Section HighestQueue.
Context (nulls_first : bool).

(** Among rows that all carry a queue number, the first row of the
    descending order carries the largest. *)
Lemma first_by_numbered (l : list (string * Appointment.t)) :
  Forall (λ kv, is_Some (Appointment.queueNumber kv.2)) l →
  match first_by (appointments.queue_desc nulls_first) l with
  | Some h => ∃ q, Appointment.queueNumber h.2 = Some q
                   ∧ max_of (omap (λ kv : string * Appointment.t,
                                     Appointment.queueNumber kv.2) l) = Some q
  | None => l = []
  end.
Proof.
  induction 1 as [|x l [qx Hx] _ IH]; [done|].
  set (qn := λ kv : string * Appointment.t, Appointment.queueNumber kv.2) in *.
  assert (Hcons : omap qn (x :: l) = qx :: omap qn l).
  { simpl. unfold qn at 1. by rewrite Hx. }
  rewrite Hcons.
  change (first_by (appointments.queue_desc nulls_first) (x :: l))
    with (match first_by (appointments.queue_desc nulls_first) l with
          | None => Some x
          | Some y =>
              if appointments.queue_desc nulls_first x y then Some x else Some y
          end).
  change (max_of (qx :: omap qn l))
    with (Some (match max_of (omap qn l) with
                | Some y => Z.max qx y
                | None => qx
                end)).
  destruct (first_by (appointments.queue_desc nulls_first) l) as [y|].
  - destruct IH as (qy & Hy & Hmax). rewrite Hmax.
    unfold appointments.queue_desc, qn in *. rewrite Hx, Hy. simpl.
    destruct (Z.leb_spec qy qx).
    + exists qx. split; [done|]. f_equal. lia.
    + exists qy. split; [done|]. f_equal. lia.
  - subst l. simpl. eauto.
Qed.

(** The queue number the handler computes is the one the specification
    words, on every table whose appointments of that date that are not
    CANCELLED all carry a queue number, wherever the database sorts NULL. *)
Lemma queueNumber_numbered (body : appointments.PostBody.t)
    (t : gmap string Appointment.t) :
  (∀ k a, t !! k = Some a →
     Appointment.date a = appointments.PostBody.date body →
     Appointment.status a ≠ CANCELLED →
     is_Some (Appointment.queueNumber a)) →
  appointments.queueNumber nulls_first body t
  = spec_queueNumber (appointments.PostBody.date body)
      (appointments.PostBody.status body) t.
Proof.
  intros Hnum. unfold appointments.queueNumber, spec_queueNumber.
  destruct (decide (appointments.PostBody.status body ≠ CANCELLED)) as [Hs|Hs].
  - rewrite decide_False by done.
    unfold appointments.highestQueue, queue_numbers.
    set (l := findMany _ t).
    assert (Hall : Forall (λ kv, is_Some (Appointment.queueNumber kv.2)) l).
    { apply Forall_forall. intros [k a] Hin.
      apply findMany_elem in Hin as [Hk [Hd Hst]]. by apply (Hnum k a). }
    pose proof (first_by_numbered l Hall) as Hfirst.
    destruct (first_by (appointments.queue_desc nulls_first) l) as [[k h]|].
    + destruct Hfirst as (q & Hq & Hmax). simpl in Hq. rewrite Hq, Hmax.
      simpl. unfold truthy_int. destruct (Z.eqb_spec q 0) as [->|]; done.
    + rewrite Hfirst. done.
  - apply dec_stable in Hs. by rewrite decide_True.
Qed.

End HighestQueue.

(** Two successive creations that are not CANCELLED, on a date that has no
    other appointment that is not CANCELLED, get 1 and 2. *)
Lemma successive_creations_1_2 (nulls_first : bool) (id1 id2 : string)
    (body1 body2 : appointments.PostBody.t) (s : Store) :
  is_Some (patient s !! appointments.PostBody.patientId body1) →
  is_Some (patient s !! appointments.PostBody.patientId body2) →
  not_a_doctor (user s !! appointments.PostBody.doctorId body1) = false →
  not_a_doctor (user s !! appointments.PostBody.doctorId body2) = false →
  appointments.PostBody.status body1 ≠ CANCELLED →
  appointments.PostBody.status body2 ≠ CANCELLED →
  appointments.PostBody.date body2 = appointments.PostBody.date body1 →
  (∀ k a, appointment s !! k = Some a →
     Appointment.date a = appointments.PostBody.date body1 →
     Appointment.status a = CANCELLED) →
  appointment s !! id1 = None → appointment s !! id2 = None → id1 ≠ id2 →
  ∃ a1 a2 s1 s2,
    appointments.post nulls_first id1 body1 s = (s1, json 201 (id1, a1))
    ∧ Appointment.queueNumber a1 = Some 1
    ∧ appointments.post nulls_first id2 body2 s1 = (s2, json 201 (id2, a2))
    ∧ Appointment.queueNumber a2 = Some 2.
Proof.
  intros [p1 Hp1] [p2 Hp2] Hd1 Hd2 Hst1 Hst2 Hdate Hfree Hid1 Hid2 Hne.
  set (d := appointments.PostBody.date body1) in *.
  assert (Hnil : findMany (λ a, Appointment.date a = d
                                ∧ Appointment.status a ≠ CANCELLED)
                          (appointment s) = []).
  { apply findMany_nil. intros k a Hk [Hda Hsa]. by apply Hsa, (Hfree k a). }
  assert (Hq1 : appointments.queueNumber nulls_first body1 (appointment s)
                = Some 1).
  { rewrite queueNumber_numbered.
    - unfold spec_queueNumber, queue_numbers. fold d.
      rewrite decide_False by done. by rewrite Hnil.
    - intros k a Hk Hda Hsa. by destruct Hsa, (Hfree k a). }
  set (a1 := Appointment.mk (appointments.PostBody.patientId body1)
               (appointments.PostBody.doctorId body1) d
               (appointments.PostBody.time body1)
               (appointments.PostBody.status body1)
               (appointments.PostBody.type body1)
               (appointments.PostBody.notes body1) (Some 1)).
  set (t1 := <[id1 := a1]> (appointment s)).
  assert (Hpost1 : appointments.post nulls_first id1 body1 s
                   = (with_appointment t1 s, json 201 (id1, a1))).
  { unfold appointments.post, findUnique, create.
    by rewrite Hp1, Hd1, Hq1, Hid1. }
  assert (Hmany : findMany (λ a, Appointment.date a = d
                                 ∧ Appointment.status a ≠ CANCELLED) t1
                  = [(id1, a1)]).
  { unfold findMany, t1. rewrite map_filter_insert_True by done.
    unfold findMany in Hnil. apply map_to_list_empty_iff in Hnil.
    rewrite Hnil, insert_empty. apply map_to_list_singleton. }
  assert (Hq2 : appointments.queueNumber nulls_first body2 t1 = Some 2).
  { rewrite queueNumber_numbered.
    - unfold spec_queueNumber, queue_numbers. rewrite Hdate. fold d.
      rewrite decide_False by done. by rewrite Hmany.
    - intros k a Hk Hda Hsa. unfold t1 in Hk.
      destruct (decide (id1 = k)) as [->|Hk'].
      + rewrite lookup_insert_eq in Hk. simplify_eq. by eexists.
      + rewrite lookup_insert_ne in Hk by done.
        destruct Hsa. apply (Hfree k a Hk). congruence. }
  eexists a1, _, _, _. split; [exact Hpost1|]. split; [done|].
  unfold appointments.post, findUnique, create. simpl.
  rewrite Hp2, Hd2, Hq2. unfold t1 at 1.
  rewrite lookup_insert_ne, Hid2 by done. done.
Qed.

(** The update handler writes status and notes only: the queue number of
    the row is the one it had. *)
Lemma put_keeps_queueNumber (id : string) (body : appointments.PutBody.t)
    (s : Store) (a : Appointment.t) :
  appointment s !! id = Some a →
  ∃ a', appointment (appointments.put id body s).1 !! id = Some a'
        ∧ Appointment.queueNumber a' = Appointment.queueNumber a
        ∧ Appointment.status a'
          = default (Appointment.status a) (appointments.PutBody.status body).
Proof.
  intros Hid. exists (appointments.put_data body a).
  unfold appointments.put, findUnique, update. rewrite Hid. simpl.
  by rewrite lookup_insert_eq.
Qed.

(** C6: a creation that is not CANCELLED, on a date that holds appointments
    numbered 1 and 2 and a third one that was created CANCELLED and then
    updated to SCHEDULED (so that it carries no queue number), is given
    queue number 1 on PostgreSQL, where one plus the maximum is 3; the same
    creation on a database that sorts NULL last is given 3. *)
Theorem queue_number_restarts_after_reschedule :
  let s := run Sample.reschedule_cancelled Sample.ward in
  let d := appointments.PostBody.date (Sample.visit SCHEDULED) in
  max_of (queue_numbers d (appointment s)) = Some 2
  ∧ spec_queueNumber d SCHEDULED (appointment s) = Some 3
  ∧ (appointments.post postgresql_nulls_first Sample.appointment_4
       (Sample.visit SCHEDULED) s).2
    = json 201
        (Sample.appointment_4,
         Appointment.mk Sample.patient_id Sample.doctor_id d "09:30"
           SCHEDULED AppointmentType.GENERAL None (Some 1))
  ∧ appointments.queueNumber false (Sample.visit SCHEDULED) (appointment s)
    = Some 3.
Proof. vm_compute. repeat split. Qed.

(** C7: after an appointment is created SCHEDULED (queue number 1) and then
    updated to CANCELLED, it is CANCELLED and still carries queue number 1;
    and after a cancelled appointment is rescheduled, the next creation on
    that date repeats queue number 1. *)
Theorem cancelled_appointment_keeps_queue_number :
  appointment (run Sample.cancel_after_create Sample.ward)
    !! Sample.appointment_1
  = Some (Appointment.mk Sample.patient_id Sample.doctor_id 1745280000000
            "09:30" CANCELLED AppointmentType.GENERAL None (Some 1))
  ∧ ¬ cancelled_unnumbered (run Sample.cancel_after_create Sample.ward)
  ∧ ¬ queue_numbers_distinct
        (run (Sample.reschedule_cancelled
              ++ [POST_appointments Sample.appointment_4
                    (Sample.visit SCHEDULED)]) Sample.ward).
Proof.
  assert (Hrow : appointment (run Sample.cancel_after_create Sample.ward)
                   !! Sample.appointment_1
                 = Some (Appointment.mk Sample.patient_id Sample.doctor_id
                           1745280000000 "09:30" CANCELLED AppointmentType.GENERAL None
                           (Some 1)))
    by (vm_compute; reflexivity).
  split; [exact Hrow|]. split.
  - intros Hinv. by pose proof (Hinv _ _ Hrow eq_refl).
  - intros Hinv.
    apply (Hinv Sample.appointment_2 Sample.appointment_4
             (Appointment.mk Sample.patient_id Sample.doctor_id
                1745280000000 "09:30" SCHEDULED AppointmentType.GENERAL None (Some 1))
             (Appointment.mk Sample.patient_id Sample.doctor_id
                1745280000000 "09:30" SCHEDULED AppointmentType.GENERAL None (Some 1)));
      try done; vm_compute; reflexivity.
Qed.

(** * Further properties of the handlers *)

(** ** Replies and the store *)

Lemma serve_handle r s : (serve r s).1 = handle r s.
Proof. by destruct r. Qed.

Ltac unfold_handlers :=
  unfold answered, patients.post, patients.put, patients.delete,
    appointments.post, appointments.put, appointments.delete,
    beds.post, beds.put, beds.write_bed, beds.delete,
    admissions.post, admissions.put, admissions.delete,
    inventory.post, inventory.put, inventory.delete in *.

Lemma failure_changes_nothing r s code :
  (serve r s).2 = Some code → 400 ≤ code → (serve r s).1 = s.
Proof.
  destruct r; simpl; unfold_handlers; unfold_tx;
    repeat case_match; simpl; intros; simplify_eq; try done; try lia.
Qed.

Lemma success_codes r s code :
  (serve r s).2 = Some code →
  code = 201 ∧ is_post r = true ∨ code = 200 ∧ is_post r = false ∨ 400 ≤ code.
Proof.
  destruct r; simpl; unfold_handlers; unfold_tx;
    repeat case_match; simpl; intros; simplify_eq; auto; right; right; lia.
Qed.

Ltac split_lookup H :=
  repeat (first [rewrite lookup_insert in H | rewrite lookup_delete in H];
          match type of H with
          | context [decide (?a = ?b)] => destruct (decide (a = b))
          end; simplify_eq).

Lemma unlink_patient_free id b :
  Bed.patientId b = None → patients.unlink_patient id b = b.
Proof. unfold patients.unlink_patient. intros ->. by rewrite decide_False. Qed.

Lemma free_beds_unlinked_handle r s :
  free_beds_unlinked s → free_beds_unlinked (handle r s).
Proof.
  intros Hinv.
  destruct r; simpl; unfold_handlers; unfold_tx; unfold beds.status_change;
    repeat case_match; simplify_eq; simpl; try done;
    intros kk bb Hk Hst; simpl in *;
    try (rewrite lookup_fmap in Hk;
         destruct (bed s !! kk) as [b0|] eqn:Hb0; simplify_eq/=;
         rewrite unlink_patient_status in Hst;
         destruct (Hinv kk b0 Hb0 Hst) as (Hp & ? & ?);
         by rewrite unlink_patient_free);
    split_lookup Hk; simpl in *; try done; eauto.
Qed.

Ltac unfold_data :=
  unfold beds.put_release, beds.put_occupy, beds.put_notes, free_bed,
    admissions.occupy, admissions.new_admission, admissions.close,
    admissions.put_simple, patients.put_data in *.

Lemma bed_numbers_unique_handle r s :
  bed_numbers_unique s → bed_numbers_unique (handle r s).
Proof.
  intros Hinv.
  destruct r; simpl; unfold_handlers; unfold_tx; unfold beds.status_change;
    repeat case_match; simplify_eq; simpl; try done;
    intros i j x y Hi Hj Hnum; simpl in *.
  all: try (rewrite !lookup_fmap in *;
         destruct (bed s !! i) as [x0|] eqn:Hx0;
         destruct (bed s !! j) as [y0|] eqn:Hy0; simplify_eq/=;
         apply (Hinv i j x0 y0); [done|done|];
         revert Hnum; unfold patients.unlink_patient;
         by repeat case_decide).
  all: split_lookup Hi; split_lookup Hj; unfold_data; simpl in *; try done.
  all: try (by eapply Hinv; eauto).
  all: try (symmetry; by eapply Hinv; eauto).
  all: repeat match goal with
       | H : findFirst _ _ = None |- _ => rewrite findFirst_None in H
       end.
  all: try (exfalso; by eauto).
  all: exfalso;
    match goal with
    | H0 : ∀ k v, bed _ !! k = Some v → _, Hb : bed _ !! _ = Some _ |- _ =>
        apply (H0 _ _ Hb); congruence
    end.
Qed.

Lemma mrns_unique_handle r s : mrns_unique s → mrns_unique (handle r s).
Proof.
  intros Hinv.
  destruct r; simpl; unfold_handlers; unfold_tx; unfold beds.status_change;
    repeat case_match; simplify_eq; simpl; try done;
    intros i j x y Hi Hj Hnum; simpl in *.
  all: split_lookup Hi; split_lookup Hj; unfold_data; simpl in *; try done.
  all: try (by eapply Hinv; eauto).
  all: try (symmetry; by eapply Hinv; eauto).
  all: repeat match goal with
       | H : findFirst _ _ = None |- _ => rewrite findFirst_None in H
       end.
  all: exfalso;
    match goal with
    | H0 : ∀ k v, patient _ !! k = Some v → _, Hb : patient _ !! _ = Some _ |- _ =>
        apply (H0 _ _ Hb); congruence
    end.
Qed.


Ltac split_goal_lookup :=
  repeat (first [rewrite lookup_insert | rewrite lookup_delete];
          match goal with
          | |- context [decide (?a = ?b)] => destruct (decide (a = b))
          end; simplify_eq).

(** Rows of the new store that come from rows of the old one with the same
    references, or whose references exist in the new store, over tables
    that lose no key. *)
Lemma references_ok_grow s s' :
  (∀ k, is_Some (patient s !! k) → is_Some (patient s' !! k)) →
  (∀ k, is_Some (bed s !! k) → is_Some (bed s' !! k)) →
  (∀ k, is_Some (user s !! k) → is_Some (user s' !! k)) →
  (∀ k a', admission s' !! k = Some a' →
     (∃ j a, admission s !! j = Some a
             ∧ Admission.patientId a = Admission.patientId a'
             ∧ Admission.bedId a = Admission.bedId a'
             ∧ Admission.doctorId a = Admission.doctorId a')
     ∨ (is_Some (patient s' !! Admission.patientId a')
        ∧ is_Some (bed s' !! Admission.bedId a')
        ∧ is_Some (user s' !! Admission.doctorId a'))) →
  (∀ k a', appointment s' !! k = Some a' →
     (∃ j a, appointment s !! j = Some a
             ∧ Appointment.patientId a = Appointment.patientId a'
             ∧ Appointment.doctorId a = Appointment.doctorId a')
     ∨ (is_Some (patient s' !! Appointment.patientId a')
        ∧ is_Some (user s' !! Appointment.doctorId a'))) →
  (∀ k b' p, bed s' !! k = Some b' → Bed.patientId b' = Some p →
     (∃ j b, bed s !! j = Some b ∧ Bed.patientId b = Some p)
     ∨ is_Some (patient s' !! p)) →
  references_ok s → references_ok s'.
Proof.
  intros Hp Hb Hu Hadm' Happ' Hbed' (Hadm & Happ & Hbed). split; [|split].
  - intros k a' Hk.
    destruct (Hadm' k a' Hk) as [(j & a & Hj & Ep & Eb & Ed)|]; [|done].
    destruct (Hadm j a Hj) as (? & ? & ?). rewrite <- Ep, <- Eb, <- Ed.
    repeat split; [by apply Hp|by apply Hb|by apply Hu].
  - intros k a' Hk.
    destruct (Happ' k a' Hk) as [(j & a & Hj & Ep & Ed)|]; [|done].
    destruct (Happ j a Hj) as (? & ?). rewrite <- Ep, <- Ed.
    split; [by apply Hp|by apply Hu].
  - intros k b' p Hk Hpid.
    destruct (Hbed' k b' p Hk Hpid) as [(j & b & Hj & Hq)|]; [|done].
    apply Hp. by apply (Hbed j b p).
Qed.

Ltac grow :=
  match goal with
  | Hinv : references_ok ?s |- references_ok ?s' =>
      apply (references_ok_grow s s'); [| | | | | |exact Hinv]; simpl;
      [intros kk Hkk; split_goal_lookup; eauto
      |intros kk Hkk; split_goal_lookup; eauto
      |intros kk Hkk; split_goal_lookup; eauto
      |intros kk aa Hk; split_lookup Hk; unfold_data; simpl in *;
       first [by eauto 10
             |right; repeat split; split_goal_lookup; by eauto]
      |intros kk aa Hk; split_lookup Hk; unfold_data; simpl in *;
       first [by eauto 10
             |right; repeat split; split_goal_lookup; by eauto]
      |intros kk bb pp Hk Hpid; split_lookup Hk; unfold_data; simpl in *;
       simplify_eq; eauto 10]
  end.

Lemma references_ok_handle r s : references_ok s → references_ok (handle r s).
Proof.
  intros Hinv.
  destruct r; simpl; unfold_handlers; unfold_tx;
    unfold beds.status_change, not_a_doctor;
    repeat case_match; simplify_eq; simpl; try done.
  all: repeat match goal with
       | H : findFirst _ _ = None |- _ => rewrite findFirst_None in H
       end.
  all: unfold findUnique in *.
  all: repeat match goal with
       | H : _ = left _ |- _ => clear H
       | H : _ = right _ |- _ => clear H
       end.
  all: try (grow; fail).
  - (* DELETE /patients/:id *)
    assert (Hnoadm : ∀ k v, admission s !! k = Some v →
                            Admission.patientId v ≠ id) by assumption.
    assert (Hnoapp : ∀ k v, appointment s !! k = Some v →
                            Appointment.patientId v ≠ id) by assumption.
    destruct Hinv as (Hadm & Happ & Hbed). split; [|split]; simpl.
    + intros k a Hk. destruct (Hadm k a Hk) as (Hp & [b Hb] & Hu).
      rewrite lookup_delete_ne by (intros E; by apply (Hnoadm k a Hk)).
      rewrite lookup_fmap, Hb. eauto.
    + intros k a Hk. destruct (Happ k a Hk) as (Hp & Hu).
      rewrite lookup_delete_ne by (intros E; by apply (Hnoapp k a Hk)). eauto.
    + intros k b p Hk Hpid. rewrite lookup_fmap in Hk.
      destruct (bed s !! k) as [b0|] eqn:Hb0; simplify_eq/=.
      unfold patients.unlink_patient in Hpid. case_decide; simplify_eq/=.
      rewrite lookup_delete_ne by congruence. by apply (Hbed k b0).
  - (* DELETE /beds/:id *)
    assert (Hnoadm : ∀ k v, admission s !! k = Some v →
                            Admission.bedId v ≠ id) by assumption.
    destruct Hinv as (Hadm & Happ & Hbed). split; [|split]; simpl.
    + intros k a Hk. destruct (Hadm k a Hk) as (Hp & Hb & Hu).
      rewrite lookup_delete_ne by (intros E; by apply (Hnoadm k a Hk)). eauto.
    + done.
    + intros k b p [_ Hk]%lookup_delete_Some. by apply (Hbed k b).
Qed.

Lemma run_invariant (P : Store → Prop) :
  (∀ r s, P s → P (handle r s)) → ∀ rs s, P s → P (run rs s).
Proof.
  intros Hstep rs. induction rs as [|r rs IH]; intros s Hs; [done|].
  simpl. by apply IH, Hstep.
Qed.

(** X1: a request that is answered with an error status (400 and above)
    leaves every table as it was; the store changes only under a 201 (a
    creation), a 200 (any other request) or the bed release that sends no
    reply. *)
Theorem store_changes_only_on_success (r : Request) (s : Store) :
  (serve r s).1 = handle r s
  ∧ ((serve r s).1 = s
     ∨ (serve r s).2 = Some 201 ∧ is_post r = true
     ∨ (serve r s).2 = Some 200 ∧ is_post r = false
     ∨ (serve r s).2 = None ∧ ∃ now id body, r = PUT_beds now id body).
Proof.
  split; [apply serve_handle|].
  destruct ((serve r s).2) as [code|] eqn:Hcode.
  - destruct (success_codes r s code Hcode) as [[-> ?]|[[-> ?]|Hfail]]; auto.
    left. by apply (failure_changes_nothing r s code).
  - right; right; right. split; [done|].
    revert Hcode. destruct r; simpl; unfold_handlers; unfold_tx;
      repeat case_match; simpl; intros; simplify_eq; eauto.
Qed.

(** ** Invariants of the store *)

Lemma references_ok_staffed : references_ok Sample.staffed.
Proof.
  split; [|split]; intros k a; simpl; rewrite lookup_empty; done.
Qed.

(** X2: referential integrity is kept by every request: in every store
    reached from one whose foreign keys all name existing rows, each
    admission names an existing patient, bed and doctor, each appointment an
    existing patient and doctor, and each bed with a patient an existing
    patient. *)
Theorem references_kept (rs : list Request) (s : Store) :
  references_ok s → references_ok (run rs s).
Proof. apply (run_invariant references_ok), references_ok_handle. Qed.

Lemma references_kept_witness :
  references_ok
    (run [POST_patients Sample.patient_id Sample.john_doe;
          POST_beds (Some Sample.doctor_id) Sample.bed_id Sample.bed_A101;
          POST_admissions Sample.admission_id Sample.admit_john;
          DELETE_patients Sample.patient_id;
          DELETE_beds Sample.bed_id] Sample.staffed).
Proof. apply references_kept. exact references_ok_staffed. Defined.

Lemma free_beds_unlinked_staffed : free_beds_unlinked Sample.staffed.
Proof. intros k b Hk. simpl in Hk. by rewrite lookup_empty in Hk. Qed.

(** X3: in every store reached from one where it holds, a bed whose status
    is AVAILABLE or MAINTENANCE names no patient and carries neither an
    admission date nor an expected discharge date. *)
Theorem free_beds_stay_unlinked (rs : list Request) (s : Store) :
  free_beds_unlinked s → free_beds_unlinked (run rs s).
Proof. apply (run_invariant free_beds_unlinked), free_beds_unlinked_handle. Qed.

Lemma free_beds_stay_unlinked_witness :
  free_beds_unlinked
    (run [POST_patients Sample.patient_id Sample.john_doe;
          POST_beds (Some Sample.doctor_id) Sample.bed_id Sample.bed_A101;
          Sample.occupy_A101;
          PUT_beds 1745539200000 Sample.bed_id
            (beds.PutBody.mk (Some MAINTENANCE) None None None None)]
         Sample.staffed).
Proof. apply free_beds_stay_unlinked. exact free_beds_unlinked_staffed. Defined.

Lemma uniqueness_staffed :
  bed_numbers_unique Sample.staffed ∧ mrns_unique Sample.staffed.
Proof.
  split; intros i j a b Hi; simpl in Hi; by rewrite lookup_empty in Hi.
Qed.

(** X4: bed numbers and medical record numbers stay unique: in every store
    reached from one where no two beds share a bedNumber and no two patients
    share an mrn, the same holds, the create handlers turning duplicates
    away and no update writing either column. *)
Theorem unique_numbers_kept (rs : list Request) (s : Store) :
  bed_numbers_unique s ∧ mrns_unique s →
  bed_numbers_unique (run rs s) ∧ mrns_unique (run rs s).
Proof.
  apply (run_invariant (λ s, bed_numbers_unique s ∧ mrns_unique s)).
  intros r s' [Hb Hm]. split.
  - by apply bed_numbers_unique_handle.
  - by apply mrns_unique_handle.
Qed.

Lemma unique_numbers_kept_witness :
  bed_numbers_unique
    (run [POST_beds (Some Sample.doctor_id) Sample.bed_id Sample.bed_A101;
          POST_beds (Some Sample.doctor_id) Sample.admission_id
            Sample.bed_A101;
          POST_patients Sample.patient_id Sample.john_doe;
          POST_patients Sample.item_id Sample.john_doe] Sample.staffed)
  ∧ mrns_unique
      (run [POST_beds (Some Sample.doctor_id) Sample.bed_id Sample.bed_A101;
            POST_beds (Some Sample.doctor_id) Sample.admission_id
              Sample.bed_A101;
            POST_patients Sample.patient_id Sample.john_doe;
            POST_patients Sample.item_id Sample.john_doe] Sample.staffed).
Proof. apply unique_numbers_kept. exact uniqueness_staffed. Defined.

(** ** Admission, discharge and deletion *)

(** A 201 from admission creation means both writes were made. *)
Lemma post_created newId body s x :
  (admissions.post newId body s).2 = json 201 x →
  ∃ b, bed s !! admissions.PostBody.bedId body = Some b
       ∧ Bed.status b = AVAILABLE
       ∧ is_Some (patient s !! admissions.PostBody.patientId body)
       ∧ not_a_doctor (user s !! admissions.PostBody.doctorId body) = false
       ∧ (∀ k a, admission s !! k = Some a →
            ¬ (Admission.patientId a = admissions.PostBody.patientId body
               ∧ Admission.status a = ACTIVE))
       ∧ admission s !! newId = None
       ∧ (admissions.post newId body s).1 = admitted newId body b s.
Proof.
  unfold admissions.post, findUnique.
  destruct (patient s !! _) as [p|] eqn:Hp; [|done].
  destruct (bed s !! _) as [b|] eqn:Hb; [|done].
  destruct (decide (Bed.status b ≠ AVAILABLE)) as [|Hst]; [done|].
  apply dec_stable in Hst.
  destruct (not_a_doctor _) eqn:Hd; [done|].
  destruct (findFirst _ _) as [|] eqn:Hf; [done|].
  rewrite findFirst_None in Hf.
  unfold_tx. rewrite Hb. simpl.
  destruct (admission s !! newId) eqn:Hn; [done|].
  intros _. exists b. eauto 10.
Qed.

Lemma free_occupy body b :
  Bed.status b = AVAILABLE → Bed.patientId b = None →
  Bed.admissionDate b = None → Bed.expectedDischargeDate b = None →
  free_bed (admissions.occupy body b) = b.
Proof. destruct b. simpl. by intros -> -> -> ->. Qed.

Lemma free_beds_unlinked_ward : free_beds_unlinked Sample.ward.
Proof.
  apply (run_invariant free_beds_unlinked free_beds_unlinked_handle).
  exact free_beds_unlinked_staffed.
Qed.

(** X5: deleting an admission that was just created undoes the creation:
    in a store whose free beds name no patient, an Admit call answered 201
    followed by DELETE /admissions/:id of the new admission gives back the
    store as it was before, bed included, and answers 200. *)
Theorem admit_then_delete_restores (newId : string)
    (body : admissions.PostBody.t) (s : Store) x :
  free_beds_unlinked s →
  (admissions.post newId body s).2 = json 201 x →
  admissions.delete newId (admissions.post newId body s).1
  = (s, json 200 "Admission deleted successfully").
Proof.
  intros Hfree Hpost.
  destruct (post_created newId body s x Hpost)
    as (b & Hb & Hst & _ & _ & _ & Hn & ->).
  assert (Hne : Bed.status b ≠ OCCUPIED) by congruence.
  destruct (Hfree _ _ Hb Hne) as (Hp & Ha & He).
  unfold admissions.delete, findUnique, admitted. simpl.
  rewrite lookup_insert_eq. simpl. unfold_tx. simpl.
  repeat (rewrite lookup_insert_eq; simpl).
  rewrite insert_insert_eq.
  rewrite free_occupy by done.
  rewrite (insert_id (bed s) _ b) by done.
  rewrite delete_insert_eq.
  rewrite delete_id by done.
  by destruct s.
Qed.

Lemma admit_then_delete_restores_witness :
  admissions.delete Sample.admission_id
    (admissions.post Sample.admission_id Sample.admit_john Sample.ward).1
  = (Sample.ward, json 200 "Admission deleted successfully").
Proof.
  eapply (admit_then_delete_restores Sample.admission_id Sample.admit_john
            Sample.ward).
  - exact free_beds_unlinked_ward.
  - vm_compute. reflexivity.
Defined.

(** X6: admit, discharge, admit again. After an Admit call answered 201,
    an update of the new admission to a status other than ACTIVE answers 200
    with the closed row, leaves the bed table exactly as it was before the
    admission, and the same Admit body is accepted again (201) under any
    unused key. *)
Theorem admit_discharge_readmit (now : Z) (newId : string)
    (body : admissions.PostBody.t) (upd : admissions.PutBody.t)
    (st : AdmissionStatus) (s : Store) x :
  free_beds_unlinked s →
  (admissions.post newId body s).2 = json 201 x →
  admissions.PutBody.status upd = Some st → st ≠ ACTIVE →
  let s1 := (admissions.post newId body s).1 in
  let closed_row :=
    admissions.close now st upd (admissions.new_admission body)
      (admissions.new_admission body) in
  let s2 := (admissions.put now newId upd s1).1 in
  admissions.put now newId upd s1
  = (with_admission (<[newId := closed_row]> (admission s)) s,
     json 200 (newId, closed_row))
  ∧ bed s2 = bed s
  ∧ ∀ newId2, admission s2 !! newId2 = None →
      ∃ y, (admissions.post newId2 body s2).2 = json 201 y.
Proof.
  intros Hfree Hpost Hupd Hst s1 closed_row s2.
  destruct (post_created newId body s x Hpost)
    as (b & Hb & Hav & [p Hp] & Hdoc & Hnone & Hn & Hs1).
  assert (Hne : Bed.status b ≠ OCCUPIED) by congruence.
  destruct (Hfree _ _ Hb Hne) as (Hbp & Hba & Hbe).
  assert (Hput : admissions.put now newId upd s1
                 = (with_admission (<[newId := closed_row]> (admission s)) s,
                    json 200 (newId, closed_row))).
  { subst s1. rewrite Hs1. unfold admissions.put, findUnique, admitted. simpl.
    rewrite lookup_insert_eq. unfold admissions.frees_bed. rewrite Hupd.
    rewrite decide_True by done. unfold_tx. simpl.
    repeat (rewrite lookup_insert_eq; simpl).
    rewrite !insert_insert_eq, free_occupy by done.
    rewrite (insert_id (bed s) _ b) by done. by destruct s. }
  split; [exact Hput|]. subst s2. rewrite Hput. simpl. split; [done|].
  intros newId2 Hfresh. unfold admissions.post, findUnique. simpl.
  rewrite Hp, Hb, decide_False by (intros Hno; by apply Hno).
  rewrite Hdoc.
  destruct (findFirst _ _) as [[k a]|] eqn:Hf.
  { apply findFirst_Some in Hf as [Hk [Hpid Hact]]. exfalso.
    destruct (decide (newId = k)) as [<-|Hk'].
    - rewrite lookup_insert_eq in Hk. by simplify_eq.
    - rewrite lookup_insert_ne in Hk by done. by apply (Hnone k a Hk). }
  unfold_tx. simpl. rewrite Hb. simpl. rewrite Hfresh. simpl. eauto.
Qed.

Lemma admit_discharge_readmit_witness :
  bed (admissions.put 1745539200000 Sample.admission_id Sample.discharge
         (admissions.post Sample.admission_id Sample.admit_john
            Sample.ward).1).1
  = bed Sample.ward.
Proof.
  eapply (admit_discharge_readmit 1745539200000 Sample.admission_id
            Sample.admit_john Sample.discharge DISCHARGED Sample.ward).
  - exact free_beds_unlinked_ward.
  - vm_compute. reflexivity.
  - reflexivity.
  - discriminate.
Defined.



(** X8: DELETE /beds/:id on an existing bed: an OCCUPIED bed is refused
    with 400; a bed that any admission names, ACTIVE or not, is never
    deleted (the store is unchanged and the reply is not a 200); a bed that
    is not OCCUPIED and that no admission names is deleted with 200. *)
Theorem bed_delete_needs_no_history (id : string) (s : Store) (b : Bed.t) :
  bed s !! id = Some b →
  (Bed.status b = OCCUPIED →
   beds.delete id s = (s, error 400 "Cannot delete an occupied bed"))
  ∧ (∀ k a, admission s !! k = Some a → Admission.bedId a = id →
       (beds.delete id s).1 = s
       ∧ ∀ msg, (beds.delete id s).2 ≠ json 200 msg)
  ∧ (Bed.status b ≠ OCCUPIED →
     (∀ k a, admission s !! k = Some a → Admission.bedId a ≠ id) →
     beds.delete id s
     = (with_bed (delete id (bed s)) s, json 200 "Bed deleted successfully")).
Proof.
  intros Hb. unfold beds.delete, findUnique, delete_row. rewrite Hb.
  split; [|split].
  - intros Hocc. by rewrite decide_True.
  - intros k a Hk Hid. repeat case_match; simpl; try done.
    all: match goal with
         | H : findFirst _ (admission _) = None |- _ =>
             rewrite findFirst_None in H; by destruct (H k a Hk)
         end.
  - intros Hfree Hnone. rewrite decide_False by done.
    assert (Hn : findMany (λ a, Admission.bedId a = id
                                ∧ Admission.status a = ACTIVE) (admission s)
                 = []).
    { apply findMany_nil. intros k a Hk [Hid _]. by apply (Hnone k a). }
    assert (Hf : findFirst (λ a, Admission.bedId a = id) (admission s) = None).
    { apply findFirst_None. intros k a Hk Hid. by apply (Hnone k a). }
    by rewrite Hn, Hf.
Qed.

Lemma bed_delete_needs_no_history_witness :
  beds.delete Sample.bed_id Sample.admitted_ward
  = (Sample.admitted_ward, error 400 "Cannot delete an occupied bed").
Proof.
  edestruct (bed_delete_needs_no_history Sample.bed_id Sample.admitted_ward)
    as [Hocc _].
  - vm_compute. reflexivity.
  - apply Hocc. reflexivity.
Defined.



(** ** Queue numbers *)











(** ** The list routes *)

Section Sorting.
Context {A : Type} (before : A → A → bool).
Hypothesis before_total : ∀ x y, before x y = true ∨ before y x = true.
Hypothesis before_trans :
  ∀ x y z, before x y = true → before y z = true → before x z = true.

Lemma insert_by_perm x l : insert_by before x l ≡ₚ x :: l.
Proof.
  induction l as [|y l IH]; simpl; [done|].
  destruct (before x y); [done|]. rewrite IH. apply Permutation_swap.
Qed.

Lemma sort_by_perm l : sort_by before l ≡ₚ l.
Proof.
  induction l as [|x l IH]; simpl; [done|].
  unfold sort_by in *. simpl. by rewrite insert_by_perm, IH.
Qed.

Lemma insert_by_sorted x l :
  StronglySorted (λ a b, before a b = true) l →
  StronglySorted (λ a b, before a b = true) (insert_by before x l).
Proof.
  induction 1 as [|y l Hl IH Hy]; simpl.
  - by repeat constructor.
  - destruct (before x y) eqn:Hxy.
    + constructor; [by constructor|]. constructor; [done|].
      eapply Forall_impl; [exact Hy|]. intros z Hz. by eapply before_trans.
    + constructor; [done|].
      rewrite insert_by_perm. constructor; [|done].
      destruct (before_total x y); congruence.
Qed.

Lemma sort_by_sorted l :
  StronglySorted (λ a b, before a b = true) (sort_by before l).
Proof.
  induction l as [|x l IH]; [constructor|].
  unfold sort_by in *. simpl. by apply insert_by_sorted.
Qed.

End Sorting.

Lemma findMany_NoDup {V} (P : V → Prop) `{!∀ v, Decision (P v)}
    (t : gmap string V) : NoDup (findMany P t).*1.
Proof. apply NoDup_fst_map_to_list. Qed.

Lemma findMany_filter {V} (P : V → Prop) `{!∀ v, Decision (P v)}
    (t : gmap string V) :
  findMany P t ≡ₚ filter (λ kv, P kv.2) (map_to_list t).
Proof.
  apply NoDup_Permutation.
  - apply NoDup_map_to_list.
  - apply NoDup_filter, NoDup_map_to_list.
  - intros [k v]. rewrite findMany_elem, list_elem_of_filter, elem_of_map_to_list.
    simpl. tauto.
Qed.

Lemma StronglySorted_weaken {A} (R R' : A → A → Prop) l :
  (∀ x y, R x y → R' x y) → StronglySorted R l → StronglySorted R' l.
Proof.
  intros HR. induction 1 as [|x l _ IH Hx]; constructor; [done|].
  eapply Forall_impl; [exact Hx|]. auto.
Qed.

(** What a list route holds: the selected rows, each once, in order. *)
Lemma listing {V} (P : V → Prop) `{!∀ v, Decision (P v)}
    (before : string * V → string * V → bool)
    (R : string * V → string * V → Prop) (t : gmap string V) :
  (∀ x y, before x y = true ↔ R x y) →
  (∀ x y, R x y ∨ R y x) →
  (∀ x y z, R x y → R y z → R x z) →
  let l := sort_by before (findMany P t) in
  (∀ k v, (k, v) ∈ l ↔ t !! k = Some v ∧ P v)
  ∧ NoDup l.*1
  ∧ StronglySorted R l.
Proof.
  intros HR Htot Htrans l. split; [|split].
  - intros k v. unfold l. rewrite sort_by_perm. apply findMany_elem.
  - unfold l. rewrite sort_by_perm. apply findMany_NoDup.
  - apply (StronglySorted_weaken (λ a b, before a b = true)).
    + intros x y. apply HR.
    + apply sort_by_sorted.
      * intros x y. rewrite !HR. apply Htot.
      * intros x y z. rewrite !HR. apply Htrans.
Qed.

Lemma latest_first_order :
  (∀ x y, dashboard.admission_before x y = true ↔ latest_first x y)
  ∧ (∀ x y, latest_first x y ∨ latest_first y x)
  ∧ (∀ x y z, latest_first x y → latest_first y z → latest_first x z).
Proof.
  unfold dashboard.admission_before, latest_first. repeat split.
  - by apply Z.leb_le.
  - by apply Z.leb_le.
  - intros. lia.
  - intros. lia.
Qed.

(** X11: the three admission lists (GET /admissions, GET
    /admissions/active, GET /patients/:id/admissions) hold exactly the rows
    their [where] selects, each once, the latest admission date first. *)
Theorem admission_lists (s : Store) :
  ((∀ k a, (k, a) ∈ admissions_get.all s ↔ admission s !! k = Some a)
   ∧ NoDup (admissions_get.all s).*1
   ∧ StronglySorted latest_first (admissions_get.all s))
  ∧ ((∀ k a, (k, a) ∈ admissions_get.active s
             ↔ admission s !! k = Some a ∧ Admission.status a = ACTIVE)
     ∧ NoDup (admissions_get.active s).*1
     ∧ StronglySorted latest_first (admissions_get.active s))
  ∧ ∀ id,
      (∀ k a, (k, a) ∈ patients_get.admissions id s
              ↔ admission s !! k = Some a ∧ Admission.patientId a = id)
      ∧ NoDup (patients_get.admissions id s).*1
      ∧ StronglySorted latest_first (patients_get.admissions id s).
Proof.
  destruct latest_first_order as (HR & Htot & Htrans).
  split; [|split].
  - destruct (listing (λ _, True) dashboard.admission_before latest_first
                (admission s) HR Htot Htrans) as (Hin & Hnd & Hs).
    split; [|done]. intros k a. rewrite (Hin k a). tauto.
  - apply (listing _ dashboard.admission_before latest_first
             (admission s) HR Htot Htrans).
  - intros id.
    apply (listing _ dashboard.admission_before latest_first
             (admission s) HR Htot Htrans).
Qed.

Lemma sort_by_length {A} (before : A → A → bool) l :
  length (sort_by before l) = length l.
Proof.
  induction l as [|x l IH]; [done|]. unfold sort_by in *. simpl.
  assert (Hins : ∀ y m, length (insert_by before y m) = S (length m)).
  { intros y m. induction m as [|z m IHm]; simpl; [done|].
    destruct (before y z); simpl; by rewrite ?IHm. }
  by rewrite Hins, IH.
Qed.

(** X12: the dashboard's recentAdmissions are the most recent five: their
    number is the smaller of 5 and the number of admissions, each is an
    admission of the store listed once, they are ordered latest first, and
    no admission left out is more recent than one that is shown. *)
Theorem recent_admissions (today tomorrow : Z) (s : Store) :
  let recent := dashboard.recentAdmissions (dashboard.summary today tomorrow s) in
  length recent = Nat.min 5 (size (admission s))
  ∧ NoDup recent.*1
  ∧ StronglySorted latest_first recent
  ∧ (∀ k a, (k, a) ∈ recent → admission s !! k = Some a)
  ∧ (∀ k a x, admission s !! k = Some a → (k, a) ∉ recent → x ∈ recent →
       Admission.admissionDate a ≤ Admission.admissionDate x.2).
Proof.
  destruct latest_first_order as (HR & Htot & Htrans).
  destruct (listing (λ _, True) dashboard.admission_before latest_first
              (admission s) HR Htot Htrans) as (Hin0 & Hnd & Hs).
  assert (Hin : ∀ k a,
            (k, a) ∈ sort_by dashboard.admission_before
                       (findMany (λ _ : Admission.t, True) (admission s))
            ↔ admission s !! k = Some a).
  { intros k a. rewrite (Hin0 k a). tauto. }
  clear Hin0 HR Htot Htrans. simpl.
  set (l := sort_by dashboard.admission_before
              (findMany (λ _ : Admission.t, True) (admission s))) in *.
  assert (Hl : l = take 5 l ++ drop 5 l) by by rewrite take_drop.
  split; [|split; [|split; [|split]]].
  - rewrite length_take. unfold l. rewrite sort_by_length.
    unfold findMany. rewrite map_filter_id by done.
    by rewrite length_map_to_list.
  - rewrite Hl, fmap_app in Hnd. by apply NoDup_app in Hnd as [? _].
  - rewrite Hl in Hs. by apply StronglySorted_app_1_l in Hs.
  - intros k a Hk. apply Hin. rewrite Hl. apply elem_of_app. by left.
  - intros k a x Hk Hnot Hx. apply Hin in Hk. rewrite Hl in Hk.
    apply elem_of_app in Hk as [Hk|Hk]; [done|].
    rewrite Hl in Hs.
    apply (StronglySorted_app_1_elem_of latest_first _ _ x (k, a) Hs Hx Hk).
Qed.

(** X13: GET /inventory/low-stock lists exactly the items whose quantity
    is at most their reorder level, each once, smallest quantity first, and
    the dashboard's lowStockItems is the length of that list. *)
Theorem low_stock_list (today tomorrow : Z) (s : Store) :
  (∀ k i, (k, i) ∈ inventory_get.low_stock s
          ↔ inventoryItem s !! k = Some i
            ∧ InventoryItem.quantity i ≤ InventoryItem.reorderLevel i)
  ∧ NoDup (inventory_get.low_stock s).*1
  ∧ StronglySorted fewest_first (inventory_get.low_stock s)
  ∧ dashboard.lowStockItems (dashboard.summary today tomorrow s)
    = Z.of_nat (length (inventory_get.low_stock s)).
Proof.
  destruct (listing (λ i, InventoryItem.quantity i ≤ InventoryItem.reorderLevel i)
              inventory_get.quantity_asc fewest_first (inventoryItem s))
    as (Hin & Hnd & Hs).
  - intros x y. unfold inventory_get.quantity_asc, fewest_first. apply Z.leb_le.
  - intros x y. unfold fewest_first. lia.
  - intros x y z. unfold fewest_first. lia.
  - split; [|split; [|split]]; try done.
    simpl. unfold count, inventory_get.low_stock. by rewrite sort_by_length.
Qed.

(** X14: GET /appointments lists every appointment once, earliest date
    first; the dashboard's totalAppointments is the length of that list and
    appointmentsToday the number of its entries dated from today's midnight
    up to, not including, tomorrow's. *)
Theorem appointment_list (today tomorrow : Z) (s : Store) :
  (∀ k a, (k, a) ∈ appointments_get.all s ↔ appointment s !! k = Some a)
  ∧ NoDup (appointments_get.all s).*1
  ∧ StronglySorted earliest_first (appointments_get.all s)
  ∧ dashboard.totalAppointments (dashboard.summary today tomorrow s)
    = Z.of_nat (length (appointments_get.all s))
  ∧ dashboard.appointmentsToday (dashboard.summary today tomorrow s)
    = Z.of_nat (length (filter (λ x, today ≤ Appointment.date x.2 < tomorrow)
                               (appointments_get.all s))).
Proof.
  destruct (listing (λ _, True) appointments_get.date_asc earliest_first
              (appointment s)) as (Hin & Hnd & Hs).
  - intros x y. unfold appointments_get.date_asc, earliest_first. apply Z.leb_le.
  - intros x y. unfold earliest_first. lia.
  - intros x y z. unfold earliest_first. lia.
  - split; [|split; [|split; [|split]]]; try done.
    + intros k a. rewrite (Hin k a). tauto.
    + simpl. unfold appointments_get.all. rewrite sort_by_length. done.
    + simpl. unfold count. f_equal. apply Permutation_length.
      apply NoDup_Permutation.
      * apply NoDup_map_to_list.
      * apply NoDup_filter. eapply NoDup_fmap_1. exact Hnd.
      * intros [k a]. rewrite findMany_elem, list_elem_of_filter.
        unfold appointments_get.all. rewrite (Hin k a). simpl. tauto.
Qed.

(** ** Ward statistics *)

Lemma add_stat_lookup (m : gmap string bed_stats.WardStat) l K :
  foldl bed_stats.add_stat m l !! K
  = foldl (λ o g, Some (bed_stats.record_count g.1.2 g.2
                          (default (bed_stats.mkWardStat 0 0 0 0) o)))
      (m !! K) (filter (λ g, bed_stats.ward_key g.1.1 = K) l).
Proof.
  revert m. induction l as [|g l IH]; intros m; [done|].
  simpl. rewrite IH. unfold bed_stats.add_stat at 1.
  destruct (decide (bed_stats.ward_key g.1.1 = K)) as [HK|HK].
  - rewrite filter_cons_True by done. simpl.
    by rewrite HK, lookup_insert_eq.
  - rewrite filter_cons_False by done. by rewrite lookup_insert_ne.
Qed.

Lemma groups_of_ward (c : WardType → BedStatus → Z) w :
  filter (λ g : WardType * BedStatus * Z,
            bed_stats.ward_key g.1.1 = bed_stats.ward_key w)
    (w' ← bed_stats.wards; st ← bed_stats.statuses; [(w', st, c w' st)])
  = [(w, AVAILABLE, c w AVAILABLE); (w, OCCUPIED, c w OCCUPIED);
     (w, MAINTENANCE, c w MAINTENANCE)].
Proof. by destruct w. Qed.

Lemma groups_of_no_ward (c : WardType → BedStatus → Z) K :
  (∀ w, K ≠ bed_stats.ward_key w) →
  filter (λ g : WardType * BedStatus * Z, bed_stats.ward_key g.1.1 = K)
    (w' ← bed_stats.wards; st ← bed_stats.statuses; [(w', st, c w' st)])
  = [].
Proof.
  intros HK.
  induction (w' ← bed_stats.wards; st ← bed_stats.statuses; [(w', st, c w' st)])
    as [|g l IH]; [done|].
  rewrite filter_cons_False; [done|]. intros E. by eapply HK.
Qed.

Lemma filter_comm {A} (P Q : A → Prop) `{!∀ x, Decision (P x)}
    `{!∀ x, Decision (Q x)} (l : list A) :
  filter P (filter Q l) = filter Q (filter P l).
Proof.
  induction l as [|x l IH]; [done|].
  rewrite !(filter_cons _ x).
  destruct (decide (Q x)), (decide (P x)); rewrite ?filter_cons;
    repeat case_decide; try done; by rewrite IH.
Qed.

Lemma count_by_status (w : WardType) (t : gmap string Bed.t) :
  count (λ b, Bed.ward b = w) t
  = count (λ b, Bed.ward b = w ∧ Bed.status b = AVAILABLE) t
    + count (λ b, Bed.ward b = w ∧ Bed.status b = OCCUPIED) t
    + count (λ b, Bed.ward b = w ∧ Bed.status b = MAINTENANCE) t.
Proof.
  unfold count. rewrite !findMany_filter.
  induction (map_to_list t) as [|[k b] l IH]; [done|].
  rewrite !filter_cons. simpl.
  destruct (Bed.status b) eqn:Hst; repeat case_decide; simpl;
    first [lia | exfalso; intuition congruence].
Qed.

Lemma count_nonneg {V} (P : V → Prop) `{!∀ v, Decision (P v)}
    (t : gmap string V) : 0 ≤ count P t.
Proof. unfold count. lia. Qed.

Lemma ward_entry (w : WardType) (a o m : Z) :
  0 ≤ a → 0 ≤ o → 0 ≤ m →
  foldl (λ o g, Some (bed_stats.record_count g.1.2 g.2
                        (default (bed_stats.mkWardStat 0 0 0 0) o)))
    None
    (filter (λ g : WardType * BedStatus * Z, 0 < g.2)
       [(w, AVAILABLE, a); (w, OCCUPIED, o); (w, MAINTENANCE, m)])
  = (if decide (0 < a + o + m)
     then Some (bed_stats.mkWardStat (a + o + m) a o m)
     else None).
Proof.
  intros Ha Ho Hm. rewrite !filter_cons, filter_nil. simpl.
  destruct (decide (0 < a)), (decide (0 < o)), (decide (0 < m)); simpl;
    destruct (decide (0 < a + o + m)); try lia;
    unfold bed_stats.record_count; simpl; try done;
    f_equal; f_equal; lia.
Qed.

(** X15: GET /dashboard/beds/stats. A ward with no bed has no entry in the
    reply; a ward with beds has one entry whose available, occupied and
    maintenance are the numbers of its beds in each status (0 where there
    is none) and whose total is the number of its beds, the sum of the
    three; and the reply has no key besides the six ward names. *)
Theorem ward_statistics (s : Store) (w : WardType) :
  let n st := count (λ b, Bed.ward b = w ∧ Bed.status b = st) (bed s) in
  let total := count (λ b, Bed.ward b = w) (bed s) in
  total = n AVAILABLE + n OCCUPIED + n MAINTENANCE
  ∧ bed_stats.stats s !! bed_stats.ward_key w
    = (if decide (0 < total)
       then Some (bed_stats.mkWardStat total (n AVAILABLE) (n OCCUPIED)
                    (n MAINTENANCE))
       else None)
  ∧ ∀ K, (∀ w', K ≠ bed_stats.ward_key w') → bed_stats.stats s !! K = None.
Proof.
  intros n total.
  assert (Htotal : total = n AVAILABLE + n OCCUPIED + n MAINTENANCE)
    by apply count_by_status.
  split; [done|]. unfold bed_stats.stats, bed_stats.bedStats.
  split.
  - rewrite add_stat_lookup, filter_comm.
    rewrite (groups_of_ward
               (λ w' st, count (λ b, Bed.ward b = w' ∧ Bed.status b = st)
                           (bed s)) w).
    rewrite lookup_empty, Htotal.
    apply ward_entry; apply count_nonneg.
  - intros K HK. rewrite add_stat_lookup, filter_comm.
    rewrite (groups_of_no_ward _ K HK). by rewrite filter_nil, lookup_empty.
Qed.

(** ** The tables a request writes *)

Lemma same_table_handle (t : Table) (r : Request) (s : Store) :
  t ∉ writes r → same_table t s (handle r s).
Proof.
  intros Ht.
  destruct r; simpl in *; unfold_handlers; unfold_tx;
    repeat case_match; simplify_eq/=;
    destruct t; simpl; try done; exfalso; apply Ht;
    repeat first [apply list_elem_of_here | apply list_elem_of_further].
Qed.

(** X16: each request writes only the tables of its resource. Over any
    sequence of requests none of which writes a given table (patient
    requests write Patient, and Bed on deletion; appointment requests
    Appointment; bed requests Bed; admission requests Admission and Bed;
    inventory requests InventoryItem; none writes User), that table is at
    the end what it was at the start. *)
Theorem tables_written (t : Table) (rs : list Request) (s : Store) :
  Forall (λ r, t ∉ writes r) rs → same_table t s (run rs s).
Proof.
  revert s. induction rs as [|r rs IH]; intros s Hrs.
  - by destruct t.
  - apply Forall_cons in Hrs as [Hr Hrs]. simpl.
    pose proof (same_table_handle t r s Hr) as H1.
    pose proof (IH (handle r s) Hrs) as H2.
    destruct t; simpl in *; congruence.
Qed.

Lemma tables_written_witness :
  bed (run [POST_patients Sample.patient_id Sample.john_doe;
            POST_appointments Sample.appointment_1 (Sample.visit SCHEDULED);
            POST_inventory Sample.item_id Sample.paracetamol]
         Sample.ward)
  = bed Sample.ward.
Proof.
  apply (tables_written Bed_table).
  rewrite !Forall_cons, Forall_nil. simpl.
  repeat split; intros H;
    repeat (apply elem_of_cons in H as [H|H]; [discriminate|]);
    by apply elem_of_nil in H.
Defined.

Lemma user_run rs s : user (run rs s) = user s.
Proof.
  revert s. induction rs as [|r rs IH]; intros s; [done|].
  simpl. rewrite IH.
  apply (same_table_handle User_table r s).
  destruct r; simpl; intros H;
    repeat (apply elem_of_cons in H as [H|H]; [discriminate|]);
    by apply elem_of_nil in H.
Qed.

(** ** Doctors *)

Lemma doctor_listed (s : Store) (id : string) :
  id ∈ (users.id <$> users.doctors s)
  ↔ not_a_doctor (findUnique id (user s)) = false.
Proof.
  unfold users.doctors. rewrite <- list_fmap_compose, list_elem_of_fmap.
  unfold findUnique, not_a_doctor. split.
  - intros ([k u] & -> & Hin). apply findMany_elem in Hin as [Hk Hr].
    simpl in *. rewrite Hk. apply bool_decide_eq_false. by intros ?.
  - destruct (user s !! id) as [u|] eqn:Hu; [|done].
    intros Hr%bool_decide_eq_false. exists (id, u). split; [done|].
    apply findMany_elem. split; [done|].
    destruct (decide (User.role u = DOCTOR)); [done|]. by destruct Hr.
Qed.

Lemma appointments_post_errors_nil isUUID body :
  routes.appointments_post_errors isUUID body = []
  ↔ isUUID (appointments.PostBody.patientId body) = true
    ∧ isUUID (appointments.PostBody.doctorId body) = true
    ∧ matches_time (appointments.PostBody.time body) = true.
Proof.
  unfold routes.appointments_post_errors, withMessage.
  destruct (isUUID (appointments.PostBody.patientId body)),
    (isUUID (appointments.PostBody.doctorId body)),
    (matches_time (appointments.PostBody.time body)); simpl; split;
    try done; by intros (? & ? & ?).
Qed.

(** The handler of appointment creation answers 201 exactly when the
    patient exists, the doctor is one and the store accepts the key. *)
Lemma appointments_post_created nulls_first newId body s :
  (∃ x, (appointments.post nulls_first newId body s).2 = json 201 x)
  ↔ is_Some (patient s !! appointments.PostBody.patientId body)
    ∧ not_a_doctor (findUnique (appointments.PostBody.doctorId body) (user s))
      = false
    ∧ appointment s !! newId = None.
Proof.
  unfold appointments.post, findUnique, create.
  destruct (patient s !! _) as [p|]; simpl.
  2: { split; [by intros [x Hx]|by intros ([? ?] & _)]. }
  destruct (not_a_doctor _); simpl.
  { split; [by intros [x Hx]|by intros (_ & ? & _)]. }
  destruct (appointment s !! newId); simpl.
  - split; [by intros [x Hx]|by intros (_ & _ & ?)].
  - split; [by intros _|by eexists].
Qed.

(** X17: GET /users/doctors lists each user whose role is DOCTOR once,
    with the id, names and email of its row, and no one else. Everything
    else about the call being in order, admission creation and appointment
    creation accept a doctorId exactly when it is listed and is a UUID. No
    sequence of requests changes the list. *)
Theorem doctors_listed (isUUID : string → bool) (s : Store) :
  NoDup (users.id <$> users.doctors s)
  ∧ (∀ d, d ∈ users.doctors s
          ↔ ∃ u, user s !! users.id d = Some u ∧ User.role u = DOCTOR
                 ∧ users.firstName d = User.firstName u
                 ∧ users.lastName d = User.lastName u
                 ∧ users.email d = User.email u)
  ∧ (∀ newId body b,
       isUUID (admissions.PostBody.patientId body) = true →
       isUUID (admissions.PostBody.bedId body) = true →
       is_Some (patient s !! admissions.PostBody.patientId body) →
       bed s !! admissions.PostBody.bedId body = Some b →
       Bed.status b = AVAILABLE →
       (∀ k a, admission s !! k = Some a →
               Admission.patientId a = admissions.PostBody.patientId body →
               Admission.status a ≠ ACTIVE) →
       admission s !! newId = None →
       (∃ x, (routes.admissions_post isUUID newId body s).2 = json 201 x)
       ↔ isUUID (admissions.PostBody.doctorId body) = true
         ∧ admissions.PostBody.doctorId body ∈ (users.id <$> users.doctors s))
  ∧ (∀ nulls_first newId body,
       isUUID (appointments.PostBody.patientId body) = true →
       matches_time (appointments.PostBody.time body) = true →
       is_Some (patient s !! appointments.PostBody.patientId body) →
       appointment s !! newId = None →
       (∃ x, (routes.appointments_post isUUID nulls_first newId body s).2
             = json 201 x)
       ↔ isUUID (appointments.PostBody.doctorId body) = true
         ∧ appointments.PostBody.doctorId body
           ∈ (users.id <$> users.doctors s))
  ∧ ∀ rs, users.doctors (run rs s) = users.doctors s.
Proof.
  split; [|split; [|split; [|split]]].
  - unfold users.doctors. rewrite <- list_fmap_compose.
    apply (findMany_NoDup (λ u, User.role u = DOCTOR) (user s)).
  - intros d. unfold users.doctors. rewrite list_elem_of_fmap. split.
    + intros ([k u] & -> & Hin). apply findMany_elem in Hin as [Hk Hr].
      simpl. eauto 10.
    + intros (u & Hk & Hr & Hf & Hl & He). exists (users.id d, u).
      split; [|by apply findMany_elem].
      destruct d. simpl in *. by subst.
  - intros newId body b Hp Hb [p Hpat] Hbed Hst Hnone Hfresh.
    rewrite doctor_listed. unfold routes.admissions_post.
    destruct (validated_cases (routes.admissions_post_errors isUUID body)
                (admissions.post newId body) s) as [[Hnil ->]|[Herr ->]].
    + apply admissions_post_errors_nil in Hnil as (_ & _ & Hd).
      split.
      * intros [x Hx]. split; [done|].
        destruct (post_cases newId body s)
          as [Hsame|(_ & _ & _ & _ & (d & Hu & Hrole) & _)].
        -- revert Hx. unfold admissions.post, findUnique.
           rewrite Hpat, Hbed. rewrite decide_False by (intros Hne; by apply Hne).
           destruct (not_a_doctor _); [done|]. done.
        -- unfold findUnique, not_a_doctor. rewrite Hu.
           apply bool_decide_eq_false. by intros ?.
      * intros [_ Hdoc]. unfold findUnique, not_a_doctor in Hdoc.
        destruct (user s !! admissions.PostBody.doctorId body) as [d|] eqn:Hu;
          [|done].
        apply bool_decide_eq_false in Hdoc.
        assert (Hrole : User.role d = DOCTOR).
        { destruct (decide (User.role d = DOCTOR)); [done|]. by destruct Hdoc. }
        destruct (proj2 (post_occupies_bed newId body s) p b d
                    Hpat Hbed Hst Hu Hrole Hnone Hfresh)
          as (adm & b' & Hpost & _).
        rewrite Hpost. by eexists.
    + split; [by intros [x Hx]|].
      intros [Hd _]. exfalso. apply Herr.
      by apply admissions_post_errors_nil.
  - intros nulls_first newId body Hp Ht Hpat Hfresh.
    rewrite doctor_listed. unfold routes.appointments_post.
    destruct (validated_cases (routes.appointments_post_errors isUUID body)
                (appointments.post nulls_first newId body) s)
      as [[Hnil ->]|[Herr ->]].
    + apply appointments_post_errors_nil in Hnil as (_ & Hd & _).
      rewrite appointments_post_created. split.
      * by intros (_ & ? & _).
      * by intros [_ ?].
    + split; [by intros [x Hx]|].
      intros [Hd _]. exfalso. apply Herr.
      by apply appointments_post_errors_nil.
  - intros rs. unfold users.doctors. by rewrite user_run.
Qed.

Lemma doctors_listed_witness :
  (∃ x, (routes.admissions_post uuid_pattern Sample.admission_id
           Sample.admit_john Sample.ward).2 = json 201 x)
  ∧ Sample.seed_doctor_id
    ∈ (users.id <$> users.doctors Sample.seeded_ward)
  ∧ ¬ ∃ x, (routes.admissions_post uuid_pattern Sample.admission_id
              Sample.admit_john_seed_doctor Sample.seeded_ward).2
           = json 201 x.
Proof.
  destruct (doctors_listed uuid_pattern Sample.ward)
    as (_ & _ & Hward & _).
  destruct (doctors_listed uuid_pattern Sample.seeded_ward)
    as (_ & _ & Hseed & _).
  assert (Hadm : admission Sample.ward = ∅) by (vm_compute; reflexivity).
  assert (Hadm' : admission Sample.seeded_ward = ∅)
    by (vm_compute; reflexivity).
  split; [|split].
  - eapply (Hward Sample.admission_id Sample.admit_john).
    + vm_compute. reflexivity.
    + vm_compute. reflexivity.
    + vm_compute. eexists. reflexivity.
    + vm_compute. reflexivity.
    + reflexivity.
    + intros k a Hk. rewrite Hadm, lookup_empty in Hk. discriminate Hk.
    + rewrite Hadm. apply lookup_empty.
    + split; [vm_compute; reflexivity|]. vm_compute.
      apply list_elem_of_here.
  - vm_compute. apply list_elem_of_here.
  - intros Hx.
    eapply (Hseed Sample.admission_id Sample.admit_john_seed_doctor) in Hx
      as [Hu _].
    + vm_compute in Hu. discriminate Hu.
    + vm_compute. reflexivity.
    + vm_compute. reflexivity.
    + vm_compute. eexists. reflexivity.
    + vm_compute. reflexivity.
    + reflexivity.
    + intros k a Hk. rewrite Hadm', lookup_empty in Hk. discriminate Hk.
    + rewrite Hadm'. apply lookup_empty.
Defined.

(** ** Inventory items and detail routes *)

(** X18: an inventory item through its life, validators and columns
    included. An id that is not a UUID is answered 400 by GET, PUT and
    DELETE /inventory/:id, and nothing is written. For a UUID that names
    no item, GET and DELETE answer 404, as does a PUT whose quantity is not
    negative; a creation under that id is answered 400 when the body fails
    a validator (empty name or unit, negative quantity, reorder level below
    1, negative cost), 500 when quantity or reorder level do not fit 32
    bits, and otherwise 201 with a row that GET then returns, other items
    reading as before, a DELETE of it restoring the store. For a UUID that
    names an item, GET returns it, a PUT that passes the validators and
    fits the columns answers 200 and GET then returns the updated row, and
    after DELETE (200) GET answers 404; other items read as before. *)
Theorem inventory_round_trip (isUUID : string → bool) (id : string)
    (body : inventory.PostBody.t) (upd : inventory.PutBody.t) (s : Store) :
  (isUUID id = false →
   inventory_get.by_id isUUID id s = invalid ["Invalid item ID"]
   ∧ (∃ errors, routes.inventory_put isUUID id upd s = (s, invalid errors))
   ∧ routes.inventory_delete isUUID id s = (s, invalid ["Invalid item ID"]))
  ∧ (isUUID id = true → inventoryItem s !! id = None →
     inventory_get.by_id isUUID id s = error 404 "Inventory item not found"
     ∧ ((∀ q, inventory.PutBody.quantity upd = Some q → 0 ≤ q) →
        routes.inventory_put isUUID id upd s
        = (s, error 404 "Inventory item not found"))
     ∧ routes.inventory_delete isUUID id s
       = (s, error 404 "Inventory item not found")
     ∧ (routes.inventory_post_errors body ≠ [] →
        routes.inventory_post id body s
        = (s, invalid (routes.inventory_post_errors body)))
     ∧ (routes.inventory_post_errors body = [] →
        (fits_int4 (inventory.PostBody.quantity body)
         && fits_int4 (inventory.PostBody.reorderLevel body) = false →
         routes.inventory_post id body s = (s, store_error))
        ∧ (fits_int4 (inventory.PostBody.quantity body)
           && fits_int4 (inventory.PostBody.reorderLevel body) = true →
           ∃ row,
             (routes.inventory_post id body s).2 = json 201 (id, row)
             ∧ InventoryItem.name row = inventory.PostBody.name body
             ∧ InventoryItem.quantity row = inventory.PostBody.quantity body
             ∧ inventory_get.by_id isUUID id
                 (routes.inventory_post id body s).1 = json 200 (id, row)
             ∧ (∀ k, k ≠ id →
                  inventory_get.by_id isUUID k
                    (routes.inventory_post id body s).1
                  = inventory_get.by_id isUUID k s)
             ∧ routes.inventory_delete isUUID id
                 (routes.inventory_post id body s).1
               = (s, json 200 "Inventory item deleted successfully"))))
  ∧ (isUUID id = true →
     ∀ item, inventoryItem s !! id = Some item →
       inventory_get.by_id isUUID id s = json 200 (id, item)
       ∧ ((∀ q, inventory.PutBody.quantity upd = Some q → 0 ≤ q) →
          inventory.fits_columns (inventory.put_data upd item item) = true →
          (routes.inventory_put isUUID id upd s).2
          = json 200 (id, inventory.put_data upd item item)
          ∧ inventory_get.by_id isUUID id
              (routes.inventory_put isUUID id upd s).1
            = json 200 (id, inventory.put_data upd item item)
          ∧ (∀ k, k ≠ id →
               inventory_get.by_id isUUID k
                 (routes.inventory_put isUUID id upd s).1
               = inventory_get.by_id isUUID k s))
       ∧ (routes.inventory_delete isUUID id s).2
         = json 200 "Inventory item deleted successfully"
       ∧ inventory_get.by_id isUUID id (routes.inventory_delete isUUID id s).1
         = error 404 "Inventory item not found"
       ∧ (∀ k, k ≠ id →
            inventory_get.by_id isUUID k (routes.inventory_delete isUUID id s).1
            = inventory_get.by_id isUUID k s)).
Proof.
  assert (Hput_valid : isUUID id = true →
            (∀ q, inventory.PutBody.quantity upd = Some q → 0 ≤ q) →
            routes.inventory_put isUUID id upd s = inventory.put id upd s).
  { intros Hu Hq. unfold routes.inventory_put, routes.inventory_put_errors.
    rewrite Hu. simpl.
    destruct (inventory.PutBody.quantity upd) as [q|]; [|done]. simpl.
    specialize (Hq q eq_refl). apply Z.leb_le in Hq. by rewrite Hq. }
  assert (Hdel_valid : isUUID id = true →
            routes.inventory_delete isUUID id s = inventory.delete id s).
  { intros Hu. unfold routes.inventory_delete. by rewrite Hu. }
  split; [|split].
  - intros Hu. unfold inventory_get.by_id, found, routes.inventory_put,
      routes.inventory_put_errors, routes.inventory_delete.
    rewrite Hu. simpl. split; [done|]. split; [by eexists|done].
  - intros Hu Hnone.
    split; [|split; [|split; [|split]]].
    + unfold inventory_get.by_id, found, findUnique. by rewrite Hu, Hnone.
    + intros Hq. rewrite (Hput_valid Hu Hq).
      unfold inventory.put, findUnique. by rewrite Hnone.
    + rewrite (Hdel_valid Hu). unfold inventory.delete, findUnique.
      by rewrite Hnone.
    + intros Herr. unfold routes.inventory_post, validated.
      by destruct (routes.inventory_post_errors body).
    + intros Hnil. unfold routes.inventory_post. rewrite Hnil. simpl.
      unfold inventory.post, inventory.fits_columns, create. simpl.
      split.
      * intros Hfit. by rewrite Hfit.
      * intros Hfit. rewrite Hfit, Hnone. simpl.
        eexists. split; [done|]. split; [done|]. split; [done|].
        unfold inventory_get.by_id, found, findUnique,
          routes.inventory_delete. simpl.
        rewrite Hu. simpl. rewrite lookup_insert_eq.
        split; [done|]. split.
        -- intros k Hk. by rewrite lookup_insert_ne.
        -- unfold inventory.delete, findUnique, delete_row. simpl.
           rewrite lookup_insert_eq. simpl.
           rewrite delete_insert_eq, delete_id by done. by destruct s.
  - intros Hu item Hitem.
    split; [|split; [|split; [|split]]].
    + unfold inventory_get.by_id, found, findUnique. by rewrite Hu, Hitem.
    + intros Hq Hfit. rewrite (Hput_valid Hu Hq).
      unfold inventory.put, findUnique, update. rewrite Hitem, Hfit. simpl.
      unfold inventory_get.by_id, found, findUnique. simpl.
      rewrite Hu, lookup_insert_eq. split; [done|]. split; [done|].
      intros k Hk. by rewrite lookup_insert_ne.
    + rewrite (Hdel_valid Hu).
      unfold inventory.delete, findUnique, delete_row. by rewrite Hitem.
    + rewrite (Hdel_valid Hu).
      unfold inventory.delete, findUnique, delete_row. rewrite Hitem. simpl.
      unfold inventory_get.by_id, found, findUnique. simpl.
      by rewrite Hu, lookup_delete_eq.
    + intros k Hk. rewrite (Hdel_valid Hu).
      unfold inventory.delete, findUnique, delete_row. rewrite Hitem. simpl.
      unfold inventory_get.by_id, found, findUnique. simpl.
      by rewrite lookup_delete_ne.
Qed.

Lemma inventory_round_trip_witness :
  inventory_get.by_id uuid_pattern Sample.item_id
    (routes.inventory_put uuid_pattern Sample.item_id Sample.zero_update
       Sample.pharmacy).1
  = json 200 (Sample.item_id,
              inventory.put_data Sample.zero_update Sample.paracetamol_row
                Sample.paracetamol_row).
Proof.
  edestruct (inventory_round_trip uuid_pattern Sample.item_id
               Sample.paracetamol Sample.zero_update Sample.pharmacy)
    as (_ & _ & Hrow).
  edestruct (Hrow eq_refl Sample.paracetamol_row) as (_ & Hput & _).
  - vm_compute. reflexivity.
  - edestruct Hput as (_ & Hget & _).
    + intros q Hq. injection Hq as <-. done.
    + vm_compute. reflexivity.
    + exact Hget.
Defined.

Lemma keys_without {V} (id : string) (l : list (string * V)) :
  id ∉ l.*1 ↔ ∀ v, (id, v) ∉ l.
Proof.
  rewrite list_elem_of_fmap. split.
  - intros Hno v Hin. apply Hno. by exists (id, v).
  - intros Hno ([k v] & -> & Hin). by apply (Hno v).
Qed.

(** X19: the detail routes against the lists. For an id that is not a
    UUID, GET /admissions/:id, GET /appointments/:id and GET /patients/:id
    answer 400. GET /admissions/:id answers 200 with a row exactly when the
    id is a UUID and GET /admissions lists that row under it, and 404
    exactly when the id is a UUID and the list has no entry under it; the
    same for appointments. In a store whose foreign keys name existing
    rows, GET /patients/:id/admissions is empty for an id that GET
    /patients/:id answers with 404. *)
Theorem detail_agrees_with_list (isUUID : string → bool) (id : string)
    (s : Store) :
  (isUUID id = false →
   admissions_get.by_id isUUID id s = invalid ["Invalid admission ID"]
   ∧ appointments_get.by_id isUUID id s = invalid ["Invalid appointment ID"]
   ∧ patients_get.by_id isUUID id s = invalid ["Invalid patient ID"])
  ∧ (∀ a, admissions_get.by_id isUUID id s = json 200 (id, a)
          ↔ isUUID id = true ∧ (id, a) ∈ admissions_get.all s)
  ∧ (admissions_get.by_id isUUID id s = error 404 "Admission not found"
     ↔ isUUID id = true ∧ id ∉ (admissions_get.all s).*1)
  ∧ (∀ a, appointments_get.by_id isUUID id s = json 200 (id, a)
          ↔ isUUID id = true ∧ (id, a) ∈ appointments_get.all s)
  ∧ (appointments_get.by_id isUUID id s = error 404 "Appointment not found"
     ↔ isUUID id = true ∧ id ∉ (appointments_get.all s).*1)
  ∧ (references_ok s →
     patients_get.by_id isUUID id s = error 404 "Patient not found" →
     patients_get.admissions id s = []).
Proof.
  unfold admissions_get.by_id, appointments_get.by_id, patients_get.by_id,
    found, findUnique, admissions_get.all, appointments_get.all,
    patients_get.admissions.
  split; [|split; [|split; [|split; [|split]]]].
  - intros Hu. by rewrite Hu.
  - intros a. rewrite sort_by_perm, findMany_elem.
    destruct (isUUID id); [|split; [done|by intros [? _]]].
    destruct (admission s !! id) as [v|]; split;
      [by intros [= ->]|by intros [_ [[= ->] _]]|done|by intros [_ [? _]]].
  - rewrite keys_without. setoid_rewrite sort_by_perm.
    setoid_rewrite findMany_elem.
    destruct (isUUID id); [|split; [done|by intros [? _]]].
    destruct (admission s !! id) as [v|]; split;
      [done|intros [_ Hno]; by destruct (Hno v)
      |intros _; split; [done|by intros v [? _]]|done].
  - intros a. rewrite sort_by_perm, findMany_elem.
    destruct (isUUID id); [|split; [done|by intros [? _]]].
    destruct (appointment s !! id) as [v|]; split;
      [by intros [= ->]|by intros [_ [[= ->] _]]|done|by intros [_ [? _]]].
  - rewrite keys_without. setoid_rewrite sort_by_perm.
    setoid_rewrite findMany_elem.
    destruct (isUUID id); [|split; [done|by intros [? _]]].
    destruct (appointment s !! id) as [v|]; split;
      [done|intros [_ Hno]; by destruct (Hno v)
      |intros _; split; [done|by intros v [? _]]|done].
  - intros (Hadm & _) Hnone.
    destruct (isUUID id); [|done].
    destruct (patient s !! id) as [p|] eqn:Hp; [done|].
    assert (Hnil : findMany (λ a, Admission.patientId a = id) (admission s)
                   = []).
    { apply findMany_nil. intros k a Hk Hid.
      destruct (Hadm k a Hk) as ([p Hp'] & _). congruence. }
    by rewrite Hnil.
Qed.

Lemma detail_agrees_with_list_witness :
  patients_get.admissions Sample.appointment_1 Sample.admitted_ward = [].
Proof.
  eapply (detail_agrees_with_list uuid_pattern Sample.appointment_1
            Sample.admitted_ward).
  - apply (run_invariant references_ok references_ok_handle
             [POST_patients Sample.patient_id Sample.john_doe;
              POST_beds (Some Sample.doctor_id) Sample.bed_id Sample.bed_A101;
              POST_admissions Sample.admission_id Sample.admit_john]).
    exact references_ok_staffed.
  - vm_compute. reflexivity.
Defined.

(** ** Bed and admission pairing, bed requests included *)

Lemma coordinated_same_occupancy s s' :
  admission s' = admission s →
  (∀ bid b', bed s' !! bid = Some b' →
     ∃ b, bed s !! bid = Some b
          ∧ (Bed.status b' = OCCUPIED ↔ Bed.status b = OCCUPIED)) →
  coordinated s → coordinated s'.
Proof.
  intros Hadm Hbed Hc bid b' Hb'.
  destruct (Hbed bid b' Hb') as (b & Hb & Hst).
  destruct (Hc bid b Hb) as [Hocc Hfree].
  unfold exactly_one_active, active_on in *. rewrite Hadm. split.
  - intros Ho. apply Hocc. by apply Hst.
  - intros Ho. apply Hfree. intros Ho'. by apply Ho, Hst.
Qed.

(** A bed that is created AVAILABLE or under MAINTENANCE is referenced by
    no admission, the foreign keys naming existing beds. *)
Lemma coordinated_beds_post auth newId body s :
  references_ok s → beds.PostBody.status body ≠ Some OCCUPIED →
  coordinated s → coordinated (beds.post auth newId body s).1.
Proof.
  intros (Hadm & _) Hst Hc. unfold beds.post, create.
  destruct (falsy_field auth); [done|].
  destruct (findFirst _ _); [done|].
  destruct (bed s !! newId) as [b0|] eqn:Hnew; [done|]. simpl.
  intros bid b' Hb'. simpl in Hb'.
  destruct (decide (newId = bid)) as [<-|Hne].
  - rewrite lookup_insert_eq in Hb'. injection Hb' as <-. simpl. split.
    + intros Ho. exfalso.
      destruct (beds.PostBody.status body) as [[]|]; simpl in Ho; congruence.
    + intros _ aid (a & Ha & _ & Hbid).
      destruct (Hadm aid a Ha) as (_ & [b Hb] & _). congruence.
  - rewrite lookup_insert_ne in Hb' by done. exact (Hc bid b' Hb').
Qed.

Lemma coordinated_beds_put now id body s :
  keeps_occupancy (PUT_beds now id body) s →
  coordinated s → coordinated (beds.put now id body s).1.
Proof.
  intros Hkeep Hc. simpl in Hkeep.
  apply (coordinated_same_occupancy s); [|  |done].
  - unfold beds.put, beds.write_bed, update. by repeat case_match.
  - intros bid b'. unfold beds.put, findUnique.
    destruct (bed s !! id) as [b|] eqn:Hb; [|by eauto].
    destruct (Hkeep b eq_refl) as [Hchange Hsame].
    assert (Hwrite : ∀ f, (Bed.status (f b) = OCCUPIED ↔ Bed.status b = OCCUPIED) →
              bed (with_bed (<[id := f b]> (bed s)) s) !! bid = Some b' →
              ∃ b0, bed s !! bid = Some b0
                    ∧ (Bed.status b' = OCCUPIED ↔ Bed.status b0 = OCCUPIED)).
    { intros f Hf. simpl. destruct (decide (id = bid)) as [<-|Hne].
      - rewrite lookup_insert_eq. intros [= <-]. eauto.
      - rewrite lookup_insert_ne by done. eauto. }
    unfold beds.status_change, beds.write_bed, update.
    destruct (beds.PutBody.status body) as [st|] eqn:Hst.
    + destruct (decide (st ≠ Bed.status b)) as [Hne|Heq].
      * destruct (Hchange st eq_refl Hne) as [Hno Hfree].
        destruct st; try done; rewrite Hb; simpl;
          apply (Hwrite (beds.put_release _ body)); simpl; split; done.
      * apply dec_stable in Heq. subst st.
        destruct (falsy_field (beds.PutBody.patientId body)) eqn:Hfalsy.
        -- rewrite Hb. simpl. by apply (Hwrite (beds.put_notes body)).
        -- destruct (patient s !! _); [|by eauto].
           rewrite Hb. simpl.
           apply (Hwrite (beds.put_occupy now _ body)). simpl.
           split; [|done]. intros _. apply Hsame; [|done].
           by intros st [= <-].
    + destruct (falsy_field (beds.PutBody.patientId body)) eqn:Hfalsy.
      * rewrite Hb. simpl. by apply (Hwrite (beds.put_notes body)).
      * destruct (patient s !! _); [|by eauto].
        rewrite Hb. simpl.
        apply (Hwrite (beds.put_occupy now _ body)). simpl.
        split; [|done]. intros _. apply Hsame; [|done]. by intros st.
Qed.

Lemma coordinated_step r s :
  references_ok s → keeps_occupancy r s →
  coordinated s → coordinated (handle r s).
Proof.
  intros Href Hkeep Hc.
  destruct (writes_bed_directly r) eqn:Hw;
    [|by apply coordinated_handle].
  destruct r; try done; simpl.
  - by apply coordinated_beds_post.
  - by apply coordinated_beds_put.
Qed.

Lemma references_ok_ward : references_ok Sample.ward.
Proof.
  apply (run_invariant references_ok references_ok_handle).
  exact references_ok_staffed.
Qed.

(** C1, amended: requests being served one after the other, starting from
    a store whose foreign keys name existing rows and in which every
    OCCUPIED bed has exactly one ACTIVE admission and every other bed has
    none, any sequence of requests that does not make a bed OCCUPIED or
    free through the bed endpoints leads to a store in which a bed is
    OCCUPIED if and only if exactly one ACTIVE admission references it.
    The bed endpoints may create beds that are not OCCUPIED, move a bed
    between AVAILABLE and MAINTENANCE, write notes and dates, and name a
    patient for a bed that is OCCUPIED already. *)
Theorem pairing_kept_in_turn (rs : list Request) (s : Store) :
  references_ok s → coordinated s → keep_occupancy rs s →
  coordinated (run rs s) ∧ bed_admission_paired (run rs s).
Proof.
  intros Href Hc Hkeep.
  assert (Hc' : coordinated (run rs s)).
  { revert s Href Hc Hkeep.
    induction rs as [|r rs IH]; intros s Href Hc Hkeep; [done|].
    destruct Hkeep as [Hr Hrs]. simpl. apply IH.
    - by apply references_ok_handle.
    - by apply coordinated_step.
    - done. }
  split; [done|]. by apply coordinated_paired.
Qed.

Lemma pairing_kept_in_turn_witness :
  let rs := [POST_beds (Some Sample.doctor_id) Sample.bed_id_2
               Sample.bed_A102;
             Sample.note_A101;
             POST_admissions Sample.admission_id Sample.admit_john;
             PUT_beds 1745539200000 Sample.bed_id_2
               (beds.PutBody.mk (Some MAINTENANCE) None None None None)] in
  bed_admission_paired (run rs Sample.ward)
  ∧ ∃ b a,
      bed (run rs Sample.ward) !! Sample.bed_id = Some b
      ∧ Bed.status b = OCCUPIED
      ∧ admission (run rs Sample.ward) !! Sample.admission_id = Some a
      ∧ Admission.status a = ACTIVE
      ∧ Admission.bedId a = Sample.bed_id.
Proof.
  intros rs. split.
  - apply (pairing_kept_in_turn rs Sample.ward).
    + exact references_ok_ward.
    + exact coordinated_ward.
    + subst rs. cbn [keep_occupancy keeps_occupancy Sample.note_A101].
      split; [discriminate|]. split.
      { intros b Hb. split.
        - intros st Hst. discriminate Hst.
        - intros _ Hf. discriminate Hf. }
      split; [exact I|]. split; [|exact I].
      intros b Hb. vm_compute in Hb. injection Hb as <-. split.
      * intros st Hst _. injection Hst as <-. split; discriminate.
      * intros Hsame. specialize (Hsame MAINTENANCE eq_refl).
        discriminate Hsame.
  - eexists _, _. split; [vm_compute; reflexivity|].
    split; [reflexivity|]. split; [vm_compute; reflexivity|].
    split; reflexivity.
Defined.

(** ** Requests that overlap *)

Lemma appointments_post_alone nulls_first newId body s :
  finish (steps.appointments_post nulls_first newId body) s
  = appointments.post nulls_first newId body s.
Proof.
  unfold steps.appointments_post, appointments.post, call, query,
    steps.appointments_create, findUnique. simpl.
  destruct (patient s !! _) as [p|] eqn:Hp; [|done]. simpl.
  destruct (not_a_doctor _) eqn:Hd; [done|]. simpl.
  unfold not_a_doctor in Hd.
  destruct (user s !! _) as [d|] eqn:Hu; [|done].
  unfold appointments.queueNumber.
  destruct (decide (appointments.PostBody.status body ≠ CANCELLED));
    simpl; rewrite Hp, Hu; by destruct (create _ _ _) as [[t a]|].
Qed.

(** The queue number depends on the body through its date and on whether
    its status is CANCELLED. *)
Lemma queueNumber_same_day nulls_first b1 b2 t :
  appointments.PostBody.date b1 = appointments.PostBody.date b2 →
  appointments.PostBody.status b1 ≠ CANCELLED →
  appointments.PostBody.status b2 ≠ CANCELLED →
  appointments.queueNumber nulls_first b1 t
  = appointments.queueNumber nulls_first b2 t
  ∧ is_Some (appointments.queueNumber nulls_first b1 t).
Proof.
  intros Hd H1 H2. unfold appointments.queueNumber.
  rewrite !decide_True by done. rewrite Hd.
  repeat case_match; eauto.
Qed.

(** X20: two creations of appointments that overlap. Two calls of POST
    /appointments for one date, neither CANCELLED, each naming an existing
    patient and doctor: when each reads the highest queue number of the
    day before the other writes, both are answered 201 and the two
    appointments carry the same queue number. *)
Theorem overlapping_appointments_share_a_number (nulls_first : bool)
    (id1 id2 : string) (b1 b2 : appointments.PostBody.t) (s : Store) :
  id1 ≠ id2 → appointment s !! id1 = None → appointment s !! id2 = None →
  is_Some (patient s !! appointments.PostBody.patientId b1) →
  is_Some (patient s !! appointments.PostBody.patientId b2) →
  not_a_doctor (user s !! appointments.PostBody.doctorId b1) = false →
  not_a_doctor (user s !! appointments.PostBody.doctorId b2) = false →
  appointments.PostBody.date b1 = appointments.PostBody.date b2 →
  appointments.PostBody.status b1 ≠ CANCELLED →
  appointments.PostBody.status b2 ≠ CANCELLED →
  let served :=
    serve_turns [0; 0; 0; 1; 1; 1; 0; 1]%nat
      [steps.appointments_post nulls_first id1 b1;
       steps.appointments_post nulls_first id2 b2] s in
  ∃ a1 a2 q,
    served.2 = [replied (json 201 (id1, a1)); replied (json 201 (id2, a2))]
    ∧ appointment served.1 !! id1 = Some a1
    ∧ appointment served.1 !! id2 = Some a2
    ∧ Appointment.queueNumber a1 = Some q
    ∧ Appointment.queueNumber a2 = Some q
    ∧ ¬ queue_numbers_distinct served.1.
Proof.
  intros Hne Hn1 Hn2 [p1 Hp1] [p2 Hp2] Hd1 Hd2 Hdate Hs1 Hs2 served.
  destruct (queueNumber_same_day nulls_first b1 b2 (appointment s)
              Hdate Hs1 Hs2) as [Hq [q Hq1]].
  assert (Hu1 : is_Some (user s !! appointments.PostBody.doctorId b1)).
  { unfold not_a_doctor in Hd1.
    destruct (user s !! appointments.PostBody.doctorId b1); [by eexists|done]. }
  assert (Hu2 : is_Some (user s !! appointments.PostBody.doctorId b2)).
  { unfold not_a_doctor in Hd2.
    destruct (user s !! appointments.PostBody.doctorId b2); [by eexists|done]. }
  destruct Hu1 as [d1 Hu1], Hu2 as [d2 Hu2].
  set (a1 := Appointment.mk (appointments.PostBody.patientId b1)
               (appointments.PostBody.doctorId b1)
               (appointments.PostBody.date b1) (appointments.PostBody.time b1)
               (appointments.PostBody.status b1) (appointments.PostBody.type b1)
               (appointments.PostBody.notes b1) (Some q)).
  set (a2 := Appointment.mk (appointments.PostBody.patientId b2)
               (appointments.PostBody.doctorId b2)
               (appointments.PostBody.date b2) (appointments.PostBody.time b2)
               (appointments.PostBody.status b2) (appointments.PostBody.type b2)
               (appointments.PostBody.notes b2) (Some q)).
  assert (Hserved : served
            = (with_appointment (<[id2 := a2]> (<[id1 := a1]> (appointment s))) s,
               [replied (json 201 (id1, a1)); replied (json 201 (id2, a2))])).
  { subst served. unfold steps.appointments_post, call, query,
      steps.appointments_create, findUnique, create. simpl.
    rewrite Hp1. simpl. rewrite Hd1. simpl.
    rewrite decide_True by done. simpl.
    rewrite Hp2. simpl. rewrite Hd2. simpl.
    rewrite decide_True by done. simpl.
    rewrite Hp1, Hu1, Hn1. simpl.
    rewrite Hp2, Hu2. rewrite lookup_insert_ne by done. rewrite Hn2. simpl.
    rewrite <- Hq, Hq1. done. }
  exists a1, a2, q. rewrite Hserved. simpl.
  split; [done|]. split; [by rewrite lookup_insert_ne, lookup_insert_eq|].
  split; [by rewrite lookup_insert_eq|]. split; [done|]. split; [done|].
  intros Hdist.
  apply (Hdist id1 id2 a1 a2); simpl; try done.
  - by rewrite lookup_insert_ne, lookup_insert_eq.
  - by rewrite lookup_insert_eq.
Qed.

Lemma overlapping_appointments_share_a_number_witness :
  ∃ a1 a2,
    appointment
      (serve_turns [0; 0; 0; 1; 1; 1; 0; 1]%nat
         [steps.appointments_post postgresql_nulls_first Sample.appointment_1
            (Sample.visit SCHEDULED);
          steps.appointments_post postgresql_nulls_first Sample.appointment_2
            (Sample.visit IN_QUEUE)] Sample.ward).1 !! Sample.appointment_1
    = Some a1
    ∧ appointment
        (serve_turns [0; 0; 0; 1; 1; 1; 0; 1]%nat
           [steps.appointments_post postgresql_nulls_first
              Sample.appointment_1 (Sample.visit SCHEDULED);
            steps.appointments_post postgresql_nulls_first
              Sample.appointment_2 (Sample.visit IN_QUEUE)] Sample.ward).1
        !! Sample.appointment_2
      = Some a2
    ∧ Appointment.queueNumber a1 = Some 1
    ∧ Appointment.queueNumber a2 = Some 1.
Proof.
  destruct (overlapping_appointments_share_a_number postgresql_nulls_first
              Sample.appointment_1 Sample.appointment_2
              (Sample.visit SCHEDULED) (Sample.visit IN_QUEUE) Sample.ward)
    as (a1 & a2 & q & _ & H1 & H2 & Hq1 & Hq2 & _).
  - discriminate.
  - vm_compute. reflexivity.
  - vm_compute. reflexivity.
  - vm_compute. eexists. reflexivity.
  - vm_compute. eexists. reflexivity.
  - vm_compute. reflexivity.
  - vm_compute. reflexivity.
  - reflexivity.
  - discriminate.
  - discriminate.
  - exists a1, a2. split; [exact H1|]. split; [exact H2|].
    assert (Hone : Appointment.queueNumber a1 = Some 1).
    { vm_compute in H1. injection H1 as <-. reflexivity. }
    rewrite Hone in Hq1. injection Hq1 as <-. split; [exact Hone|exact Hq2].
Defined.


